(** * Flow engine of the MAX bot: a shallow embedding and its properties

    The development follows the Python sources of [max-bot]:
    - [common/utils.py]           ([Sentinels], [format_message_for_max])
    - [core/utils.py]             ([resolve_references])
    - [core/schemas.py], [database/schemas.py]  ([User], [DBUserState], buttons)
    - [core/keyboard.py]          ([build_keyboard], [build_inline_keyboard])
    - [core/response_builder.py]  ([card_from_json])
    - [core/base.py]              ([validate_user], [validate_flow], [_send_message])
    - [core/decorators.py]        ([middleware])
    - [core/commands.py], [core/handlers.py], [core/callbacks.py]
    - [core/bot.py]               ([_process_callback] with its deduplication cache)

    Python [int] is [Z]; [str] is [string] (the UTF-8 bytes of the text);
    [dict] with string keys is a [gmap string _] where only lookups matter and
    an association list for JSON documents, whose order the resolver keeps;
    [None]-able values are [option]s.  A handler mutates the [user] object it
    is given in place and may raise half-way: handler bodies live in a small
    state-and-exception monad whose state survives a raise. *)

From Stdlib Require Import Ascii.
From stdpp Require Import gmap strings list pretty.

Set Warnings "-register-all".

Open Scope string_scope.
Open Scope Z_scope.
Open Scope list_scope.

(** ** Python builtins used by the sources *)

Module Py.

  (** The exceptions the modelled code can raise. [ClientError] stands for
      any exception coming out of the chat-platform or AI client. *)
Inductive exn :=
  IndexError | KeyError | TypeError | ValueError | ClientError.

Inductive result (A : Type) :=
  | Ok (a : A)
  | Raise (e : exn).
Arguments Ok {A} a.
Arguments Raise {A} e.

  (** [s.startswith(p)] *)
Definition startswith (p s : string) : bool := String.prefix p s.

  (** [needle in hay] on strings. *)
Definition contains (needle hay : string) : bool :=
    match String.index 0 needle hay with Some _ => true | None => false end.

  (** [s.split(sep)] for a one-character separator. *)
Fixpoint split (sep : Ascii.ascii) (s : string) : list string :=
    match s with
    | EmptyString => [""]
    | String c s' =>
        let r := split sep s' in
        if Ascii.eqb c sep then "" :: r
        else match r with
             | x :: xs => String c x :: xs
             | [] => [String c ""]
             end
    end.

  (** [sep.join(lines)] *)
Fixpoint join (sep : string) (lines : list string) : string :=
    match lines with
    | [] => ""
    | [x] => x
    | x :: rest => x +:+ sep +:+ join sep rest
    end.

  (** [s.replace(old, new)] for a non-empty [old]: leftmost, non-overlapping.
      [skip] counts the characters of a matched [old] still to be dropped. *)
Fixpoint replace_go (old new : string) (skip : nat) (s : string) : string :=
    match s with
    | EmptyString => ""
    | String c s' =>
        match skip with
        | S k => replace_go old new k s'
        | O =>
            if String.prefix old s
            then new +:+ replace_go old new (String.length old - 1) s'
            else String c (replace_go old new 0 s')
        end
    end.

Definition replace (old new s : string) : string := replace_go old new 0 s.

  (** [str(n)] / [f"{n}"] for an [int]. *)
Definition str_int (n : Z) : string := pretty n.

  (** [l[-1]] *)
Definition last_item {A} (l : list A) : result A :=
    match last l with
    | Some x => Ok x
    | None => Raise IndexError
    end.

End Py.

Import Py.

(** ** [common/utils.py] *)

Module Sentinels.
Definition EMPTY_STR : string := "".
Definition EMPTY_INT : Z := -1.
End Sentinels.

(** [format_message_for_max]: un-escape [\*] and [\_]. *)
Definition format_message_for_max (text : string) : string :=
  let text := Py.replace "\*" "*" text in
  let text := Py.replace "\_" "_" text in
  text.

(** ** JSON documents and [core/utils.py] *)

(** A parsed JSON document. An object keeps its members in document order;
    [json.load] leaves no duplicate keys. *)
Inductive json :=
| JNull
| JBool (b : bool)
| JNum (n : Z)
| JStr (s : string)
| JList (items : list json)
| JDict (members : list (string * json)).

(** [key in d] / [d[key]] on the members of an object. *)
Fixpoint dict_get (key : string) (members : list (string * json)) : option json :=
  match members with
  | [] => None
  | (k, v) :: rest => if String.eqb k key then Some v else dict_get key rest
  end.

(** [context["buttons"][base_key]] under [try ... except KeyError: raise ValueError]:
    a missing key becomes [ValueError]; subscripting something that is not
    an object with a string is a [TypeError], which the handler lets through. *)
Definition subscript_str (v : json) (key : string) : result json :=
  match v with
  | JDict members =>
      match dict_get key members with
      | Some x => Ok x
      | None => Raise KeyError
      end
  | _ => Raise TypeError
  end.

Definition lookup_base (context : json) (base_key : string) : result json :=
  match subscript_str context "buttons" with
  | Ok buttons =>
      match subscript_str buttons base_key with
      | Ok resolved => Ok resolved
      | Raise KeyError => Raise ValueError
      | Raise e => Raise e
      end
  | Raise KeyError => Raise ValueError
  | Raise e => Raise e
  end.

(** The loop [for subkey in parts[1:]]. *)
Fixpoint follow_subkeys (resolved : json) (subkeys : list string) : result json :=
  match subkeys with
  | [] => Ok resolved
  | subkey :: rest =>
      match resolved with
      | JDict members =>
          match dict_get subkey members with
          | Some v => follow_subkeys v rest
          | None => Raise ValueError
          end
      | _ => Raise ValueError
      end
  end.

(** The branch of [resolve_references] for a string that starts with [@]. *)
Definition resolve_reference (data : string) (context : json) : result json :=
  let reference := match data with String _ r => r | EmptyString => "" end in
  let parts := Py.split "."%char reference in
  let base_key := hd "" parts in
  match lookup_base context base_key with
  | Ok resolved => follow_subkeys resolved (tl parts)
  | Raise e => Raise e
  end.

Fixpoint resolve_references (data context : json) : result json :=
  match data with
  | JDict members =>
      let fix go (ms : list (string * json)) : result (list (string * json)) :=
        match ms with
        | [] => Ok []
        | (key, value) :: rest =>
            match resolve_references value context with
            | Ok v =>
                match go rest with
                | Ok rest' => Ok ((key, v) :: rest')
                | Raise e => Raise e
                end
            | Raise e => Raise e
            end
        end in
      match go members with
      | Ok ms => Ok (JDict ms)
      | Raise e => Raise e
      end
  | JList items =>
      let fix go (l : list json) : result (list json) :=
        match l with
        | [] => Ok []
        | item :: rest =>
            match resolve_references item context with
            | Ok v =>
                match go rest with
                | Ok rest' => Ok (v :: rest')
                | Raise e => Raise e
                end
            | Raise e => Raise e
            end
        end in
      match go items with
      | Ok l => Ok (JList l)
      | Raise e => Raise e
      end
  | JStr s =>
      if Py.startswith "@" s then resolve_reference s context else Ok data
  | _ => Ok data
  end.

(** [load_json_with_references] once the file has been parsed: the document
    is its own context; a raised exception aborts the load. *)
Definition load_json_with_references (data : json) : result json :=
  resolve_references data data.

(** ** [core/schemas.py], [database/schemas.py] *)

(** [Button]: a menu button. [privileged] is an [int] used for its truth value. *)
Module Button.
Record t := mk { name : string; privileged : Z }.
Definition is_privileged (b : t) : bool := negb (privileged b =? 0).
End Button.

(** [InlineButton] *)
Module InlineButton.
Record t := mk { name : string; url : option string; pattern : option string }.
End InlineButton.

(** [Menu], [Menus] of [core/types.py] *)
Abbreviation Menu := (list Button.t).
Abbreviation Menus := (gmap string (list Button.t)).

(** One entry of an inline keyboard as sent to the platform: the [btn_dict]
    of [core/keyboard.py], with its optional keys. *)
Record btn_dict := {
  btn_text : string;
  btn_type : option string;
  btn_payload : option string;
  btn_url : option string
}.

(** A keyboard attachment [{"type": "inline_keyboard", "payload": {"buttons": rows}}]:
    only [rows] varies. *)
Abbreviation markup := (list (list btn_dict)).

(** A result card, [dict[str, Any]]: each field is kept as the text that an
    f-string prints for it. *)
Abbreviation Card := (gmap string string).

(** [DBUserState] without the columns the handlers never touch
    ([id], [created_at], [updated_at]). *)
Module DBUserState.

Record t := mk {
    use_pagination : bool;
    flow_stack : list string;
    search_type : string;
    callback_message_id : option string;
    callback_message_inline_markup : option markup;
    callback_message_need_to_delete : bool;
    cards_json : option (list Card);
    cards_current_page : Z;
    cards_total_length : Z
  }.

  (** The defaults of the schema: what a first contact gets. *)
Definition default : t := {|
    use_pagination := false;
    flow_stack := ["main"];
    search_type := Sentinels.EMPTY_STR;
    callback_message_id := None;
    callback_message_inline_markup := None;
    callback_message_need_to_delete := false;
    cards_json := None;
    cards_current_page := Sentinels.EMPTY_INT;
    cards_total_length := Sentinels.EMPTY_INT
  |}.

  (** Attribute assignment [user.state.<field> = v]. *)
Definition set_use_pagination (v : bool) (s : t) : t :=
    {| use_pagination := v;
       flow_stack := flow_stack s;
       search_type := search_type s;
       callback_message_id := callback_message_id s;
       callback_message_inline_markup := callback_message_inline_markup s;
       callback_message_need_to_delete := callback_message_need_to_delete s;
       cards_json := cards_json s;
       cards_current_page := cards_current_page s;
       cards_total_length := cards_total_length s |}.

Definition set_flow_stack (v : list string) (s : t) : t :=
    {| use_pagination := use_pagination s;
       flow_stack := v;
       search_type := search_type s;
       callback_message_id := callback_message_id s;
       callback_message_inline_markup := callback_message_inline_markup s;
       callback_message_need_to_delete := callback_message_need_to_delete s;
       cards_json := cards_json s;
       cards_current_page := cards_current_page s;
       cards_total_length := cards_total_length s |}.

Definition set_search_type (v : string) (s : t) : t :=
    {| use_pagination := use_pagination s;
       flow_stack := flow_stack s;
       search_type := v;
       callback_message_id := callback_message_id s;
       callback_message_inline_markup := callback_message_inline_markup s;
       callback_message_need_to_delete := callback_message_need_to_delete s;
       cards_json := cards_json s;
       cards_current_page := cards_current_page s;
       cards_total_length := cards_total_length s |}.

Definition set_callback_message_id (v : option string) (s : t) : t :=
    {| use_pagination := use_pagination s;
       flow_stack := flow_stack s;
       search_type := search_type s;
       callback_message_id := v;
       callback_message_inline_markup := callback_message_inline_markup s;
       callback_message_need_to_delete := callback_message_need_to_delete s;
       cards_json := cards_json s;
       cards_current_page := cards_current_page s;
       cards_total_length := cards_total_length s |}.

Definition set_callback_message_inline_markup (v : option markup) (s : t) : t :=
    {| use_pagination := use_pagination s;
       flow_stack := flow_stack s;
       search_type := search_type s;
       callback_message_id := callback_message_id s;
       callback_message_inline_markup := v;
       callback_message_need_to_delete := callback_message_need_to_delete s;
       cards_json := cards_json s;
       cards_current_page := cards_current_page s;
       cards_total_length := cards_total_length s |}.

Definition set_callback_message_need_to_delete (v : bool) (s : t) : t :=
    {| use_pagination := use_pagination s;
       flow_stack := flow_stack s;
       search_type := search_type s;
       callback_message_id := callback_message_id s;
       callback_message_inline_markup := callback_message_inline_markup s;
       callback_message_need_to_delete := v;
       cards_json := cards_json s;
       cards_current_page := cards_current_page s;
       cards_total_length := cards_total_length s |}.

Definition set_cards_json (v : option (list Card)) (s : t) : t :=
    {| use_pagination := use_pagination s;
       flow_stack := flow_stack s;
       search_type := search_type s;
       callback_message_id := callback_message_id s;
       callback_message_inline_markup := callback_message_inline_markup s;
       callback_message_need_to_delete := callback_message_need_to_delete s;
       cards_json := v;
       cards_current_page := cards_current_page s;
       cards_total_length := cards_total_length s |}.

Definition set_cards_current_page (v : Z) (s : t) : t :=
    {| use_pagination := use_pagination s;
       flow_stack := flow_stack s;
       search_type := search_type s;
       callback_message_id := callback_message_id s;
       callback_message_inline_markup := callback_message_inline_markup s;
       callback_message_need_to_delete := callback_message_need_to_delete s;
       cards_json := cards_json s;
       cards_current_page := v;
       cards_total_length := cards_total_length s |}.

Definition set_cards_total_length (v : Z) (s : t) : t :=
    {| use_pagination := use_pagination s;
       flow_stack := flow_stack s;
       search_type := search_type s;
       callback_message_id := callback_message_id s;
       callback_message_inline_markup := callback_message_inline_markup s;
       callback_message_need_to_delete := callback_message_need_to_delete s;
       cards_json := cards_json s;
       cards_current_page := cards_current_page s;
       cards_total_length := v |}.

End DBUserState.

(** [User(DBUser)] with its [state]. *)
Record User := {
  id : Z;
  is_vip : bool;
  is_admin : bool;
  max_id : option string;
  external_id : option string;
  state : DBUserState.t
}.

(** The same user object after its [state] has been mutated. *)
Definition with_state (u : User) (s : DBUserState.t) : User :=
  {| id := id u; is_vip := is_vip u; is_admin := is_admin u;
     max_id := max_id u; external_id := external_id u; state := s |}.

(** ** [core/keyboard.py] *)

(** [special_buttons.get(button.name, button.name)] *)
Definition special_payload (name : string) : string :=
  if String.eqb name "Назад" then "exit_callback" else name.

(** [build_keyboard]: one callback button per row; privileged buttons are
    left out for a user who is not VIP. *)
Fixpoint build_keyboard (buttons : list Button.t) (vip_status : bool) : markup :=
  match buttons with
  | [] => []
  | button :: rest =>
      if Button.is_privileged button && negb vip_status
      then build_keyboard rest vip_status
      else [ {| btn_text := Button.name button;
                btn_type := Some "callback";
                btn_payload := Some (special_payload (Button.name button));
                btn_url := None |} ] :: build_keyboard rest vip_status
  end.

(** Truth value of an optional string: [None] and [""] are false. *)
Definition truthy_str (s : option string) : bool :=
  match s with
  | Some s => negb (String.eqb s "")
  | None => false
  end.

Definition inline_btn_dict (button : InlineButton.t) : btn_dict :=
  if truthy_str (InlineButton.url button) then
    {| btn_text := InlineButton.name button; btn_type := Some "link";
       btn_payload := None; btn_url := InlineButton.url button |}
  else if truthy_str (InlineButton.pattern button) then
    {| btn_text := InlineButton.name button; btn_type := Some "callback";
       btn_payload := InlineButton.pattern button; btn_url := None |}
  else
    {| btn_text := InlineButton.name button; btn_type := None;
       btn_payload := None; btn_url := None |}.

(** [build_inline_keyboard] on a list of rows; empty rows are dropped. *)
Definition build_inline_keyboard (buttons : list (list InlineButton.t)) : markup :=
  filter (λ row, row ≠ []) (map (map inline_btn_dict) buttons).

(** [build_inline_keyboard] on a flat list: one button per row. *)
Definition build_inline_keyboard_flat (buttons : list InlineButton.t) : markup :=
  build_inline_keyboard (map (λ btn, [btn]) buttons).

(** ** [core/response_builder.py] *)

Definition opt_line (card : Card) (key : string) (fmt : string → string)
  : list string :=
  match card !! key with
  | Some v => [fmt v]
  | None => []
  end.

Definition LF : string := String (ascii_of_nat 10) "".

Definition card_from_json (card : Card) (current_page total_pages : Z) : string :=
  let header :=
    "📄 Результат " +:+ Py.str_int (current_page + 1) +:+ " из "
      +:+ Py.str_int (total_pages + 1) +:+ LF in
  let title :=
    match card !! "name" with
    | Some v => ["*" +:+ v +:+ "*" +:+ LF]
    | None => opt_line card "title" (λ v, "*" +:+ v +:+ "*" +:+ LF)
    end in
  let lines :=
    ([header] ++ title
      ++ opt_line card "description" (λ v, v +:+ LF)
      ++ opt_line card "company" (λ v, "🏢 Компания: " +:+ v)
      ++ opt_line card "category" (λ v, "📂 Категория: " +:+ v)
      ++ opt_line card "location" (λ v, "📍 Местоположение: " +:+ v)
      ++ opt_line card "contact" (λ v, "📞 Контакт: " +:+ v)
      ++ opt_line card "url" (λ v, "🔗 [Подробнее](" +:+ v +:+ ")"))%list in
  Py.join LF lines.

(** ** The chat-platform client ([core/max_client.py]) as a collaborator *)

(** The calls the handlers make on [MaxClient]; [parse_mode] is always
    ["Markdown"] and is left out. *)
Inductive client_call :=
| send_message (chat_id : Z) (text : string) (reply_markup : option markup)
| send_photo (chat_id : Z) (photo caption : string) (reply_markup : option markup)
| send_video (chat_id : Z) (video caption : string) (reply_markup : option markup)
| edit_message_reply_markup (chat_id : Z) (message_id : option string)
    (reply_markup : option markup)
| delete_message (chat_id : Z) (message_id : option string)
| answer_callback_query (callback_id : string) (text : option string).

(** The dictionary a call returns: empty, or carrying (or not) a ["message_id"]. *)
Inductive reply :=
| ReplyEmpty
| ReplyDict (message_id : option string).

(** A client answers each call with a reply, or the call raises ([None]). *)
Abbreviation MaxClient := (client_call → option reply).

(** ** In-place mutation and exceptions *)

(** What a handler body works on: the [state] of the [user] object it was
    given, and the client calls issued so far. Both survive an exception. *)
Record heap := { h_state : DBUserState.t; h_calls : list client_call }.

Definition M (A : Type) : Type := heap → result A * heap.

Definition ret {A} (a : A) : M A := λ h, (Ok a, h).

Definition bind {A B} (m : M A) (f : A → M B) : M B :=
  λ h, match m h with
       | (Ok a, h') => f a h'
       | (Raise e, h') => (Raise e, h')
       end.

Definition raise {A} (e : exn) : M A := λ h, (Raise e, h).

(** [try: m  except Exception: handler] *)
Definition try_except {A} (m : M A) (handler : M A) : M A :=
  λ h, match m h with
       | (Ok a, h') => (Ok a, h')
       | (Raise _, h') => handler h'
       end.

Definition lift {A} (r : result A) : M A := λ h, (r, h).

Definition get_state : M DBUserState.t := λ h, (Ok (h_state h), h).

(** [user.state.<field> = ...] / [user.state.flow_stack.append(...)] *)
Definition modify_state (f : DBUserState.t → DBUserState.t) : M unit :=
  λ h, (Ok tt, {| h_state := f (h_state h); h_calls := h_calls h |}).

(** [await client.<method>(...)] *)
Definition call (client : MaxClient) (c : client_call) : M reply :=
  λ h, let h' := {| h_state := h_state h; h_calls := h_calls h ++ [c] |} in
       match client c with
       | Some r => (Ok r, h')
       | None => (Raise ClientError, h')
       end.

#[global] Instance M_ret : MRet M := @ret.
#[global] Instance M_bind : MBind M := λ A B f m, bind m f.

(** ** Normalized updates ([core/bot.py] builds them for the handlers) *)

(** The ["message"] part: [text] is absent in the copy made for callbacks;
    [chat_id] is [message["chat"]["id"]]. *)
Record Message := {
  text : option string;
  chat_id : option Z;
  message_id : string
}.

(** The ["callback_query"] part: ["data"], ["id"] and ["message"]. *)
Record CallbackQuery := {
  data : option string;
  callback_id : option string;
  cq_message : option Message
}.

Record Update := {
  message : option Message;
  callback_query : option CallbackQuery
}.

(** ** [core/base.py] *)

(** [self.errors[key]] *)
Definition errors_get (errors : gmap string string) (key : string) : result string :=
  match errors !! key with
  | Some v => Ok v
  | None => Raise KeyError
  end.

(** An [InlineButton] built from [self.buttons[key]]: the entry must exist and carry a
    ["name"]; pydantic's validation error is a [ValueError]. *)
Definition inline_button_of (buttons : gmap string (gmap string string))
    (key : string) : result InlineButton.t :=
  match buttons !! key with
  | None => Raise KeyError
  | Some d =>
      match d !! "name" with
      | None => Raise ValueError
      | Some n => Ok (InlineButton.mk n (d !! "url") (d !! "pattern"))
      end
  end.

Module BaseResponse.
Record t := mk {
  content : string;
  menus : Menus;
  errors : gmap string string;
  buttons : gmap string (gmap string string)
}.

(** The [chat_id] that [_send_message] extracts from the update. *)
Definition update_chat_id (update : Update) : option Z :=
  match message update with
  | Some m => chat_id m
  | None =>
      match callback_query update with
      | Some cq =>
          match cq_message cq with
          | Some m => chat_id m
          | None => None
          end
      | None => None
      end
  end.

(** [_send_message]: [None] when there is no usable chat id or the client
    raised; the client's reply otherwise. *)
Definition _send_message (update : Update) (client : MaxClient)
    (content : string) (photo video : option string)
    (reply_markup : option markup) : M (option reply) :=
  match update_chat_id update with
  | None => ret None
  | Some cid =>
      if cid =? 0 then ret None
      else
        try_except
          (let formatted_content := format_message_for_max content in
           result ←
             (if truthy_str photo
              then call client (send_photo cid (default "" photo)
                                  formatted_content reply_markup)
              else if truthy_str video
              then call client (send_video cid (default "" video)
                                  formatted_content reply_markup)
              else call client (send_message cid formatted_content reply_markup));
           ret (Some result))
          (ret None)
  end.

(** [_remove_callback_buttons]: clear or delete the keyboard of the tracked
    message, swallowing client errors, then forget the message. *)
Definition _remove_callback_buttons (client : MaxClient) (chat_id : Z) : M unit :=
  st ← get_state;
  if bool_decide (DBUserState.callback_message_id st = Some Sentinels.EMPTY_STR)
  then ret tt
  else
    let inline_markup := DBUserState.callback_message_inline_markup st in
    try_except
      (if DBUserState.callback_message_need_to_delete st
       then call client (delete_message chat_id (DBUserState.callback_message_id st));;
            ret tt
       else call client (edit_message_reply_markup chat_id
                           (DBUserState.callback_message_id st) inline_markup);;
            ret tt)
      (ret tt);;
    modify_state (DBUserState.set_callback_message_id None).
End BaseResponse.

(** What a call of a handler leaves behind: the value it returned for
    [user] (or the exception it raised), the object that was passed as [user]
    as the call left it, and the client calls it made. *)
Record outcome := {
  returned : result (option User);
  user_after : option User;
  calls : list client_call
}.

(** [return user, None] before anything was touched. *)
Definition return_ (user : option User) : outcome :=
  {| returned := Ok user; user_after := user; calls := [] |}.

(** [return None, None] before anything was touched. *)
Definition return_none (user : option User) : outcome :=
  {| returned := Ok None; user_after := user; calls := [] |}.

(** An exception raised before anything was touched. *)
Definition raised (e : exn) (user : option User) : outcome :=
  {| returned := Raise e; user_after := user; calls := [] |}.

(** Run the rest of a handler on the validated [user]; it ends with
    [return user, None]. *)
Definition run (user : User) (body : M unit) : outcome :=
  let '(r, h) := body {| h_state := state user; h_calls := [] |} in
  let user' := Some (with_state user (h_state h)) in
  {| returned := match r with Ok _ => Ok user' | Raise e => Raise e end;
     user_after := user';
     calls := h_calls h |}.

(** [user.state.flow_stack.append(name)] *)
Definition push_flow (name : string) (s : DBUserState.t) : DBUserState.t :=
  DBUserState.set_flow_stack (DBUserState.flow_stack s ++ [name]) s.

(** [user.state.flow_stack.pop()] on a non-empty stack *)
Definition pop_flow (s : DBUserState.t) : DBUserState.t :=
  DBUserState.set_flow_stack (removelast (DBUserState.flow_stack s)) s.

(** The three [validate_user] methods answer [(user, is_valid)], and
    [is_valid] only for a user that is not [None]: [Ok (Some u)] stands for
    [(u, True)] and [Ok None] for [(user, False)]. *)
Module BaseCallback.
Definition validate_user (self : BaseResponse.t) (user : option User)
  : result (option User) :=
  match user with
  | None =>
      match errors_get (BaseResponse.errors self) "user_not_registered" with
      | Ok _ => Ok None
      | Raise e => Raise e
      end
  | Some u => Ok (Some u)
  end.
End BaseCallback.

Module BaseHandler.
Record t := mk {
  base : BaseResponse.t;
  current_flow : string;
  photo : option string;
  is_nested : bool;
  privileged : bool;
  parent_name : string
}.

Definition validate_user (self : t) (user : option User) : result (option User) :=
  match user with
  | None =>
      match errors_get (BaseResponse.errors (base self)) "user_not_registered" with
      | Ok _ => Ok None
      | Raise e => Raise e
      end
  | Some u =>
      if privileged self && negb (is_vip u) then
        match errors_get (BaseResponse.errors (base self)) "user_not_allowed" with
        | Ok _ => Ok None
        | Raise e => Raise e
        end
      else Ok (Some u)
  end.

(** [validate_flow]: may the user, standing at the top of its flow stack,
    enter [self.current_flow]? The stack is only read. *)
Definition validate_flow (self : t) : M bool :=
  st ← get_state;
  user_current_flow ← lift (Py.last_item (DBUserState.flow_stack st));
  if String.eqb user_current_flow (current_flow self) then ret true
  else
    let current_menu_buttons :=
      default [] (BaseResponse.menus (base self) !! user_current_flow) in
    let button_names := map Button.name current_menu_buttons in
    content ←
      (if is_nested self then
         if negb (bool_decide (current_flow self ∈ button_names))
         then c ← lift (errors_get (BaseResponse.errors (base self))
                          "button_not_found");
              ret (Some c)
         else ret None
       else
         if negb (String.eqb user_current_flow "main")
         then c ← lift (errors_get (BaseResponse.errors (base self))
                          "button_not_found");
              ret (Some c)
         else ret None);
    ret (bool_decide (content = None)).
End BaseHandler.

(** ** [core/handlers.py] *)

Module StaticHandler.
Record t := mk {
  base : BaseHandler.t;
  inline_markup : option markup
}.

Definition __call__ (self : t) (update : Update) (client : MaxClient)
    (user : option User) : outcome :=
  match message update with
  | None => return_ user
  | Some _ =>
      match BaseHandler.validate_user (base self) user with
      | Raise e => raised e user
      | Ok None => return_ user
      | Ok (Some user) =>
          run user
            (BaseResponse._send_message update client
               (BaseResponse.content (BaseHandler.base (base self)))
               (BaseHandler.photo (base self)) None (inline_markup self);;
             ret tt)
      end
  end.
End StaticHandler.

Module ExtendedStaticHandler.
Record t := mk {
  base : BaseHandler.t;
  keyboard_markup_vip : markup;
  keyboard_markup_all : markup
}.

Definition __call__ (self : t) (update : Update) (client : MaxClient)
    (user : option User) : outcome :=
  match message update with
  | None => return_none user
  | Some _ =>
      match BaseHandler.validate_user (base self) user with
      | Raise e => raised e user
      | Ok None => return_ user
      | Ok (Some user) =>
          run user
            ((if negb (BaseHandler.is_nested (base self))
              then modify_state (DBUserState.set_flow_stack ["main"])
              else ret tt);;
             is_valid ← BaseHandler.validate_flow (base self);
             if negb is_valid then ret tt
             else
               modify_state (push_flow (BaseHandler.current_flow (base self)));;
               let keyboard_markup :=
                 if is_vip user then keyboard_markup_vip self
                 else keyboard_markup_all self in
               BaseResponse._send_message update client
                 (BaseResponse.content (BaseHandler.base (base self)))
                 (BaseHandler.photo (base self)) None (Some keyboard_markup);;
               ret tt)
      end
  end.
End ExtendedStaticHandler.

Module ManagedHandler.
Record t := mk {
  base : BaseHandler.t;
  search_type : string;
  use_pagination : bool
}.

Definition __call__ (self : t) (update : Update) (client : MaxClient)
    (user : option User) : outcome :=
  match message update with
  | None => return_none user
  | Some _ =>
      match BaseHandler.validate_user (base self) user with
      | Raise e => raised e user
      | Ok None => return_ user
      | Ok (Some user) =>
          run user
            (is_valid ← BaseHandler.validate_flow (base self);
             if negb is_valid then ret tt
             else
               modify_state (DBUserState.set_search_type (search_type self));;
               modify_state (push_flow (BaseHandler.current_flow (base self)));;
               modify_state (DBUserState.set_use_pagination (use_pagination self));;
               BaseResponse._send_message update client
                 (BaseResponse.content (BaseHandler.base (base self)))
                 (BaseHandler.photo (base self)) None None;;
               ret tt)
      end
  end.
End ManagedHandler.

(** ** The AI search service ([clients/ai/client.py]) as a collaborator *)

(** A key of the response dictionary: missing, [null], or a value. *)
Inductive field (A : Type) :=
| Absent
| Null
| Present (a : A).
Arguments Absent {A}.
Arguments Null {A}.
Arguments Present {A} a.

(** [response.get(key)] *)
Definition field_get {A} (f : field A) : option A :=
  match f with
  | Present a => Some a
  | _ => None
  end.

Record AIResponse := {
  answer : field string;
  cards : field (list Card);
  product_cards : field (list Card)
}.

(** The body of the search request. *)
Record AIPayload := {
  p_search_type : string;
  p_top_k : Z;
  p_database_name : string;
  p_history : string
}.

(** [AIClient.post_request]: a response, or an exception ([None]) once the
    retries are used up. *)
Abbreviation AIClient := (AIPayload → option AIResponse).

Definition post_request (ai : AIClient) (payload : AIPayload) : M AIResponse :=
  match ai payload with
  | Some response => ret response
  | None => raise ClientError
  end.

Module ChatHandler.
Record t := mk {
  base : BaseResponse.t;
  inline_markup_no_pagination : markup;
  inline_markup_with_pagination : markup;
  managed_flows : gset string
}.

Definition validate_user (self : t) (user : option User) : result (option User) :=
  BaseCallback.validate_user (base self) user.

(** The answer text of the handler before the placeholder link is replaced;
    [None] is Python's [None]. *)
Definition response_content (self : t) (response : AIResponse) : M (option string) :=
  if truthy_str (field_get (answer response))
     || bool_decide (default [] (field_get (cards response)) ≠ [])
     || bool_decide (default [] (field_get (product_cards response)) ≠ [])
  then
    st ← get_state;
    if DBUserState.use_pagination st then
      let cards :=
        match field_get (cards response) with
        | Some c => Some c
        | None => field_get (product_cards response)
        end in
      match cards with
      | Some cards =>
          let current_page := 0 in
          let total_length := Z.of_nat (length cards) in
          modify_state (DBUserState.set_cards_json (Some cards));;
          modify_state (DBUserState.set_cards_current_page current_page);;
          modify_state (DBUserState.set_cards_total_length total_length);;
          first ← lift (match cards with
                        | c :: _ => Ok c
                        | [] => Raise IndexError
                        end);
          ret (Some (card_from_json first current_page (total_length - 1)))
      | None =>
          c ← lift (errors_get (BaseResponse.errors (base self)) "query_not_found");
          ret (Some c)
      end
    else
      dflt ← lift (errors_get (BaseResponse.errors (base self)) "query_not_found");
      ret (match answer response with
           | Absent => Some dflt
           | Null => None
           | Present a => Some a
           end)
  else
    modify_state (DBUserState.set_cards_json None);;
    c ← lift (errors_get (BaseResponse.errors (base self)) "query_not_found");
    ret (Some c).

Definition __call__ (self : t) (ai : AIClient) (update : Update)
    (client : MaxClient) (user : option User) : outcome :=
  match message update with
  | None => return_none user
  | Some msg =>
      match validate_user self user with
      | Raise e => raised e user
      | Ok None => return_ user
      | Ok (Some user) =>
          run user
            (st ← get_state;
             user_current_flow ← lift (Py.last_item (DBUserState.flow_stack st));
             (if negb (bool_decide (user_current_flow ∈ managed_flows self))
                 && negb (String.eqb user_current_flow Sentinels.EMPTY_STR)
              then
                modify_state (DBUserState.set_use_pagination false);;
                modify_state (DBUserState.set_search_type "questions");;
                modify_state (push_flow Sentinels.EMPTY_STR)
              else ret tt);;
             let message_text := default "" (text msg) in
             st ← get_state;
             let '(search_type, database_name) :=
               if String.eqb (DBUserState.search_type st) "companies"
               then ("semfuz", "cmp")
               else if String.eqb (DBUserState.search_type st) "products"
               then ("semfuz", "prdcts")
               else ("gpt", "faq") in
             let payload :=
               {| p_search_type := search_type;
                  p_top_k := if DBUserState.use_pagination st then 10 else 1;
                  p_database_name := database_name;
                  p_history := message_text |} in
             response ← post_request ai payload;
             content ← response_content self response;
             content ← match content with
                       | Some c => ret c
                       | None => raise TypeError
                       end;
             let content :=
               if Py.contains "https://ya.ru" content
               then "У меня нет информации по этому вопросу"
               else content in
             st ← get_state;
             let inline_markup :=
               if DBUserState.use_pagination st
                  && bool_decide (DBUserState.cards_json st ≠ None)
                  && (1 <? DBUserState.cards_total_length st)
               then inline_markup_with_pagination self
               else inline_markup_no_pagination self in
             chat_id ← match chat_id msg with
                       | Some c => ret c
                       | None => raise KeyError
                       end;
             BaseResponse._remove_callback_buttons client chat_id;;
             sent_message ←
               BaseResponse._send_message update client content None None
                 (Some inline_markup);
             match sent_message with
             | Some (ReplyDict message_id) =>
                 modify_state (DBUserState.set_callback_message_inline_markup None);;
                 modify_state (DBUserState.set_callback_message_need_to_delete false);;
                 modify_state (DBUserState.set_callback_message_id message_id)
             | _ => ret tt
             end)
      end
  end.
End ChatHandler.

(** ** [core/callbacks.py] *)

(** [message["chat"]["id"]]: a [KeyError] when the id is not there. *)
Definition chat_id_of (m : Message) : M Z :=
  match chat_id m with
  | Some c => ret c
  | None => raise KeyError
  end.

(** [l[i]] with Python's negative indices. *)
Definition py_index {A} (l : list A) (i : Z) : result A :=
  let n := Z.of_nat (length l) in
  let j := if i <? 0 then i + n else i in
  if (j <? 0) || (n <=? j) then Raise IndexError
  else match l !! Z.to_nat j with
       | Some x => Ok x
       | None => Raise IndexError
       end.

Module ExitCallback.
Record t := mk {
  base : BaseResponse.t;
  keyboard_markup : gmap string (markup * markup)
}.

(** [__init__]: a VIP and a plain keyboard for every menu. *)
Definition init (base : BaseResponse.t) : t :=
  {| base := base;
     keyboard_markup :=
       (λ flow_buttons, (build_keyboard flow_buttons true,
                         build_keyboard flow_buttons false))
         <$> BaseResponse.menus base |}.

Definition __call__ (self : t) (update : Update) (client : MaxClient)
    (user : option User) : outcome :=
  match callback_query update with
  | None => return_ user
  | Some cq =>
      match BaseCallback.validate_user (base self) user with
      | Raise e => raised e user
      | Ok None => return_ user
      | Ok (Some user) =>
          run user
            (st ← get_state;
             (if (1 <? Z.of_nat (length (DBUserState.flow_stack st)))
              then modify_state pop_flow
              else ret tt);;
             modify_state (DBUserState.set_use_pagination false);;
             modify_state (DBUserState.set_search_type "");;
             modify_state (DBUserState.set_cards_json None);;
             st ← get_state;
             let current_flow_name :=
               default "main" (last (DBUserState.flow_stack st)) in
             let keyboard_markup :=
               match keyboard_markup self !! current_flow_name with
               | Some (vip, all) => Some (if is_vip user then vip else all)
               | None => None
               end in
             chat_id ← match cq_message cq with
                       | Some message => c ← chat_id_of message; ret (Some c)
                       | None => ret None
                       end;
             match chat_id, keyboard_markup with
             | Some c, Some km =>
                 if c =? 0 then ret tt
                 else call client
                        (send_message c (BaseResponse.content (base self)) (Some km));;
                      ret tt
             | _, _ => ret tt
             end)
      end
  end.
End ExitCallback.

Module HideMessageCallback.
Definition __call__ (self : BaseResponse.t) (update : Update) (client : MaxClient)
    (user : option User) : outcome :=
  match callback_query update with
  | None => return_ user
  | Some cq =>
      match BaseCallback.validate_user self user with
      | Raise e => raised e user
      | Ok None => return_ user
      | Ok (Some user) =>
          run user
            (match cq_message cq with
             | Some message =>
                 c ← chat_id_of message;
                 call client (delete_message c (Some (message_id message)));;
                 ret tt
             | None => ret tt
             end)
      end
  end.
End HideMessageCallback.

Module PaginationCallback.

(** The branch on [callback_data]: the page moves inside its bounds; the
    answer is [false] where the source returns at once (the placeholder
    button). *)
Definition turn_page (client : MaxClient) (cq : CallbackQuery)
    (callback_data : string) : M bool :=
  st ← get_state;
  if String.eqb callback_data "previous_callback" then
    (if 0 <? DBUserState.cards_current_page st
     then modify_state (DBUserState.set_cards_current_page
                          (DBUserState.cards_current_page st - 1))
     else ret tt);;
    ret true
  else if String.eqb callback_data "next_callback" then
    (if DBUserState.cards_current_page st <? DBUserState.cards_total_length st - 1
     then modify_state (DBUserState.set_cards_current_page
                          (DBUserState.cards_current_page st + 1))
     else ret tt);;
    ret true
  else if String.eqb callback_data "accept_callback" then ret true
  else if String.eqb callback_data "inactive_callback" then
    (if truthy_str (callback_id cq)
     then call client (answer_callback_query (default "" (callback_id cq))
                         (Some "Это первая страница"));;
          ret tt
     else ret tt);;
    ret false
  else ret true.

Definition __call__ (self : BaseResponse.t) (update : Update) (client : MaxClient)
    (user : option User) : outcome :=
  match callback_query update with
  | None => return_ user
  | Some cq =>
      match BaseCallback.validate_user self user with
      | Raise e => raised e user
      | Ok None => return_ user
      | Ok (Some user) =>
          run user
            (let callback_data := data cq in
             st ← get_state;
             if negb (truthy_str callback_data)
                || bool_decide (default [] (DBUserState.cards_json st) = [])
             then ret tt
             else
               go_on ← turn_page client cq (default "" callback_data);
               if negb go_on then ret tt
               else
                 st ← get_state;
                 let page := DBUserState.cards_current_page st in
                 let total := DBUserState.cards_total_length st in
                 current_card ←
                   lift (py_index (default [] (DBUserState.cards_json st)) page);
                 let content := card_from_json current_card page (total - 1) in
                 let buttons := BaseResponse.buttons self in
                 previous_button ← lift (inline_button_of buttons "previous");
                 next_button ← lift (inline_button_of buttons "next");
                 inactive_button ← lift (inline_button_of buttons "inactive");
                 accept_button ← lift (inline_button_of buttons "accept");
                 exit_button ← lift (inline_button_of buttons "exit");
                 let nav_buttons :=
                   [ if 0 <? page then previous_button else inactive_button;
                     accept_button;
                     if page <? total - 1 then next_button else inactive_button ] in
                 let inline_markup :=
                   build_inline_keyboard [nav_buttons; [exit_button]] in
                 match cq_message cq with
                 | Some message =>
                     c ← chat_id_of message;
                     call client (edit_message_reply_markup c
                                    (Some (message_id message)) (Some inline_markup));;
                     ret tt
                 | None => ret tt
                 end;;
                 if truthy_str (callback_id cq)
                 then call client (answer_callback_query
                                     (default "" (callback_id cq)) None);;
                      ret tt
                 else ret tt)
      end
  end.
End PaginationCallback.

(** ** [core/commands.py] *)

Module BaseCommand.
Record t := mk {
  base : BaseResponse.t;
  main_menu_keyboard_markup_vip : markup;
  main_menu_keyboard_markup_all : markup
}.
End BaseCommand.

Module StartCommand.
Definition __call__ (self : BaseCommand.t) (update : Update) (client : MaxClient)
    (user : option User) : outcome :=
  match user with
  | None => return_none None
  | Some user =>
      run user
        (modify_state (DBUserState.set_flow_stack ["main"]);;
         modify_state (DBUserState.set_use_pagination false);;
         modify_state (DBUserState.set_search_type "");;
         modify_state (DBUserState.set_cards_json None);;
         let keyboard_markup :=
           if is_vip user then BaseCommand.main_menu_keyboard_markup_vip self
           else BaseCommand.main_menu_keyboard_markup_all self in
         BaseResponse._send_message update client
           (BaseResponse.content (BaseCommand.base self)) None None
           (Some keyboard_markup);;
         ret tt)
  end.
End StartCommand.

Module ResetCommand.
Definition __call__ (self : BaseCommand.t) (update : Update) (client : MaxClient)
    (user : option User) : outcome :=
  match user with
  | None => return_none None
  | Some user =>
      run user
        (modify_state (DBUserState.set_flow_stack ["main"]);;
         modify_state (DBUserState.set_use_pagination false);;
         modify_state (DBUserState.set_search_type "");;
         modify_state (DBUserState.set_cards_json None);;
         modify_state (DBUserState.set_callback_message_id None);;
         let keyboard_markup :=
           if is_vip user then BaseCommand.main_menu_keyboard_markup_vip self
           else BaseCommand.main_menu_keyboard_markup_all self in
         BaseResponse._send_message update client
           (BaseResponse.content (BaseCommand.base self)) None None
           (Some keyboard_markup);;
         ret tt)
  end.
End ResetCommand.

(** ** [core/decorators.py] and persistence *)

(** [update_user_state]: every column that the handlers own is overwritten
    with the dumped state. The row of the user at hand stands for the table. *)
Definition update_user_state (state_data : DBUserState.t) (db : DBUserState.t)
  : DBUserState.t := state_data.

(** [middleware]: call the handler; persist the state of the user it
    returned; on an exception hand back the [user] argument, which the
    handler may already have mutated. *)
Definition middleware (func : Update → MaxClient → option User → outcome)
    (update : Update) (client : MaxClient) (user : option User)
    (db : DBUserState.t) : option User * list client_call * DBUserState.t :=
  let o := func update client user in
  match returned o with
  | Ok (Some user') => (Some user', calls o, update_user_state (state user') db)
  | Ok None => (None, calls o, db)
  | Raise _ => (user_after o, calls o, db)
  end.

(** ** [core/bot.py] *)

(** The entries of [MaxBot.handlers] and of [MaxBot.callback_handlers]. *)
Inductive Handler :=
| H_Start (self : BaseCommand.t)
| H_Reset (self : BaseCommand.t)
| H_Static (self : StaticHandler.t)
| H_ExtendedStatic (self : ExtendedStaticHandler.t)
| H_Managed (self : ManagedHandler.t).

Inductive CallbackHandler :=
| C_Exit (self : ExitCallback.t)
| C_Hide (self : BaseResponse.t)
| C_Pagination (self : BaseResponse.t).

Definition call_handler (h : Handler)
  : Update → MaxClient → option User → DBUserState.t
    → option User * list client_call * DBUserState.t :=
  match h with
  | H_Start self => middleware (StartCommand.__call__ self)
  | H_Reset self => middleware (ResetCommand.__call__ self)
  | H_Static self => middleware (StaticHandler.__call__ self)
  | H_ExtendedStatic self => middleware (ExtendedStaticHandler.__call__ self)
  | H_Managed self => middleware (ManagedHandler.__call__ self)
  end.

Definition call_callback_handler (h : CallbackHandler)
  : Update → MaxClient → option User → DBUserState.t
    → option User * list client_call * DBUserState.t :=
  match h with
  | C_Exit self => middleware (ExitCallback.__call__ self)
  | C_Hide self => middleware (HideMessageCallback.__call__ self)
  | C_Pagination self => middleware (PaginationCallback.__call__ self)
  end.

(** [updated_user, _ = await handler(...)] followed by
    [if updated_user: await update_user_state(...)]. *)
Definition handle
    (handler : Update → MaxClient → option User → DBUserState.t
               → option User * list client_call * DBUserState.t)
    (update : Update) (client : MaxClient) (user : User)
  : option User * list client_call * DBUserState.t :=
  let '(updated_user, calls, db) := handler update client (Some user) (state user) in
  match updated_user with
  | Some u => (updated_user, calls, update_user_state (state u) db)
  | None => (updated_user, calls, db)
  end.

(** A [message_callback] update of the platform, reduced to what
    [_process_callback] reads: [callback.callback_id], [callback.user.user_id],
    [callback.payload], [callback.timestamp], [message.mid] and
    [message.recipient.chat_id]. *)
Record CallbackUpdate := {
  cb_callback_id : option string;
  cb_user_id : option Z;
  cb_payload : option string;
  cb_timestamp : option Z;
  cb_mid : option string;
  cb_chat_id : option Z
}.

(** A [message_created] update: [message.body.text], [message.mid] and
    [message.recipient.chat_id]. *)
Record MessageUpdate := {
  mu_text : option string;
  mu_mid : option string;
  mu_chat_id : option Z
}.

(** Truth value of an optional [int]. *)
Definition truthy_int (n : option Z) : bool :=
  match n with
  | Some n => negb (n =? 0)
  | None => false
  end.

(** Where an update ended up. *)
Inductive routed :=
| Duplicate
| NoPayload
| NoChat
| NoHandler
| Handled (updated_user : option User).

Record processed := {
  cache_after : gmap string Z;
  route : result routed;
  calls_made : list client_call;
  db_after : DBUserState.t
}.

Module MaxBot.
Record t := mk {
  handlers : gmap string Handler;
  callback_handlers : gmap string CallbackHandler;
  chat_handler : ChatHandler.t
}.

(** [self._deduplication_window_ms = 2000], set once in [__init__]. *)
Definition _deduplication_window_ms : Z := 2000.

(** [f"{user_id}:{callback_payload}"] *)
Definition dedup_key (user_id : Z) (callback_payload : string) : string :=
  Py.str_int user_id +:+ ":" +:+ callback_payload.

(** The deduplication step on [self._processed_callbacks]: [None] for a
    duplicate, the cache after insertion and pruning otherwise. *)
Definition deduplicate (_processed_callbacks : gmap string Z)
    (user_id : Z) (callback_payload : string) (callback_timestamp : Z)
  : option (gmap string Z) :=
  let dedup_key := dedup_key user_id callback_payload in
  let duplicate :=
    match _processed_callbacks !! dedup_key with
    | Some last_timestamp =>
        let time_diff := callback_timestamp - last_timestamp in
        time_diff <? _deduplication_window_ms
    | None => false
    end in
  if duplicate then None
  else
    let inserted := <[dedup_key := callback_timestamp]> _processed_callbacks in
    let current_time := callback_timestamp in
    Some (filter (λ kv, ¬ (10000 < current_time - kv.2)) inserted).

Definition normalize_callback (callback_payload : string) (message_id : string)
    (chat_id : Z) : Update :=
  {| callback_query :=
       Some {| data := Some callback_payload;
               callback_id := None;
               cq_message := Some {| text := None; chat_id := Some chat_id;
                                     message_id := message_id |} |};
     message := Some {| text := None; chat_id := Some chat_id;
                        message_id := message_id |} |}.

Definition _process_callback (self : t) (client : MaxClient)
    (_processed_callbacks : gmap string Z) (update : CallbackUpdate) (user : User)
  : processed :=
  let stop cache r :=
    {| cache_after := cache; route := r; calls_made := []; db_after := state user |} in
  let user_id := cb_user_id update in
  let callback_timestamp := default 0 (cb_timestamp update) in
  match cb_payload update with
  | None => stop _processed_callbacks (Raise TypeError)
  | Some callback_payload =>
      let deduplicated :=
        if truthy_int user_id && truthy_str (Some callback_payload)
        then deduplicate _processed_callbacks (default 0 user_id)
               callback_payload callback_timestamp
        else Some _processed_callbacks in
      match deduplicated with
      | None => stop _processed_callbacks (Ok Duplicate)
      | Some cache =>
          if negb (truthy_str (Some callback_payload)) then stop cache (Ok NoPayload)
          else if negb (truthy_int (cb_chat_id update)) then stop cache (Ok NoChat)
          else
            let normalized_update :=
              normalize_callback callback_payload (default "" (cb_mid update))
                (default 0 (cb_chat_id update)) in
            let handler :=
              match callback_handlers self !! callback_payload with
              | Some h => Some (call_callback_handler h)
              | None => call_handler <$> handlers self !! callback_payload
              end in
            match handler with
            | Some handler =>
                let '(updated_user, calls, db) :=
                  handle handler normalized_update client user in
                {| cache_after := cache; route := Ok (Handled updated_user);
                   calls_made := calls; db_after := db |}
            | None => stop cache (Ok NoHandler)
            end
      end
  end.
End MaxBot.

(** [_process_message]: commands and menu buttons are looked up by the text
    itself; anything else is free text for the chat handler. *)
Definition _process_message (self : MaxBot.t) (ai : AIClient) (client : MaxClient)
    (update : MessageUpdate) (user : User)
  : routed * list client_call * DBUserState.t :=
  let message_text := default "" (mu_text update) in
  if negb (truthy_int (mu_chat_id update)) then (NoChat, [], state user)
  else
    let normalized_update :=
      {| message := Some {| text := Some message_text;
                            chat_id := mu_chat_id update;
                            message_id := default "" (mu_mid update) |};
         callback_query := None |} in
    let run_handler handler :=
      let '(updated_user, calls, db) :=
        handle handler normalized_update client user in
      (Handled updated_user, calls, db) in
    if Py.startswith "/" message_text then
      match MaxBot.handlers self !! message_text with
      | Some handler => run_handler (call_handler handler)
      | None => (NoHandler, [], state user)
      end
    else
      match MaxBot.handlers self !! message_text with
      | Some handler => run_handler (call_handler handler)
      | None =>
          run_handler
            (middleware (ChatHandler.__call__ (MaxBot.chat_handler self) ai))
      end.

(** ** The navigation state machine as a transition system *)

(** The core operations on a user's state, each with the handler object
    that carries it out. *)
Inductive operation :=
| OpStart (self : BaseCommand.t)
| OpReset (self : BaseCommand.t)
| OpStatic (self : StaticHandler.t)
| OpExtendedStatic (self : ExtendedStaticHandler.t)
| OpManaged (self : ManagedHandler.t)
| OpChat (self : ChatHandler.t) (ai : AIClient)
| OpExit (self : ExitCallback.t)
| OpPagination (self : BaseResponse.t).

Definition operation_call (op : operation)
  : Update → MaxClient → option User → outcome :=
  match op with
  | OpStart self => StartCommand.__call__ self
  | OpReset self => ResetCommand.__call__ self
  | OpStatic self => StaticHandler.__call__ self
  | OpExtendedStatic self => ExtendedStaticHandler.__call__ self
  | OpManaged self => ManagedHandler.__call__ self
  | OpChat self ai => ChatHandler.__call__ self ai
  | OpExit self => ExitCallback.__call__ self
  | OpPagination self => PaginationCallback.__call__ self
  end.

(** The stored state after the bot has run an operation for [user] on some
    update, with some behaviour of the client. *)
Definition apply_operation (op : operation) (update : Update) (client : MaxClient)
    (user : User) : DBUserState.t :=
  (handle (middleware (operation_call op)) update client user).2.

(** States a user can be in: the defaults of a first contact, and whatever
    an operation stores from there. The identity columns of the user
    ([is_vip] and the like) may differ from one event to the next. *)
Inductive reachable : DBUserState.t → Prop :=
| reachable_default : reachable DBUserState.default
| reachable_step st op update client user :
    reachable st →
    state user = st →
    reachable (apply_operation op update client user).

(** The top of the flow stack, as [validate_flow] reads it. *)
Definition current_top (st : DBUserState.t) : option string :=
  last (DBUserState.flow_stack st).

(** [needle] occurs in [hay]. *)
Definition occurs_in (needle hay : string) : Prop :=
  ∃ before after, hay = before +:+ needle +:+ after.

(** The pagination bounds of the data model. *)
Definition page_in_bounds (st : DBUserState.t) : Prop :=
  0 ≤ DBUserState.cards_current_page st < DBUserState.cards_total_length st.

(** Cards are present: [cards_json] is neither [None] nor empty. *)
Definition cards_present (st : DBUserState.t) : Prop :=
  ∃ c cs, DBUserState.cards_json st = Some (c :: cs).

(** ** Vocabulary for reasoning about handler bodies *)

(** A pre- and postcondition on the heap, with a separate postcondition for
    the exceptional exit. *)
Definition hoare {A} (P : heap → Prop) (m : M A) (Q : A → heap → Prop)
    (E : heap → Prop) : Prop :=
  ∀ h, P h → match m h with
             | (Ok a, h') => Q a h'
             | (Raise _, h') => E h'
             end.

(** A property of the state alone, whatever calls were made. *)
Definition on_state (I : DBUserState.t → Prop) : heap → Prop :=
  λ h, I (h_state h).

(** [m] keeps [I] on every exit. *)
Definition keeps {A} (I : DBUserState.t → Prop) (m : M A) : Prop :=
  hoare (on_state I) m (λ _, on_state I) (on_state I).


(** ** Vocabulary of the claims *)

(** The flow stack is anchored: non-empty with ["main"] at the bottom. *)
Definition stack_anchored (st : DBUserState.t) : Prop :=
  ∃ rest, DBUserState.flow_stack st = "main" :: rest.

(** The button names of the menu keyed by [current]. *)
Definition menu_button_names (menus : Menus) (current : string) : list string :=
  map Button.name (default [] (menus !! current)).

(** The decision taken by [validate_flow] for a user standing at
    [current]: the flow itself, a button of the current menu for a nested
    flow, the main menu for a root flow. *)
Definition flow_allowed (self : BaseHandler.t) (current : string) : bool :=
  String.eqb current (BaseHandler.current_flow self)
  || (if BaseHandler.is_nested self
      then bool_decide (BaseHandler.current_flow self
                          ∈ menu_button_names
                              (BaseResponse.menus (BaseHandler.base self)) current)
      else String.eqb current "main").

(** The state of the user object once a handler is done with it. *)
Definition state_after (user : User) (o : outcome) : DBUserState.t :=
  match user_after o with
  | Some u => state u
  | None => state user
  end.

(** What a handler returns is the object it was given, or [None] before it
    touched anything. *)
Definition coherent (user : User) (o : outcome) : Prop :=
  match returned o with
  | Ok (Some u') => user_after o = Some u'
  | Ok None => user_after o = Some user
  | Raise _ => ∃ u', user_after o = Some u'
  end.

(** ** A small configuration to evaluate the handlers on *)

Definition example_errors : gmap string string :=
  list_to_map [("user_not_registered", "Вы не зарегистрированы");
               ("user_not_allowed", "Недостаточно прав");
               ("button_not_found", "Кнопка недоступна");
               ("query_not_found", "Ничего не найдено")].

(** Two root flows, ["Catalog"] (extended static, with a nested ["Offers"])
    and ["Search"] (managed). *)
Definition example_menus : Menus :=
  list_to_map [("main", [Button.mk "Catalog" 0; Button.mk "Search" 0]);
               ("Catalog", [Button.mk "Offers" 0])].

Definition example_base : BaseResponse.t :=
  BaseResponse.mk "Добро пожаловать" example_menus example_errors ∅.

Definition example_search : ManagedHandler.t :=
  ManagedHandler.mk
    (BaseHandler.mk example_base "Search" None true false "main") "products" true.

Definition example_catalog : ExtendedStaticHandler.t :=
  ExtendedStaticHandler.mk
    (BaseHandler.mk example_base "Catalog" None false false "main")
    (build_keyboard [Button.mk "Offers" 0] true)
    (build_keyboard [Button.mk "Offers" 0] false).

Definition example_update : Update :=
  {| message := Some {| text := Some "Search"; chat_id := Some 7;
                        message_id := "mid.1" |};
     callback_query := None |}.

(** A client whose calls all succeed. *)
Definition example_client : MaxClient := λ _, Some (ReplyDict (Some "mid.2")).

Definition example_user (st : DBUserState.t) : User :=
  {| id := 1; is_vip := false; is_admin := false; max_id := Some "1001";
     external_id := None; state := st |}.

(** The user has pressed ["Search"] once, and twice. *)
Definition in_search : DBUserState.t :=
  apply_operation (OpManaged example_search) example_update example_client
    (example_user DBUserState.default).

Definition in_search_twice : DBUserState.t :=
  apply_operation (OpManaged example_search) example_update example_client
    (example_user in_search).

(** A press of an inline button carrying [payload], as [_process_callback]
    hands it to the handlers. *)
Definition example_callback (payload : string) : Update :=
  MaxBot.normalize_callback payload "mid.2" 7.

Definition example_exit : ExitCallback.t := ExitCallback.init example_base.

(** Three result cards on the second page. *)
Definition example_cards : list Card :=
  [ {[ "name" := "Ноутбук A" ]}; {[ "name" := "Ноутбук B" ]};
    {[ "title" := "Ноутбук C" ]} ].

Definition on_page (page : Z) : DBUserState.t :=
  DBUserState.set_cards_total_length 3
    (DBUserState.set_cards_current_page page
       (DBUserState.set_cards_json (Some example_cards) in_search)).

(** Where the page stands after a pagination callback carrying
    [callback_data], as [PaginationCallback] moves it. *)
Definition page_after (callback_data : string) (st : DBUserState.t) : Z :=
  let page := DBUserState.cards_current_page st in
  let total := DBUserState.cards_total_length st in
  if String.eqb callback_data "previous_callback"
  then (if 0 <? page then page - 1 else page)
  else if String.eqb callback_data "next_callback"
  then (if page <? total - 1 then page + 1 else page)
  else page.

(** The call [_send_message] makes for a chat: a photo, a video or a plain
    message, with the text un-escaped. *)
Definition message_call (cid : Z) (content : string) (photo video : option string)
    (reply_markup : option markup) : client_call :=
  if truthy_str photo
  then send_photo cid (default "" photo) (format_message_for_max content) reply_markup
  else if truthy_str video
  then send_video cid (default "" video) (format_message_for_max content) reply_markup
  else send_message cid (format_message_for_max content) reply_markup.

(** What a handler that sends one message through [_send_message] leaves in
    the calls: that one call when the update names a chat, nothing
    otherwise. *)
Definition sent_to_chat (update : Update) (c : Z → client_call)
    (calls : list client_call) : Prop :=
  match BaseResponse.update_chat_id update with
  | Some cid => if cid =? 0 then calls = [] else calls = [c cid]
  | None => calls = []
  end.

(** The nested extended-static flow ["Offers"] under ["Catalog"]. *)
Definition example_offers : ExtendedStaticHandler.t :=
  ExtendedStaticHandler.mk
    (BaseHandler.mk example_base "Offers" None true false "Catalog")
    (build_keyboard [Button.mk "Назад" 0] true)
    (build_keyboard [Button.mk "Назад" 0] false).

(** The user has gone to ["Catalog"] and on to ["Offers"]. *)
Definition in_offers : DBUserState.t :=
  apply_operation (OpExtendedStatic example_offers) example_update example_client
    (example_user
       (apply_operation (OpExtendedStatic example_catalog) example_update
          example_client (example_user DBUserState.default))).

(** The flow [target] was entered on top of the stack the user had. *)
Definition entered (target : string) (before after : DBUserState.t) : Prop :=
  DBUserState.flow_stack after = DBUserState.flow_stack before ++ [target].

(** The user may use a handler: the flow is not privileged, or the user is VIP. *)
Definition privilege_ok (self : BaseHandler.t) (user : User) : Prop :=
  BaseHandler.privileged self = true → is_vip user = true.

Definition example_command : BaseCommand.t :=
  BaseCommand.mk example_base
    (build_keyboard [Button.mk "Catalog" 0; Button.mk "Search" 0] true)
    (build_keyboard [Button.mk "Catalog" 0; Button.mk "Search" 0] false).

Definition example_chat : ChatHandler.t :=
  ChatHandler.mk example_base [] [] {[ "Search" ]}.

(** The bot over the example configuration, as [_register_handlers] fills
    its two tables. *)
Definition example_bot : MaxBot.t :=
  MaxBot.mk
    (list_to_map [("/start", H_Start example_command);
                  ("/reset", H_Reset example_command);
                  ("Offers", H_ExtendedStatic example_offers);
                  ("Catalog", H_ExtendedStatic example_catalog);
                  ("Search", H_Managed example_search)])
    (list_to_map [("exit_callback", C_Exit example_exit);
                  ("hide_callback", C_Hide example_base);
                  ("previous_callback", C_Pagination example_base);
                  ("next_callback", C_Pagination example_base);
                  ("inactive_callback", C_Pagination example_base);
                  ("accept_callback", C_Pagination example_base)])
    example_chat.

(** User 1001 presses the back button at [timestamp]. *)
Definition example_press (timestamp : Z) : CallbackUpdate :=
  {| cb_callback_id := Some "cb.1"; cb_user_id := Some 1001;
     cb_payload := Some "exit_callback"; cb_timestamp := Some timestamp;
     cb_mid := Some "mid.2"; cb_chat_id := Some 7 |}.

(** ** Vocabulary for references *)

(** A segment of a reference: a name without a dot. *)
Fixpoint dot_free (s : string) : bool :=
  match s with
  | EmptyString => true
  | String c s' => negb (Ascii.eqb c "."%char) && dot_free s'
  end.

(** Indexing one level deeper into a record for each segment of [path]:
    what a reference stands for. *)
Fixpoint walk (v : json) (path : list string) : option json :=
  match path with
  | [] => Some v
  | key :: rest =>
      match v with
      | JDict members =>
          match dict_get key members with
          | Some x => walk x rest
          | None => None
          end
      | _ => None
      end
  end.

(** [v] is the document [doc] or a value somewhere inside it. *)
Inductive inside (v : json) : json → Prop :=
| inside_here : inside v v
| inside_list items x : x ∈ items → inside v x → inside v (JList items)
| inside_dict members key x :
    (key, x) ∈ members → inside v x → inside v (JDict members).

(** A configuration whose [buttons] section has an [exit] entry with a
    [content] field, and a flow that refers to it. *)
Definition example_config : json :=
  JDict [("buttons",
          JDict [("exit", JDict [("name", JStr "Назад");
                                 ("pattern", JStr "exit_callback");
                                 ("content", JStr "Вы вернулись назад")])]);
         ("callbacks",
          JDict [("exit", JDict [("content", JStr "@exit.content")])])].

(** The AI service answers every request with the three example cards
    under [product_cards]. *)
Definition example_response : AIResponse :=
  {| answer := Absent; cards := Absent; product_cards := Present example_cards |}.

Definition example_ai : AIClient := λ _, Some example_response.

(** Free text sent from chat 7. *)
Definition example_text (message_text : string) : Update :=
  {| message := Some {| text := Some message_text; chat_id := Some 7;
                        message_id := "mid.3" |};
     callback_query := None |}.

(** The bounds of the data model hold whenever cards are present. *)
Definition cards_bounded (st : DBUserState.t) : Prop :=
  cards_present st → page_in_bounds st.

(** ** Vocabulary for the keyboards and the card text *)

(** The button is shown to a user with this VIP status. *)
Definition shown_to (vip_status : bool) (button : Button.t) : bool :=
  vip_status || negb (Button.is_privileged button).

(** The first line of a card's text. *)
Definition card_header (current_page total_pages : Z) : string :=
  "📄 Результат " +:+ Py.str_int (current_page + 1) +:+ " из "
    +:+ Py.str_int (total_pages + 1) +:+ LF.

(** The keys of a card that [card_from_json] prints. *)
Definition card_fields : list string :=
  ["name"; "title"; "description"; "company"; "category"; "location";
   "contact"; "url"].

(** The assignments with which [/start] and [/reset] begin. *)
Definition reset_navigation (st : DBUserState.t) : DBUserState.t :=
  DBUserState.set_cards_json None
    (DBUserState.set_search_type ""
       (DBUserState.set_use_pagination false
          (DBUserState.set_flow_stack ["main"] st))).

(** The main-menu keyboard a command shows to [user]. *)
Definition main_menu_for (self : BaseCommand.t) (user : User) : markup :=
  if is_vip user then BaseCommand.main_menu_keyboard_markup_vip self
  else BaseCommand.main_menu_keyboard_markup_all self.

(** A privileged static flow, and a VIP user. *)
Definition example_vip_page : StaticHandler.t :=
  StaticHandler.mk
    (BaseHandler.mk example_base "VIP" None true true "Catalog") None.

(** The two kinds of call a pagination callback makes. *)
Definition edits_or_answers (c : client_call) : Prop :=
  match c with
  | edit_message_reply_markup _ _ _ | answer_callback_query _ _ => True
  | _ => False
  end.

(** [m] only adds calls that satisfy [ok]. *)
Definition calls_only {A} (ok : client_call → Prop) (m : M A) : Prop :=
  hoare (λ h, Forall ok (h_calls h)) m
    (λ _ h, Forall ok (h_calls h)) (λ h, Forall ok (h_calls h)).

(** The five buttons of the pagination keyboard, as configured. *)
Definition example_buttons : gmap string (gmap string string) :=
  list_to_map
    [("previous", list_to_map [("name", "◀"); ("pattern", "previous_callback")]);
     ("next", list_to_map [("name", "▶"); ("pattern", "next_callback")]);
     ("inactive", list_to_map [("name", "·"); ("pattern", "inactive_callback")]);
     ("accept", list_to_map [("name", "✓"); ("pattern", "accept_callback")]);
     ("exit", list_to_map [("name", "Назад"); ("pattern", "exit_callback");
                           ("content", "Вы вернулись назад")])].

Definition example_pager : BaseResponse.t :=
  BaseResponse.mk "" example_menus example_errors example_buttons.

(** The navigation row of the pagination keyboard on [page] of [total]. *)
Definition navigation_row (previous_button next_button inactive_button
    accept_button : InlineButton.t) (page total : Z) : list InlineButton.t :=
  [ if 0 <? page then previous_button else inactive_button;
    accept_button;
    if page <? total - 1 then next_button else inactive_button ].

(** ** Vocabulary for the chat handler *)

(** Where free text takes a user who stands at [top]: outside the managed
    flows the marker flow [""] is entered, with the search set to plain
    questions. *)
Definition free_text_entry (self : ChatHandler.t) (top : string)
    (st : DBUserState.t) : DBUserState.t :=
  if negb (bool_decide (top ∈ ChatHandler.managed_flows self))
     && negb (String.eqb top Sentinels.EMPTY_STR)
  then push_flow Sentinels.EMPTY_STR
         (DBUserState.set_search_type "questions"
            (DBUserState.set_use_pagination false st))
  else st.

(** The request the chat handler sends for a user in state [st]. *)
Definition chat_request (st : DBUserState.t) (message_text : string) : AIPayload :=
  {| p_search_type :=
       if String.eqb (DBUserState.search_type st) "companies" then "semfuz"
       else if String.eqb (DBUserState.search_type st) "products" then "semfuz"
       else "gpt";
     p_top_k := if DBUserState.use_pagination st then 10 else 1;
     p_database_name :=
       if String.eqb (DBUserState.search_type st) "companies" then "cmp"
       else if String.eqb (DBUserState.search_type st) "products" then "prdcts"
       else "faq";
     p_history := message_text |}.

(** The navigation part of a state. *)
Definition same_navigation (a b : DBUserState.t) : Prop :=
  DBUserState.flow_stack a = DBUserState.flow_stack b
  ∧ DBUserState.search_type a = DBUserState.search_type b
  ∧ DBUserState.use_pagination a = DBUserState.use_pagination b.

(** An AI service that is down. *)
Definition example_ai_down : AIClient := λ _, None.

(** The part of [ChatHandler.__call__] that follows the request: the
    response is turned into a text and a keyboard, the keyboard of the
    tracked message is removed, the text is sent and the new message is
    tracked. *)
Definition chat_reply (self : ChatHandler.t) (update : Update) (msg : Message)
    (client : MaxClient) (response : AIResponse) : M unit :=
  content ← ChatHandler.response_content self response;
  content ← match content with
            | Some c => ret c
            | None => raise TypeError
            end;
  let content :=
    if Py.contains "https://ya.ru" content
    then "У меня нет информации по этому вопросу"
    else content in
  st ← get_state;
  let inline_markup :=
    if DBUserState.use_pagination st
       && bool_decide (DBUserState.cards_json st ≠ None)
       && (1 <? DBUserState.cards_total_length st)
    then ChatHandler.inline_markup_with_pagination self
    else ChatHandler.inline_markup_no_pagination self in
  chat_id ← match chat_id msg with
            | Some c => ret c
            | None => raise KeyError
            end;
  BaseResponse._remove_callback_buttons client chat_id;;
  sent_message ←
    BaseResponse._send_message update client content None None
      (Some inline_markup);
  match sent_message with
  | Some (ReplyDict message_id) =>
      modify_state (DBUserState.set_callback_message_inline_markup None);;
      modify_state (DBUserState.set_callback_message_need_to_delete false);;
      modify_state (DBUserState.set_callback_message_id message_id)
  | _ => ret tt
  end.

(** The text that goes out for [content]: the placeholder link is replaced. *)
Definition outgoing_text (content : string) : string :=
  if Py.contains "https://ya.ru" content
  then "У меня нет информации по этому вопросу"
  else content.

(** The keyboard under a reply: the pagination row only for more than one
    card. *)
Definition reply_markup_for (self : ChatHandler.t) (st : DBUserState.t) : markup :=
  if DBUserState.use_pagination st
     && bool_decide (DBUserState.cards_json st ≠ None)
     && (1 <? DBUserState.cards_total_length st)
  then ChatHandler.inline_markup_with_pagination self
  else ChatHandler.inline_markup_no_pagination self.

(** The state once the keyboard of the tracked message has been removed. *)
Definition untracked (st : DBUserState.t) : DBUserState.t :=
  if bool_decide (DBUserState.callback_message_id st = Some Sentinels.EMPTY_STR)
  then st
  else DBUserState.set_callback_message_id None st.

(** The state once the client has answered the send with [sent]. *)
Definition tracked (sent : option reply) (st : DBUserState.t) : DBUserState.t :=
  match sent with
  | Some (ReplyDict message_id) =>
      DBUserState.set_callback_message_id message_id
        (DBUserState.set_callback_message_need_to_delete false
           (DBUserState.set_callback_message_inline_markup None st))
  | _ => st
  end.

(** An AI service that answers every request with the text [a]; one that
    sends the text with an empty list of cards. *)
Definition example_ai_answer (a : string) : AIClient :=
  λ _, Some {| answer := Present a; cards := Absent; product_cards := Absent |}.

Definition example_ai_no_cards (a : string) : AIClient :=
  λ _, Some {| answer := Present a; cards := Present []; product_cards := Absent |}.

(** An AI service that finds nothing. *)
Definition example_ai_nothing : AIClient :=
  λ _, Some {| answer := Present ""; cards := Null; product_cards := Present [] |}.

(** A chat handler whose configuration has no error texts. *)
Definition example_chat_no_texts : ChatHandler.t :=
  ChatHandler.mk (BaseResponse.mk "" example_menus ∅ ∅) [] [] {[ "Search" ]}.

(** ** Vocabulary for the deduplication keys *)

(** A text without a colon, as the decimal text of an [int] is. *)
Fixpoint colon_free (s : string) : bool :=
  match s with
  | EmptyString => true
  | String c s' => negb (Ascii.eqb c ":"%char) && colon_free s'
  end.

(** Two callback events pressed one after the other on a bot that has seen
    no callback yet. *)
Definition example_press_by (user_id : Z) (payload : string) (timestamp : Z)
  : CallbackUpdate :=
  {| cb_callback_id := None; cb_user_id := Some user_id;
     cb_payload := Some payload; cb_timestamp := Some timestamp;
     cb_mid := Some "mid.2"; cb_chat_id := Some 7 |}.

(** The calls [_remove_callback_buttons] makes for the tracked message. *)
Definition removal_calls (cid : Z) (st : DBUserState.t) : list client_call :=
  if bool_decide (DBUserState.callback_message_id st = Some Sentinels.EMPTY_STR)
  then []
  else if DBUserState.callback_message_need_to_delete st
       then [delete_message cid (DBUserState.callback_message_id st)]
       else [edit_message_reply_markup cid (DBUserState.callback_message_id st)
               (DBUserState.callback_message_inline_markup st)].
(** * Properties *)

(** ** Reasoning about handler bodies *)

Lemma bind_unfold {A B} (m : M A) (f : A → M B) h :
  (m ≫= f) h = match m h with
               | (Ok a, h') => f a h'
               | (Raise e, h') => (Raise e, h')
               end.
Proof. reflexivity. Qed.

Lemma hoare_ret {A} (P : heap → Prop) (a : A) Q E :
  (∀ h, P h → Q a h) → hoare P (mret a) Q E.
Proof. intros HQ h HP. simpl. auto. Qed.

Lemma hoare_raise {A} (P : heap → Prop) e (Q : A → heap → Prop) (E : heap → Prop) :
  (∀ h, P h → E h) → hoare P (raise e) Q E.
Proof. intros HE h HP. simpl. auto. Qed.

Lemma hoare_lift {A} (P : heap → Prop) (r : result A) Q E :
  (∀ a h, r = Ok a → P h → Q a h) → (∀ h, P h → E h) → hoare P (lift r) Q E.
Proof. intros HQ HE h HP. unfold lift. destruct r; auto. Qed.

Lemma hoare_bind {A B} (P : heap → Prop) (m : M A) (f : A → M B) R Q E :
  hoare P m R E → (∀ a, hoare (R a) (f a) Q E) → hoare P (m ≫= f) Q E.
Proof.
  intros Hm Hf h HP. rewrite bind_unfold.
  specialize (Hm h HP). destruct (m h) as [[a|e] h']; [|done].
  by apply Hf.
Qed.

Lemma hoare_get_state (P : heap → Prop) Q E :
  (∀ h, P h → Q (h_state h) h) → hoare P get_state Q E.
Proof. intros HQ h HP. simpl. auto. Qed.

Lemma hoare_modify_state (P : heap → Prop) f Q E :
  (∀ h, P h → Q tt {| h_state := f (h_state h); h_calls := h_calls h |}) →
  hoare P (modify_state f) Q E.
Proof. intros HQ h HP. simpl. auto. Qed.

Lemma hoare_call (P : heap → Prop) client c Q E :
  (∀ h r, P h → Q r {| h_state := h_state h; h_calls := h_calls h ++ [c] |}) →
  (∀ h, P h → E {| h_state := h_state h; h_calls := h_calls h ++ [c] |}) →
  hoare P (call client c) Q E.
Proof. intros HQ HE h HP. unfold call. destruct (client c); auto. Qed.

Lemma hoare_try_except {A} (P : heap → Prop) (m handler : M A) Q E' E :
  hoare P m Q E' → hoare E' handler Q E → hoare P (try_except m handler) Q E.
Proof.
  intros Hm Hh h HP. unfold try_except.
  specialize (Hm h HP). destruct (m h) as [[a|e] h']; [done|].
  by apply Hh.
Qed.

Lemma hoare_conseq {A} (P P' : heap → Prop) (m : M A) (Q Q' : A → heap → Prop)
    (E E' : heap → Prop) :
  hoare P' m Q' E' → (∀ h, P h → P' h) → (∀ a h, Q' a h → Q a h) →
  (∀ h, E' h → E h) → hoare P m Q E.
Proof.
  intros Hm HP HQ HE h Hh. specialize (Hm h (HP h Hh)).
  destruct (m h) as [[a|e] h']; auto.
Qed.

Lemma hoare_post_request (P : heap → Prop) ai payload Q E :
  (∀ h r, P h → Q r h) → (∀ h, P h → E h) → hoare P (post_request ai payload) Q E.
Proof. intros HQ HE h HP. unfold post_request. destruct (ai payload); simpl; auto. Qed.

Lemma keeps_ret {A} I (a : A) : keeps I (mret a).
Proof. by apply hoare_ret. Qed.

Lemma keeps_raise {A} I e : keeps I (raise e : M A).
Proof. by apply hoare_raise. Qed.

Lemma keeps_lift {A} I (r : result A) : keeps I (lift r).
Proof. by apply hoare_lift. Qed.

Lemma keeps_bind {A B} I (m : M A) (f : A → M B) :
  keeps I m → (∀ a, keeps I (f a)) → keeps I (m ≫= f).
Proof. intros Hm Hf. eapply hoare_bind; [exact Hm|]. intros a. apply Hf. Qed.

Lemma keeps_call I client c : keeps I (call client c).
Proof. by apply hoare_call. Qed.

Lemma keeps_try_except {A} I (m handler : M A) :
  keeps I m → keeps I handler → keeps I (try_except m handler).
Proof. intros Hm Hh. eapply hoare_try_except; [exact Hm|exact Hh]. Qed.

Lemma keeps_post_request I ai payload : keeps I (post_request ai payload).
Proof. by apply hoare_post_request. Qed.

Lemma keeps_modify_state I f : (∀ s, I s → I (f s)) → keeps I (modify_state f).
Proof. intros Hf. apply hoare_modify_state. intros h. apply Hf. Qed.

(** After reading the state, the continuation may use what was read. *)
Lemma keeps_get_state {A} I (f : DBUserState.t → M A) :
  (∀ s, hoare (λ h, I (h_state h) ∧ h_state h = s) (f s)
          (λ _, on_state I) (on_state I)) →
  keeps I (get_state ≫= f).
Proof.
  intros Hf h HP. rewrite bind_unfold. simpl.
  exact (Hf (h_state h) h (conj HP eq_refl)).
Qed.

Lemma keeps_forget {A} (I : DBUserState.t → Prop) (m : M A) s :
  keeps I m →
  hoare (λ h, I (h_state h) ∧ h_state h = s) m (λ _, on_state I) (on_state I).
Proof. intros Hm h [HI _]. by apply Hm. Qed.

(** The helpers of [BaseResponse] touch the state at most in
    [callback_message_id]. *)
Lemma keeps_send_message I update client content photo video reply_markup :
  keeps I (BaseResponse._send_message update client content photo video reply_markup).
Proof.
  unfold BaseResponse._send_message.
  destruct (BaseResponse.update_chat_id update) as [cid|]; [|apply keeps_ret].
  destruct (cid =? 0); [apply keeps_ret|].
  apply keeps_try_except; [|apply keeps_ret].
  apply keeps_bind; [|intros; apply keeps_ret].
  repeat case_match; apply keeps_call.
Qed.

Lemma keeps_remove_callback_buttons I client chat_id :
  (∀ v s, I s → I (DBUserState.set_callback_message_id v s)) →
  keeps I (BaseResponse._remove_callback_buttons client chat_id).
Proof.
  intros HI. unfold BaseResponse._remove_callback_buttons.
  apply keeps_get_state. intros s. apply keeps_forget.
  case_match; [apply keeps_ret|].
  apply keeps_bind; [|intros; apply keeps_modify_state; intros; by apply HI].
  apply keeps_try_except; [|apply keeps_ret].
  case_match; (apply keeps_bind; [apply keeps_call|intros; apply keeps_ret]).
Qed.


(** [validate_flow] only reads: its answer is decided by [flow_allowed]. *)
Lemma validate_flow_run self h :
  BaseHandler.validate_flow self h =
    (match last (DBUserState.flow_stack (h_state h)) with
     | None => Raise IndexError
     | Some current =>
         if flow_allowed self current then Ok true
         else match BaseResponse.errors (BaseHandler.base self) !! "button_not_found" with
              | Some _ => Ok false
              | None => Raise KeyError
              end
     end, h).
Proof.
  unfold BaseHandler.validate_flow, flow_allowed, menu_button_names.
  rewrite bind_unfold. simpl. rewrite bind_unfold. unfold lift, last_item.
  destruct (last (DBUserState.flow_stack (h_state h))) as [cur|]; [|done].
  destruct (cur =? BaseHandler.current_flow self)%string eqn:Heq; [done|].
  rewrite bind_unfold. simpl.
  destruct (BaseHandler.is_nested self).
  - case_bool_decide; simpl; [done|].
    rewrite bind_unfold. unfold errors_get.
    by destruct (BaseResponse.errors (BaseHandler.base self) !! "button_not_found").
  - destruct (cur =? "main")%string; simpl; [done|].
    rewrite bind_unfold. unfold errors_get.
    by destruct (BaseResponse.errors (BaseHandler.base self) !! "button_not_found").
Qed.

Lemma keeps_validate_flow I self : keeps I (BaseHandler.validate_flow self).
Proof. intros h HI. rewrite validate_flow_run. by repeat case_match. Qed.

(** ** What [run], [middleware] and [handle] do with an outcome *)

Lemma with_state_same user : with_state user (state user) = user.
Proof. by destruct user. Qed.

Lemma state_with_state user s : state (with_state user s) = s.
Proof. done. Qed.

Lemma is_vip_with_state user s : is_vip (with_state user s) = is_vip user.
Proof. done. Qed.

Lemma run_user_after user body :
  user_after (run user body)
  = Some (with_state user (h_state (body {| h_state := state user; h_calls := [] |}).2)).
Proof. unfold run. by destruct (body _) as [[?|?] ?]. Qed.

Lemma run_calls user body :
  calls (run user body)
  = h_calls (body {| h_state := state user; h_calls := [] |}).2.
Proof. unfold run. by destruct (body _) as [[?|?] ?]. Qed.

Lemma run_state_after user body :
  state_after user (run user body)
  = h_state (body {| h_state := state user; h_calls := [] |}).2.
Proof. unfold state_after. by rewrite run_user_after. Qed.

Lemma run_coherent user body : coherent user (run user body).
Proof. unfold coherent, run. destruct (body _) as [[?|?] ?]; simpl; eauto. Qed.

Lemma run_keeps I user body :
  keeps I body → I (state user) → I (state_after user (run user body)).
Proof.
  intros Hb HI. rewrite run_state_after.
  specialize (Hb {| h_state := state user; h_calls := [] |} HI).
  by destruct (body _) as [[?|?] ?].
Qed.

Lemma return_coherent user : coherent user (return_ (Some user)).
Proof. done. Qed.

Lemma return_none_coherent user : coherent user (return_none (Some user)).
Proof. done. Qed.

Lemma raised_coherent e user : coherent user (raised e (Some user)).
Proof. unfold coherent. simpl. eauto. Qed.

(** The row stored once the bot is done is the state of the user object. *)
Lemma handle_middleware_stored func update client user :
  coherent user (func update client (Some user)) →
  (handle (middleware func) update client user).2
  = state_after user (func update client (Some user)).
Proof.
  unfold handle, middleware, coherent, state_after, update_user_state.
  destruct (func update client (Some user)) as [r ua cs]; simpl.
  destruct r as [[u'|]|e]; simpl.
  - by intros ->.
  - by intros ->.
  - by intros [u' ->].
Qed.

Lemma operation_coherent op update client user :
  coherent user (operation_call op update client (Some user)).
Proof.
  destruct op; simpl;
    unfold StartCommand.__call__, ResetCommand.__call__, StaticHandler.__call__,
      ExtendedStaticHandler.__call__, ManagedHandler.__call__,
      ChatHandler.__call__, ExitCallback.__call__, PaginationCallback.__call__,
      ChatHandler.validate_user, BaseHandler.validate_user,
      BaseCallback.validate_user;
    repeat case_match; simplify_eq;
    auto using run_coherent, return_coherent, return_none_coherent,
      raised_coherent.
Qed.

Lemma apply_operation_stored op update client user :
  apply_operation op update client user
  = state_after user (operation_call op update client (Some user)).
Proof. apply handle_middleware_stored, operation_coherent. Qed.

Lemma keeps_get I : keeps I get_state.
Proof. by apply hoare_get_state. Qed.

Lemma keeps_hoare {A} I (m : M A) :
  keeps I m → hoare (on_state I) m (λ _, on_state I) (on_state I).
Proof. done. Qed.

(** ** C1: the flow stack stays anchored at ["main"] *)

Lemma anchored_reset s : stack_anchored (DBUserState.set_flow_stack ["main"] s).
Proof. by exists []. Qed.

Lemma anchored_push name s : stack_anchored s → stack_anchored (push_flow name s).
Proof. intros [rest Hs]. exists (rest ++ [name])%list. simpl. by rewrite Hs. Qed.

Lemma anchored_pop s :
  stack_anchored s → (1 < length (DBUserState.flow_stack s))%nat →
  stack_anchored (pop_flow s).
Proof.
  intros [rest Hs] Hlen. unfold stack_anchored, pop_flow. simpl.
  rewrite Hs in *. destruct rest as [|x rest]; [simpl in Hlen; lia|].
  by exists (removelast (x :: rest)).
Qed.

(** One step of a proof that a handler body keeps an invariant. *)
Ltac keeps_step :=
  lazymatch goal with
  | |- keeps _ (mret _) => apply keeps_ret
  | |- keeps _ (ret _) => apply keeps_ret
  | |- keeps _ get_state => apply keeps_get
  | |- keeps _ (raise _) => apply keeps_raise
  | |- keeps _ (lift _) => apply keeps_lift
  | |- keeps _ (call _ _) => apply keeps_call
  | |- keeps _ (post_request _ _) => apply keeps_post_request
  | |- keeps _ (BaseResponse._send_message _ _ _ _ _ _) => apply keeps_send_message
  | |- keeps _ (BaseHandler.validate_flow _) => apply keeps_validate_flow
  | |- keeps _ (chat_id_of _) => unfold chat_id_of
  | |- keeps _ (try_except _ _) => apply keeps_try_except
  | |- keeps _ (_ ≫= _) => apply keeps_bind; [|intros]
  | |- keeps _ (modify_state _) => apply keeps_modify_state; intros ? ?
  | |- keeps _ (match ?x with _ => _ end) => destruct x eqn:?
  | |- keeps _ (let '(_, _) := ?x in _) => destruct x eqn:?
  end.


Lemma anchored_set_use_pagination v s :
  stack_anchored s → stack_anchored (DBUserState.set_use_pagination v s).
Proof. done. Qed.
Lemma anchored_set_search_type v s :
  stack_anchored s → stack_anchored (DBUserState.set_search_type v s).
Proof. done. Qed.
Lemma anchored_set_callback_message_id v s :
  stack_anchored s → stack_anchored (DBUserState.set_callback_message_id v s).
Proof. done. Qed.
Lemma anchored_set_callback_message_inline_markup v s :
  stack_anchored s → stack_anchored (DBUserState.set_callback_message_inline_markup v s).
Proof. done. Qed.
Lemma anchored_set_callback_message_need_to_delete v s :
  stack_anchored s → stack_anchored (DBUserState.set_callback_message_need_to_delete v s).
Proof. done. Qed.
Lemma anchored_set_cards_json v s :
  stack_anchored s → stack_anchored (DBUserState.set_cards_json v s).
Proof. done. Qed.
Lemma anchored_set_cards_current_page v s :
  stack_anchored s → stack_anchored (DBUserState.set_cards_current_page v s).
Proof. done. Qed.
Lemma anchored_set_cards_total_length v s :
  stack_anchored s → stack_anchored (DBUserState.set_cards_total_length v s).
Proof. done. Qed.

Create HintDb anchored.
#[export] Hint Resolve anchored_reset anchored_push anchored_set_use_pagination
  anchored_set_search_type anchored_set_callback_message_id
  anchored_set_callback_message_inline_markup
  anchored_set_callback_message_need_to_delete anchored_set_cards_json
  anchored_set_cards_current_page anchored_set_cards_total_length : anchored.

Ltac keeps_anchor := repeat keeps_step; eauto with anchored.

Lemma start_keeps_anchor self update client user :
  stack_anchored (state user) →
  stack_anchored (state_after user (StartCommand.__call__ self update client (Some user))).
Proof.
  intros HI. unfold StartCommand.__call__. apply run_keeps; [|done]. keeps_anchor.
Qed.

Lemma reset_keeps_anchor self update client user :
  stack_anchored (state user) →
  stack_anchored (state_after user (ResetCommand.__call__ self update client (Some user))).
Proof.
  intros HI. unfold ResetCommand.__call__. apply run_keeps; [|done]. keeps_anchor.
Qed.


Lemma handler_validate_user_Some self user u :
  BaseHandler.validate_user self (Some user) = Ok (Some u) → u = user.
Proof.
  unfold BaseHandler.validate_user. repeat case_match; intros; by simplify_eq.
Qed.

Lemma callback_validate_user_Some self user u :
  BaseCallback.validate_user self (Some user) = Ok (Some u) → u = user.
Proof. unfold BaseCallback.validate_user. intros; by simplify_eq. Qed.

(** Split a handler on its early exits; what is left runs on [user]. *)
Ltac enter_handler :=
  repeat match goal with
    | |- context [match message ?u with _ => _ end] => destruct (message u) eqn:?
    | |- context [match callback_query ?u with _ => _ end] =>
        destruct (callback_query u) eqn:?
    | |- context [match BaseHandler.validate_user ?s ?u with _ => _ end] =>
        let H := fresh "Hvalid" in
        destruct (BaseHandler.validate_user s u) as [[?|]|?] eqn:H;
        [apply handler_validate_user_Some in H; subst| |]
    | |- context [match BaseCallback.validate_user ?s ?u with _ => _ end] =>
        let H := fresh "Hvalid" in
        destruct (BaseCallback.validate_user s u) as [[?|]|?] eqn:H;
        [apply callback_validate_user_Some in H; subst| |]
    end.

Lemma static_keeps_anchor self update client user :
  stack_anchored (state user) →
  stack_anchored (state_after user (StaticHandler.__call__ self update client (Some user))).
Proof.
  intros HI. unfold StaticHandler.__call__.
  enter_handler; try done. apply run_keeps; [|done]. keeps_anchor.
Qed.

Lemma extended_keeps_anchor self update client user :
  stack_anchored (state user) →
  stack_anchored
    (state_after user (ExtendedStaticHandler.__call__ self update client (Some user))).
Proof.
  intros HI. unfold ExtendedStaticHandler.__call__.
  enter_handler; try done. apply run_keeps; [|done]. keeps_anchor.
Qed.

Lemma managed_keeps_anchor self update client user :
  stack_anchored (state user) →
  stack_anchored
    (state_after user (ManagedHandler.__call__ self update client (Some user))).
Proof.
  intros HI. unfold ManagedHandler.__call__.
  enter_handler; try done. apply run_keeps; [|done]. keeps_anchor.
Qed.

Lemma pagination_keeps_anchor self update client user :
  stack_anchored (state user) →
  stack_anchored
    (state_after user (PaginationCallback.__call__ self update client (Some user))).
Proof.
  intros HI. unfold PaginationCallback.__call__.
  enter_handler; try done. apply run_keeps; [|done].
  unfold PaginationCallback.turn_page. keeps_anchor.
Qed.

Lemma chat_keeps_anchor self ai update client user :
  stack_anchored (state user) →
  stack_anchored
    (state_after user (ChatHandler.__call__ self ai update client (Some user))).
Proof.
  intros HI. unfold ChatHandler.__call__, ChatHandler.validate_user.
  enter_handler; try done. apply run_keeps; [|done].
  unfold ChatHandler.response_content. keeps_anchor.
  apply keeps_remove_callback_buttons. eauto with anchored.
Qed.

Lemma exit_keeps_anchor self update client user :
  stack_anchored (state user) →
  stack_anchored
    (state_after user (ExitCallback.__call__ self update client (Some user))).
Proof.
  intros HI. unfold ExitCallback.__call__.
  enter_handler; try done. apply run_keeps; [|done].
  apply keeps_get_state. intros s.
  eapply hoare_bind with (R := λ _, on_state stack_anchored).
  - destruct (1 <? Z.of_nat (length (DBUserState.flow_stack s))) eqn:Hlen.
    + apply hoare_modify_state. intros h [Hh Hs]. subst s. unfold on_state. simpl.
      apply anchored_pop; [done|]. lia.
    + apply hoare_ret. by intros h [Hh _].
  - intros _. apply keeps_hoare. keeps_anchor.
Qed.

Lemma operation_keeps_anchor op update client user :
  stack_anchored (state user) →
  stack_anchored (state_after user (operation_call op update client (Some user))).
Proof.
  destruct op; simpl;
    eauto using start_keeps_anchor, reset_keeps_anchor, static_keeps_anchor,
      extended_keeps_anchor, managed_keeps_anchor, chat_keeps_anchor,
      exit_keeps_anchor, pagination_keeps_anchor.
Qed.

(** C1. Every reachable state has a non-empty flow stack whose first
    element is ["main"]: the invariant holds for the defaults of a first
    contact and is kept by [/start], [/reset], the static, extended-static
    and managed handlers, the free-text chat handler, the back callback and
    the pagination callbacks, whatever the update, the client and the AI
    service do. *)
Theorem flow_stack_anchored st :
  reachable st → ∃ rest, DBUserState.flow_stack st = "main" :: rest.
Proof.
  induction 1 as [|st op update client user Hreach IH Hst].
  - by exists [].
  - rewrite apply_operation_stored. apply operation_keeps_anchor.
    rewrite Hst. exact IH.
Qed.

Lemma flow_stack_anchored_witness :
  reachable in_search
  ∧ ∃ rest, DBUserState.flow_stack in_search = "main" :: rest.
Proof.
  assert (Hreach : reachable in_search).
  { unfold in_search. eapply reachable_step; [apply reachable_default|reflexivity]. }
  split; [exact Hreach|].
  exact (flow_stack_anchored in_search Hreach).
Defined.

(** ** C5: the back callback *)

Lemma keeps_state_eq {A} (m : M A) h :
  (∀ I, keeps I m) → h_state (m h).2 = h_state h.
Proof.
  intros Hm. specialize (Hm (λ s, s = h_state h) h eq_refl).
  by destruct (m h) as [[?|?] ?].
Qed.

(** Symbolic execution of the first statement of a body. *)
Lemma bind_get {B} (k : DBUserState.t → M B) h :
  (get_state ≫= k) h = k (h_state h) h.
Proof. done. Qed.

Lemma bind_modify {B} f (k : unit → M B) h :
  (modify_state f ≫= k) h
  = k tt {| h_state := f (h_state h); h_calls := h_calls h |}.
Proof. done. Qed.

Lemma bind_ret {A B} (a : A) (k : A → M B) h : (ret a ≫= k) h = k a h.
Proof. done. Qed.

Lemma bind_lift_ok {A B} (a : A) (k : A → M B) h : (lift (Ok a) ≫= k) h = k a h.
Proof. done. Qed.

Lemma bind_lift_raise {A B} e (k : A → M B) h :
  (lift (Raise e) ≫= k) h = (Raise e, h).
Proof. done. Qed.

Ltac exec :=
  repeat first
    [ rewrite bind_get
    | rewrite bind_modify
    | rewrite bind_ret
    | rewrite bind_lift_ok
    | rewrite bind_lift_raise ];
  cbn [h_state h_calls].

(** The state the back callback leaves. *)
Lemma exit_state_after self update cq client user :
  callback_query update = Some cq →
  state_after user (ExitCallback.__call__ self update client (Some user))
  = DBUserState.set_cards_json None
      (DBUserState.set_search_type ""
         (DBUserState.set_use_pagination false
            (if (1 <? Z.of_nat (length (DBUserState.flow_stack (state user))))
             then pop_flow (state user) else state user))).
Proof.
  intros Hcq. unfold ExitCallback.__call__. rewrite Hcq. simpl.
  rewrite run_state_after. exec.
  destruct (1 <? Z.of_nat (length (DBUserState.flow_stack (state user)))) eqn:Hlen.
  all: exec.
  all: rewrite keeps_state_eq; [done|].
  all: intros I; keeps_anchor.
Qed.

(** C5. The back callback pops exactly one element of a flow stack that has
    more than one, leaves a one-element stack (["main"]) as it is, and in
    both cases stores [use_pagination = False], [search_type = ""] and
    [cards_json = None]. *)
Theorem exit_pops_one_level self update cq client user :
  callback_query update = Some cq →
  let st := state user in
  let st' := apply_operation (OpExit self) update client user in
  ((1 < length (DBUserState.flow_stack st))%nat →
     ∃ top, DBUserState.flow_stack st = DBUserState.flow_stack st' ++ [top])
  ∧ ((length (DBUserState.flow_stack st) ≤ 1)%nat →
       DBUserState.flow_stack st' = DBUserState.flow_stack st)
  ∧ DBUserState.use_pagination st' = false
  ∧ DBUserState.search_type st' = ""
  ∧ DBUserState.cards_json st' = None.
Proof.
  intros Hcq st st'. subst st'. rewrite apply_operation_stored. simpl.
  rewrite (exit_state_after _ _ cq) by done. fold st.
  destruct (1 <? Z.of_nat (length (DBUserState.flow_stack st))) eqn:Hlen; simpl.
  - apply Z.ltb_lt in Hlen. split; [|split; [intros; lia|done]].
    intros _. destruct (DBUserState.flow_stack st) as [|x l] using rev_ind.
    + simpl in Hlen. lia.
    + exists x. by rewrite removelast_last.
  - apply Z.ltb_ge in Hlen. split; [intros; lia|done].
Qed.

Lemma exit_pops_one_level_witness :
  let user := example_user in_search_twice in
  let st' := apply_operation (OpExit example_exit) (example_callback "exit_callback")
               example_client user in
  DBUserState.flow_stack (state user) = ["main"; "Search"; "Search"]
  ∧ DBUserState.flow_stack st' = ["main"; "Search"]
  ∧ DBUserState.use_pagination st' = false.
Proof.
  pose proof (exit_pops_one_level example_exit (example_callback "exit_callback")
                _ example_client (example_user in_search_twice) eq_refl) as H.
  cbv zeta in H. destruct H as (Hpop & _ & Hpag & _).
  split; [reflexivity|]. split; [|exact Hpag].
  vm_compute. reflexivity.
Defined.

(** The two stacks named by the specification. *)
Example exit_from_main_a_b self update cq client user :
  callback_query update = Some cq →
  DBUserState.flow_stack (state user) = ["main"; "a"; "b"] →
  DBUserState.flow_stack (apply_operation (OpExit self) update client user)
  = ["main"; "a"].
Proof.
  intros Hcq Hst. rewrite apply_operation_stored. simpl.
  rewrite (exit_state_after _ _ cq) by done.
  rewrite Hst. simpl. by rewrite ?Hst.
Qed.

Example exit_from_main self update cq client user :
  callback_query update = Some cq →
  DBUserState.flow_stack (state user) = ["main"] →
  DBUserState.flow_stack (apply_operation (OpExit self) update client user)
  = ["main"].
Proof.
  intros Hcq Hst. rewrite apply_operation_stored. simpl.
  rewrite (exit_state_after _ _ cq) by done.
  rewrite Hst. simpl. by rewrite ?Hst.
Qed.

(** ** C6: the pagination callbacks *)

Lemma set_cards_current_page_same st :
  DBUserState.set_cards_current_page (DBUserState.cards_current_page st) st = st.
Proof. by destruct st. Qed.

Lemma turn_page_state client cq d h :
  h_state (PaginationCallback.turn_page client cq d h).2
  = DBUserState.set_cards_current_page (page_after d (h_state h)) (h_state h).
Proof.
  unfold PaginationCallback.turn_page, page_after. exec.
  destruct (d =? "previous_callback")%string.
  { destruct (0 <? _); exec; simpl; by rewrite ?set_cards_current_page_same. }
  destruct (d =? "next_callback")%string.
  { destruct (_ <? _); exec; simpl; by rewrite ?set_cards_current_page_same. }
  rewrite set_cards_current_page_same.
  rewrite keeps_state_eq; [done|]. intros I. keeps_anchor.
Qed.

(** A pagination callback changes nothing but the page. *)
Lemma pagination_state_after self update cq client user :
  callback_query update = Some cq →
  cards_present (state user) →
  state_after user (PaginationCallback.__call__ self update client (Some user))
  = DBUserState.set_cards_current_page
      (page_after (default "" (data cq)) (state user)) (state user).
Proof.
  intros Hcq (c & cs & Hcards). unfold PaginationCallback.__call__.
  rewrite Hcq. simpl. rewrite run_state_after. exec.
  rewrite Hcards. simpl.
  destruct (truthy_str (data cq)) eqn:Hdata; simpl.
  - rewrite bind_unfold.
    pose proof (turn_page_state client cq (default "" (data cq))
                  {| h_state := state user; h_calls := [] |}) as Hturn.
    destruct (PaginationCallback.turn_page _ _ _ _) as [[go_on|e] h'];
      simpl in Hturn; [|done].
    destruct go_on; simpl; [|done].
    rewrite keeps_state_eq; [done|]. intros I. keeps_anchor.
  - destruct (data cq) as [d|]; simpl in *.
    + destruct (String.eqb_spec d ""); [subst|done].
      by rewrite set_cards_current_page_same.
    + by rewrite set_cards_current_page_same.
Qed.

(** The page stays inside its bounds in every reachable state. *)

Lemma bounded_set_flow_stack v s :
  cards_bounded s → cards_bounded (DBUserState.set_flow_stack v s).
Proof. done. Qed.
Lemma bounded_push name s : cards_bounded s → cards_bounded (push_flow name s).
Proof. done. Qed.
Lemma bounded_pop s : cards_bounded s → cards_bounded (pop_flow s).
Proof. done. Qed.
Lemma bounded_set_use_pagination v s :
  cards_bounded s → cards_bounded (DBUserState.set_use_pagination v s).
Proof. done. Qed.
Lemma bounded_set_search_type v s :
  cards_bounded s → cards_bounded (DBUserState.set_search_type v s).
Proof. done. Qed.
Lemma bounded_set_callback_message_id v s :
  cards_bounded s → cards_bounded (DBUserState.set_callback_message_id v s).
Proof. done. Qed.
Lemma bounded_set_callback_message_inline_markup v s :
  cards_bounded s →
  cards_bounded (DBUserState.set_callback_message_inline_markup v s).
Proof. done. Qed.
Lemma bounded_set_callback_message_need_to_delete v s :
  cards_bounded s →
  cards_bounded (DBUserState.set_callback_message_need_to_delete v s).
Proof. done. Qed.
Lemma bounded_no_cards s : cards_bounded (DBUserState.set_cards_json None s).
Proof. by intros (? & ? & ?). Qed.

Lemma bounded_page_after d s :
  cards_bounded s →
  cards_bounded (DBUserState.set_cards_current_page (page_after d s) s).
Proof.
  unfold cards_bounded, cards_present, page_in_bounds, page_after. simpl.
  intros Hs Hcards. specialize (Hs Hcards).
  repeat case_match; try lia;
    repeat match goal with
      | H : (_ <? _) = true |- _ => apply Z.ltb_lt in H
      | H : (_ <? _) = false |- _ => apply Z.ltb_ge in H
      end; lia.
Qed.

Lemma bounded_first_page (cards : list Card) s :
  cards_bounded
    (DBUserState.set_cards_total_length (Z.of_nat (length cards))
       (DBUserState.set_cards_current_page 0
          (DBUserState.set_cards_json (Some cards) s))).
Proof.
  unfold cards_bounded, cards_present, page_in_bounds. simpl.
  intros (c & cs & [= ->]). simpl. lia.
Qed.

Create HintDb bounded.
#[export] Hint Resolve bounded_set_flow_stack bounded_push bounded_pop
  bounded_set_use_pagination bounded_set_search_type
  bounded_set_callback_message_id bounded_set_callback_message_inline_markup
  bounded_set_callback_message_need_to_delete bounded_no_cards : bounded.

Ltac keeps_bounded := repeat keeps_step; eauto with bounded.

Lemma keeps_turn_page client cq d :
  keeps cards_bounded (PaginationCallback.turn_page client cq d).
Proof.
  intros h Hh. pose proof (turn_page_state client cq d h) as Hstate.
  destruct (PaginationCallback.turn_page client cq d h) as [[?|?] h'];
    simpl in Hstate; unfold on_state; rewrite Hstate;
    by apply bounded_page_after.
Qed.

Lemma keeps_response_content self response :
  keeps cards_bounded (ChatHandler.response_content self response).
Proof.
  unfold ChatHandler.response_content.
  destruct (_ || _); [|keeps_bounded].
  apply keeps_bind; [apply keeps_get|]. intros st.
  destruct (DBUserState.use_pagination st); [|keeps_bounded].
  destruct (match field_get (cards response) with
            | Some c => Some c
            | None => field_get (product_cards response)
            end) as [cs|]; [|keeps_bounded].
  intros h _. exec. unfold on_state.
  destruct cs as [|c cs]; simpl; apply bounded_first_page.
Qed.

Lemma operation_keeps_bounded op update client user :
  cards_bounded (state user) →
  cards_bounded (state_after user (operation_call op update client (Some user))).
Proof.
  intros HI.
  destruct op; simpl;
    unfold StartCommand.__call__, ResetCommand.__call__, StaticHandler.__call__,
      ExtendedStaticHandler.__call__, ManagedHandler.__call__,
      ChatHandler.__call__, ChatHandler.validate_user, ExitCallback.__call__,
      PaginationCallback.__call__;
    enter_handler; try done; (apply run_keeps; [|done]).
  all: repeat first
         [ apply keeps_turn_page
         | apply keeps_response_content
         | apply keeps_remove_callback_buttons; eauto with bounded
         | keeps_step ];
       eauto with bounded.
Qed.

Lemma reachable_cards_bounded st : reachable st → cards_bounded st.
Proof.
  induction 1 as [|st op update client user Hreach IH Hst].
  - by intros (? & ? & ?).
  - rewrite apply_operation_stored. apply operation_keeps_bounded.
    by rewrite Hst.
Qed.

(** C6. With cards present, [next] on the last page and [previous] on the
    first page leave the page where it is. Every reachable state with cards
    present has its page inside the bounds [0 <= page < total]; there the
    two callbacks set the page to [min (page + 1) (total - 1)] and
    [max (page - 1) 0], and every pagination callback keeps the page inside
    the bounds. *)
Theorem pagination_clamping self update cq client user :
  callback_query update = Some cq →
  cards_present (state user) →
  let st := state user in
  let st' := apply_operation (OpPagination self) update client user in
  let page := DBUserState.cards_current_page st in
  let total := DBUserState.cards_total_length st in
  DBUserState.cards_total_length st' = total
  ∧ (data cq = Some "next_callback" → page = total - 1 →
       DBUserState.cards_current_page st' = page)
  ∧ (data cq = Some "previous_callback" → page = 0 →
       DBUserState.cards_current_page st' = page)
  ∧ (reachable st → page_in_bounds st)
  ∧ (page_in_bounds st →
       (data cq = Some "next_callback" →
          DBUserState.cards_current_page st' = Z.min (page + 1) (total - 1))
       ∧ (data cq = Some "previous_callback" →
            DBUserState.cards_current_page st' = Z.max (page - 1) 0)
       ∧ page_in_bounds st').
Proof.
  intros Hcq Hcards st st' page total. subst st'.
  rewrite apply_operation_stored. simpl.
  rewrite (pagination_state_after _ _ cq) by done. fold st. simpl.
  split; [done|]. split; [|split; [|split; [|split; [|split]]]].
  3: { intros Hreach. by apply reachable_cards_bounded. }
  all: unfold page_in_bounds, page_after in *; subst page total; simpl.
  - intros -> ->. simpl. rewrite Z.ltb_irrefl. done.
  - intros -> ->. done.
  - intros ->. simpl. case_match; [apply Z.ltb_lt in H0|apply Z.ltb_ge in H0]; lia.
  - intros ->. simpl. case_match; [apply Z.ltb_lt in H0|apply Z.ltb_ge in H0]; lia.
  - repeat case_match; try lia;
      repeat match goal with
        | H : (_ <? _) = true |- _ => apply Z.ltb_lt in H
        | H : (_ <? _) = false |- _ => apply Z.ltb_ge in H
        end; lia.
Qed.

Lemma pagination_clamping_witness :
  let user := example_user (on_page 2) in
  let st' := apply_operation (OpPagination example_base)
               (example_callback "next_callback") example_client user in
  cards_present (state user)
  ∧ DBUserState.cards_current_page (state user) = 2
  ∧ DBUserState.cards_total_length (state user) = 3
  ∧ DBUserState.cards_current_page st' = 2.
Proof.
  assert (Hcards : cards_present (state (example_user (on_page 2)))).
  { by eexists _, _. }
  pose proof (pagination_clamping example_base (example_callback "next_callback")
                _ example_client (example_user (on_page 2)) eq_refl Hcards) as H.
  simpl in H. destruct H as (_ & Hnext & _).
  split; [exact Hcards|]. split; [reflexivity|]. split; [reflexivity|].
  exact (Hnext eq_refl eq_refl).
Defined.

(** ** C10: static flows do not navigate *)

(** [_send_message] leaves the state alone and makes at most one call,
    whose failure it swallows. *)
Lemma send_message_run update client content photo video reply_markup h :
  BaseResponse._send_message update client content photo video reply_markup h
  = match BaseResponse.update_chat_id update with
    | Some cid =>
        if cid =? 0 then (Ok None, h)
        else
          let c := message_call cid content photo video reply_markup in
          (Ok (client c), {| h_state := h_state h; h_calls := h_calls h ++ [c] |})
    | None => (Ok None, h)
    end.
Proof.
  unfold BaseResponse._send_message, message_call.
  destruct (BaseResponse.update_chat_id update) as [cid|]; [|done].
  destruct (cid =? 0); [done|].
  unfold try_except. rewrite bind_unfold. unfold call.
  destruct (truthy_str photo); [|destruct (truthy_str video)];
    by destruct (client _).
Qed.

(** C10. A static handler, run on a message for a registered user who is
    privileged enough for the flow, hands back the user it was given with
    every field of the state as it was; all it does is hand the flow's
    message to the client (when the update names a chat). *)
Theorem static_handler_frame self update msg client user :
  message update = Some msg →
  (BaseHandler.privileged (StaticHandler.base self) = true → is_vip user = true) →
  let o := StaticHandler.__call__ self update client (Some user) in
  returned o = Ok (Some user)
  ∧ user_after o = Some user
  ∧ apply_operation (OpStatic self) update client user = state user
  ∧ sent_to_chat update
      (λ cid, message_call cid
                (BaseResponse.content (BaseHandler.base (StaticHandler.base self)))
                (BaseHandler.photo (StaticHandler.base self)) None
                (StaticHandler.inline_markup self))
      (calls o).
Proof.
  intros Hmsg Hpriv o.
  assert (Hvalid : BaseHandler.validate_user (StaticHandler.base self) (Some user)
                   = Ok (Some user)).
  { unfold BaseHandler.validate_user.
    destruct (BaseHandler.privileged _); [rewrite Hpriv|]; done. }
  rewrite apply_operation_stored. simpl. fold o.
  subst o. unfold StaticHandler.__call__, state_after. rewrite Hmsg, Hvalid.
  unfold run. rewrite bind_unfold, send_message_run. unfold sent_to_chat.
  destruct (BaseResponse.update_chat_id update) as [cid|];
    [destruct (cid =? 0)|]; simpl; rewrite with_state_same; eauto.
Qed.

Lemma static_handler_frame_witness :
  let self := StaticHandler.mk
                (BaseHandler.mk example_base "About" None true false "Catalog") None in
  let user := example_user in_search in
  let o := StaticHandler.__call__ self example_update example_client (Some user) in
  returned o = Ok (Some user)
  ∧ user_after o = Some user
  ∧ apply_operation (OpStatic self) example_update example_client user = in_search
  ∧ calls o = [send_message 7 "Добро пожаловать" None].
Proof.
  intros self user o.
  exact (static_handler_frame self example_update _ example_client user eq_refl
           (λ H : false = true, H)).
Defined.

(** ** C2, C3, C4: entering a flow *)

Lemma validate_user_ok self user :
  privilege_ok self user →
  BaseHandler.validate_user self (Some user) = Ok (Some user).
Proof.
  unfold privilege_ok, BaseHandler.validate_user. intros Hpriv.
  destruct (BaseHandler.privileged self); [rewrite Hpriv|]; done.
Qed.

Lemma flow_allowed_spec self current :
  flow_allowed self current = true
  ↔ current = BaseHandler.current_flow self
    ∨ (if BaseHandler.is_nested self
       then BaseHandler.current_flow self
              ∈ menu_button_names (BaseResponse.menus (BaseHandler.base self)) current
       else current = "main").
Proof.
  unfold flow_allowed. rewrite orb_true_iff, String.eqb_eq.
  destruct (BaseHandler.is_nested self).
  - by rewrite bool_decide_eq_true.
  - by rewrite String.eqb_eq.
Qed.

(** What the managed handler leaves, by the answer of [validate_flow]. *)
Lemma managed_run self update msg client user current :
  message update = Some msg →
  BaseHandler.validate_user (ManagedHandler.base self) (Some user) = Ok (Some user) →
  current_top (state user) = Some current →
  let o := ManagedHandler.__call__ self update client (Some user) in
  if flow_allowed (ManagedHandler.base self) current then
    state_after user o
    = DBUserState.set_use_pagination (ManagedHandler.use_pagination self)
        (push_flow (BaseHandler.current_flow (ManagedHandler.base self))
           (DBUserState.set_search_type (ManagedHandler.search_type self)
              (state user)))
    ∧ sent_to_chat update
        (λ cid, message_call cid
                  (BaseResponse.content (BaseHandler.base (ManagedHandler.base self)))
                  (BaseHandler.photo (ManagedHandler.base self)) None None)
        (calls o)
  else
    user_after o = Some user ∧ calls o = [].
Proof.
  intros Hmsg Hvalid Htop o. subst o. unfold current_top in Htop.
  unfold ManagedHandler.__call__, state_after. rewrite Hmsg, Hvalid.
  unfold run. rewrite bind_unfold, validate_flow_run. simpl. rewrite Htop.
  destruct (flow_allowed (ManagedHandler.base self) current); simpl.
  - exec. rewrite bind_unfold, send_message_run. unfold sent_to_chat.
    destruct (BaseResponse.update_chat_id update) as [cid|];
      [destruct (cid =? 0)|]; simpl; eauto.
  - destruct (BaseResponse.errors _ !! "button_not_found"); simpl;
      by rewrite with_state_same.
Qed.

(** What the extended-static handler leaves: the stack is reset first for
    a root flow, and [validate_flow] answers for the stack after that. *)
Lemma extended_run self update msg client user :
  message update = Some msg →
  BaseHandler.validate_user (ExtendedStaticHandler.base self) (Some user)
  = Ok (Some user) →
  let base := ExtendedStaticHandler.base self in
  let st0 := if BaseHandler.is_nested base then state user
             else DBUserState.set_flow_stack ["main"] (state user) in
  let o := ExtendedStaticHandler.__call__ self update client (Some user) in
  ∀ current, current_top st0 = Some current →
  if flow_allowed base current then
    state_after user o = push_flow (BaseHandler.current_flow base) st0
    ∧ sent_to_chat update
        (λ cid, message_call cid
                  (BaseResponse.content (BaseHandler.base base))
                  (BaseHandler.photo base) None
                  (Some (if is_vip user
                         then ExtendedStaticHandler.keyboard_markup_vip self
                         else ExtendedStaticHandler.keyboard_markup_all self)))
        (calls o)
  else
    state_after user o = st0 ∧ calls o = [].
Proof.
  intros Hmsg Hvalid base st0 o current Htop. subst o. unfold current_top in Htop.
  unfold ExtendedStaticHandler.__call__, state_after. rewrite Hmsg, Hvalid.
  unfold run. fold base.
  assert (Hfirst : ∀ B (k : unit → M B),
             ((if negb (BaseHandler.is_nested base)
               then modify_state (DBUserState.set_flow_stack ["main"])
               else ret tt) ≫= k) {| h_state := state user; h_calls := [] |}
             = k tt {| h_state := st0; h_calls := [] |}).
  { intros B k. subst st0. by destruct (BaseHandler.is_nested base). }
  rewrite Hfirst. rewrite bind_unfold, validate_flow_run. simpl. rewrite Htop.
  destruct (flow_allowed base current); simpl.
  - exec. rewrite bind_unfold, send_message_run. unfold sent_to_chat.
    destruct (BaseResponse.update_chat_id update) as [cid|];
      [destruct (cid =? 0)|]; simpl; eauto.
  - by destruct (BaseResponse.errors _ !! "button_not_found").
Qed.

(** A privileged flow and a user who is not VIP: the flow handlers return
    before they touch anything. *)
Lemma not_privilege_ok self user :
  ¬ privilege_ok self user
  ↔ BaseHandler.privileged self = true ∧ is_vip user = false.
Proof.
  unfold privilege_ok.
  destruct (BaseHandler.privileged self), (is_vip user); intuition congruence.
Qed.

Lemma validate_user_turned_away self user :
  ¬ privilege_ok self user →
  BaseHandler.validate_user self (Some user) = Ok None
  ∨ BaseHandler.validate_user self (Some user) = Raise KeyError.
Proof.
  intros [Hpriv Hvip]%not_privilege_ok.
  unfold BaseHandler.validate_user, errors_get. rewrite Hpriv, Hvip. simpl.
  destruct (BaseResponse.errors (BaseHandler.base self) !! "user_not_allowed");
    [by left|by right].
Qed.

Lemma managed_turned_away self update client user :
  ¬ privilege_ok (ManagedHandler.base self) user →
  let o := ManagedHandler.__call__ self update client (Some user) in
  user_after o = Some user ∧ calls o = [] ∧ state_after user o = state user.
Proof.
  intros Hno. simpl. unfold ManagedHandler.__call__, state_after.
  destruct (message update); [|done].
  by destruct (validate_user_turned_away _ _ Hno) as [-> | ->].
Qed.

Lemma extended_turned_away self update client user :
  ¬ privilege_ok (ExtendedStaticHandler.base self) user →
  let o := ExtendedStaticHandler.__call__ self update client (Some user) in
  user_after o = Some user ∧ calls o = [] ∧ state_after user o = state user.
Proof.
  intros Hno. simpl. unfold ExtendedStaticHandler.__call__, state_after.
  destruct (message update); [|done].
  by destruct (validate_user_turned_away _ _ Hno) as [-> | ->].
Qed.

(** C2, as the code has it. When the flow being entered is already at the
    top of the stack, [validate_flow] accepts the transition and leaves the
    stack as it is. For a user who passes the privilege check of the handler
    (the flow is not privileged, or the user is VIP) the handler then pushes
    the flow name as for any accepted entry: the stack of a managed or
    nested extended-static flow grows by that one element, and the stack of
    a root extended-static flow becomes [["main"; target]]. A user who is
    not VIP is turned away from a privileged flow before [validate_flow]
    runs, and the stack stays as it is. *)
Theorem self_reentry_pushes base update msg client user :
  message update = Some msg →
  current_top (state user) = Some (BaseHandler.current_flow base) →
  let target := BaseHandler.current_flow base in
  let stack := DBUserState.flow_stack (state user) in
  (∀ h, h_state h = state user → BaseHandler.validate_flow base h = (Ok true, h))
  ∧ (∀ self, ManagedHandler.base self = base →
       let after := apply_operation (OpManaged self) update client user in
       (privilege_ok base user → DBUserState.flow_stack after = stack ++ [target])
       ∧ (¬ privilege_ok base user → after = state user))
  ∧ (∀ self, ExtendedStaticHandler.base self = base →
       let after := apply_operation (OpExtendedStatic self) update client user in
       (privilege_ok base user →
          DBUserState.flow_stack after
          = if BaseHandler.is_nested base then stack ++ [target]
            else ["main"; target])
       ∧ (¬ privilege_ok base user → after = state user)).
Proof.
  intros Hmsg Htop target stack.
  assert (Hself : flow_allowed base target = true).
  { apply flow_allowed_spec. by left. }
  split; [|split].
  - intros h Hh. rewrite validate_flow_run, Hh.
    unfold current_top in Htop. rewrite Htop. fold target. by rewrite Hself.
  - intros self <- after. subst after. rewrite apply_operation_stored. simpl.
    split.
    + intros Hpriv.
      pose proof (managed_run self update msg client user target Hmsg
                    (validate_user_ok _ _ Hpriv) Htop) as Hrun.
      simpl in Hrun. fold target in Hrun. rewrite Hself in Hrun.
      destruct Hrun as [-> _]. done.
    + intros Hno. by apply managed_turned_away.
  - intros self <- after. subst after. rewrite apply_operation_stored. simpl.
    split.
    + intros Hpriv.
      pose proof (extended_run self update msg client user Hmsg
                    (validate_user_ok _ _ Hpriv)) as Hrun.
      simpl in Hrun.
      destruct (BaseHandler.is_nested (ExtendedStaticHandler.base self))
        eqn:Hnested.
      * specialize (Hrun target Htop). fold target in Hrun.
        rewrite Hself in Hrun. destruct Hrun as [-> _]. done.
      * specialize (Hrun "main" eq_refl).
        assert (Hmain : flow_allowed (ExtendedStaticHandler.base self) "main"
                        = true).
        { apply flow_allowed_spec. rewrite Hnested. by right. }
        rewrite Hmain in Hrun. destruct Hrun as [-> _]. done.
    + intros Hno. by apply extended_turned_away.
Qed.

Lemma self_reentry_pushes_witness :
  current_top in_search = Some "Search"
  ∧ DBUserState.flow_stack
      (apply_operation (OpManaged example_search) example_update example_client
         (example_user in_search))
    = DBUserState.flow_stack in_search ++ ["Search"].
Proof.
  split; [reflexivity|].
  pose proof (self_reentry_pushes (ManagedHandler.base example_search)
                example_update _ example_client (example_user in_search)
                eq_refl eq_refl) as (_ & Hmanaged & _).
  exact (proj1 (Hmanaged example_search eq_refl) (λ H : false = true, H)).
Defined.

(** C2 as stated fails: the user stands in ["Search"] and presses
    ["Search"] again; the stack had two elements and now has three. *)
Lemma self_reentry_changes_stack :
  let before := in_search in
  let after := apply_operation (OpManaged example_search) example_update
                 example_client (example_user before) in
  current_top before
  = Some (BaseHandler.current_flow (ManagedHandler.base example_search))
  ∧ DBUserState.flow_stack before = ["main"; "Search"]
  ∧ DBUserState.flow_stack after = ["main"; "Search"; "Search"]
  ∧ length (DBUserState.flow_stack after) ≠ length (DBUserState.flow_stack before).
Proof. vm_compute. repeat split; congruence. Qed.

(** C3, as the code has it. For a user who passes the privilege check (the
    flow is not privileged, or the user is VIP) the extended-static handler
    resets the stack to [["main"]] before it validates, so a root
    (non-nested) flow is entered from every state: the flow name is pushed
    on the reset stack, the stored stack is [["main"; target]] with no
    history of prior flows, the rest of the state is as it was and the
    flow's message goes to the client. A user who is not VIP is turned away
    from a privileged root flow before the reset: the state is as it was and
    nothing is sent. [validate_flow] on its own accepts a root flow exactly
    when the top of the stack is ["main"] or the flow itself. *)
Theorem root_entry_resets self update msg client user :
  message update = Some msg →
  let base := ExtendedStaticHandler.base self in
  let target := BaseHandler.current_flow base in
  BaseHandler.is_nested base = false →
  let o := ExtendedStaticHandler.__call__ self update client (Some user) in
  let after := apply_operation (OpExtendedStatic self) update client user in
  (privilege_ok base user →
     after = DBUserState.set_flow_stack ["main"; target] (state user)
     ∧ sent_to_chat update
         (λ cid, message_call cid (BaseResponse.content (BaseHandler.base base))
                   (BaseHandler.photo base) None
                   (Some (if is_vip user
                          then ExtendedStaticHandler.keyboard_markup_vip self
                          else ExtendedStaticHandler.keyboard_markup_all self)))
         (calls o))
  ∧ (¬ privilege_ok base user →
       after = state user ∧ user_after o = Some user ∧ calls o = [])
  ∧ (∀ h current,
       current_top (h_state h) = Some current →
       (BaseHandler.validate_flow base h = (Ok true, h)
        ↔ current = target ∨ current = "main")
       ∧ (BaseHandler.validate_flow base h).2 = h).
Proof.
  intros Hmsg base target Hroot o after.
  split; [|split].
  - intros Hpriv.
    pose proof (extended_run self update msg client user Hmsg
                  (validate_user_ok _ _ Hpriv)) as Hrun.
    simpl in Hrun. fold base in Hrun. rewrite Hroot in Hrun.
    specialize (Hrun "main" eq_refl).
    assert (Hmain : flow_allowed base "main" = true).
    { apply flow_allowed_spec. rewrite Hroot. by right. }
    rewrite Hmain in Hrun. destruct Hrun as [Hstate Hcalls].
    split; [|exact Hcalls].
    subst after. rewrite apply_operation_stored. simpl. rewrite Hstate.
    unfold push_flow. simpl. by destruct (state user).
  - intros Hno. subst after o. rewrite apply_operation_stored. simpl.
    by destruct (extended_turned_away self update client user Hno)
      as (? & ? & ?).
  - intros h current Htop. rewrite validate_flow_run.
    unfold current_top in Htop. rewrite Htop. split; [|done].
    pose proof (flow_allowed_spec base current) as Hspec.
    rewrite Hroot in Hspec. fold target in Hspec.
    destruct (flow_allowed base current).
    + split; [intros _; by apply Hspec|done].
    + split.
      * by destruct (BaseResponse.errors _ !! "button_not_found").
      * intros Ha. apply Hspec in Ha. done.
Qed.

Lemma root_entry_resets_witness :
  let user := example_user in_search_twice in
  DBUserState.flow_stack (state user) = ["main"; "Search"; "Search"]
  ∧ DBUserState.flow_stack
      (apply_operation (OpExtendedStatic example_catalog) example_update
         example_client user)
    = ["main"; "Catalog"].
Proof.
  split; [reflexivity|].
  pose proof (root_entry_resets example_catalog example_update _ example_client
                (example_user in_search_twice) eq_refl eq_refl)
    as (Henter & _).
  destruct (Henter (λ H : false = true, H)) as [Hstate _].
  rewrite Hstate. reflexivity.
Defined.

(** C3 as stated fails: the user stands in ["Search"], not in ["main"], and
    presses the root flow ["Catalog"]; the entry is carried out all the
    same. *)
Lemma root_entry_from_elsewhere :
  let before := in_search in
  let o := ExtendedStaticHandler.__call__ example_catalog example_update
             example_client (Some (example_user before)) in
  BaseHandler.is_nested (ExtendedStaticHandler.base example_catalog) = false
  ∧ current_top before = Some "Search"
  ∧ current_top before ≠ Some "main"
  ∧ DBUserState.flow_stack (state_after (example_user before) o)
    = ["main"; "Catalog"]
  ∧ calls o
    = [send_message 7 "Добро пожаловать"
         (Some (build_keyboard [Button.mk "Offers" 0] false))].
Proof. vm_compute. repeat split; congruence. Qed.

(** C4, as the code has it. A nested flow [F], managed or extended static,
    is entered exactly when the user passes the privilege check of [F] ([F]
    is not privileged, or the user is VIP) and [F] is the flow the user
    already stands in or [F] is among the button names of the menu keyed by
    the top of the stack. In every other case the user object is as it was,
    the stored state is as it was and no call reaches the client. *)
Theorem nested_entry_legality base update msg client user current :
  message update = Some msg →
  BaseHandler.is_nested base = true →
  current_top (state user) = Some current →
  let target := BaseHandler.current_flow base in
  let allowed :=
    privilege_ok base user
    ∧ (current = target
       ∨ target ∈ menu_button_names (BaseResponse.menus (BaseHandler.base base))
                    current) in
  (∀ self, ManagedHandler.base self = base →
     let o := ManagedHandler.__call__ self update client (Some user) in
     let after := apply_operation (OpManaged self) update client user in
     (entered target (state user) after ↔ allowed)
     ∧ (¬ allowed → user_after o = Some user ∧ after = state user ∧ calls o = []))
  ∧ (∀ self, ExtendedStaticHandler.base self = base →
       let o := ExtendedStaticHandler.__call__ self update client (Some user) in
       let after := apply_operation (OpExtendedStatic self) update client user in
       (entered target (state user) after ↔ allowed)
       ∧ (¬ allowed → user_after o = Some user ∧ after = state user ∧ calls o = [])).
Proof.
  intros Hmsg Hnested Htop target allowed.
  pose proof (flow_allowed_spec base current) as Hspec.
  rewrite Hnested in Hspec. fold target in Hspec.
  assert (Hgrow : ∀ st, ¬ entered target st st).
  { unfold entered. intros st Heq. apply (f_equal length) in Heq.
    rewrite length_app in Heq. simpl in Heq. lia. }
  split.
  - intros self <- o after. subst after. rewrite apply_operation_stored. simpl.
    fold o.
    destruct (decide (BaseHandler.privileged (ManagedHandler.base self) = true
                      ∧ is_vip user = false)) as [Hno%not_privilege_ok|Hpriv].
    + destruct (managed_turned_away self update client user Hno)
        as (Huser & Hcalls & Hstate). fold o in Huser, Hcalls, Hstate.
      rewrite Hstate. split; [|done]. split; [|by intros [? _]].
      intros He. by apply Hgrow in He.
    + assert (privilege_ok (ManagedHandler.base self) user) as Hok.
      { unfold privilege_ok. intros Hp. destruct (is_vip user); [done|].
        exfalso. by apply Hpriv. }
      pose proof (managed_run self update msg client user current Hmsg
                    (validate_user_ok _ _ Hok) Htop) as Hrun.
      simpl in Hrun. fold o in Hrun.
      destruct (flow_allowed (ManagedHandler.base self) current).
      * destruct Hrun as [Hstate _].
        assert (allowed) by (split; [done|by apply Hspec]).
        split; [|done]. split; [done|]. intros _. rewrite Hstate. done.
      * destruct Hrun as [Hafter Hcalls].
        assert (¬ allowed) as Hnot.
        { intros [_ Ha]. apply Hspec in Ha. done. }
        unfold state_after. rewrite Hafter. split; [|done]. split; [|done].
        intros He. by apply Hgrow in He.
  - intros self <- o after. subst after. rewrite apply_operation_stored. simpl.
    fold o.
    destruct (decide (BaseHandler.privileged (ExtendedStaticHandler.base self)
                      = true ∧ is_vip user = false))
      as [Hno%not_privilege_ok|Hpriv].
    + destruct (extended_turned_away self update client user Hno)
        as (Huser & Hcalls & Hstate). fold o in Huser, Hcalls, Hstate.
      rewrite Hstate. split; [|done]. split; [|by intros [? _]].
      intros He. by apply Hgrow in He.
    + assert (privilege_ok (ExtendedStaticHandler.base self) user) as Hok.
      { unfold privilege_ok. intros Hp. destruct (is_vip user); [done|].
        exfalso. by apply Hpriv. }
      pose proof (extended_run self update msg client user Hmsg
                    (validate_user_ok _ _ Hok)) as Hrun.
      simpl in Hrun. fold o in Hrun. rewrite Hnested in Hrun.
      specialize (Hrun current Htop).
      destruct (flow_allowed (ExtendedStaticHandler.base self) current).
      * destruct Hrun as [Hstate _].
        assert (allowed) by (split; [done|by apply Hspec]).
        split; [|done]. split; [done|]. intros _. rewrite Hstate. done.
      * destruct Hrun as [Hafter Hcalls].
        assert (¬ allowed) as Hnot.
        { intros [_ Ha]. apply Hspec in Ha. done. }
        rewrite Hafter. split; [split; [|done]|].
        -- intros He. by apply Hgrow in He.
        -- intros _. split; [|done].
           unfold state_after in Hafter. subst o.
           unfold ExtendedStaticHandler.__call__ in *.
           rewrite Hmsg, (validate_user_ok _ _ Hok) in *.
           rewrite run_user_after in *. simpl in Hafter. rewrite Hafter.
           by rewrite with_state_same.
Qed.

Lemma nested_entry_legality_witness :
  let user := example_user DBUserState.default in
  current_top (state user) = Some "main"
  ∧ "Search" ∈ menu_button_names example_menus "main"
  ∧ entered "Search" (state user)
      (apply_operation (OpManaged example_search) example_update example_client user).
Proof.
  split; [reflexivity|].
  assert (Hin : "Search" ∈ menu_button_names example_menus "main").
  { vm_compute. apply list_elem_of_In. simpl. tauto. }
  split; [exact Hin|].
  pose proof (nested_entry_legality (ManagedHandler.base example_search)
                example_update _ example_client (example_user DBUserState.default)
                "main" eq_refl eq_refl eq_refl)
    as (Hmanaged & _).
  destruct (Hmanaged example_search eq_refl) as [Hiff _].
  apply Hiff. split; [exact (λ H : false = true, H)|]. right. exact Hin.
Defined.

(** C4 as stated fails: the user stands in the nested flow ["Offers"],
    whose name is on no menu keyed by ["Offers"], and presses ["Offers"]
    again; the flow is entered and its message is sent. *)
Lemma nested_entry_outside_menu :
  let before := in_offers in
  let o := ExtendedStaticHandler.__call__ example_offers example_update
             example_client (Some (example_user before)) in
  BaseHandler.is_nested (ExtendedStaticHandler.base example_offers) = true
  ∧ current_top before = Some "Offers"
  ∧ menu_button_names example_menus "Offers" = []
  ∧ DBUserState.flow_stack before = ["main"; "Catalog"; "Offers"]
  ∧ DBUserState.flow_stack (state_after (example_user before) o)
    = ["main"; "Catalog"; "Offers"; "Offers"]
  ∧ calls o
    = [send_message 7 "Добро пожаловать"
         (Some (build_keyboard [Button.mk "Назад" 0] false))].
Proof. vm_compute. repeat split; congruence. Qed.

(** ** C7: deduplication of callback events *)

(** The cache after a keyed event that was not dropped: its own timestamp
    is recorded, and of the rest exactly the entries no more than 10000 ms
    older than the event are kept. *)
Lemma deduplicate_Some cache user_id payload t cache' :
  MaxBot.deduplicate cache user_id payload t = Some cache' →
  cache' !! MaxBot.dedup_key user_id payload = Some t
  ∧ ∀ key ts, cache' !! key = Some ts
      ↔ (<[MaxBot.dedup_key user_id payload := t]> cache) !! key = Some ts
        ∧ t - ts ≤ 10000.
Proof.
  unfold MaxBot.deduplicate. case_match; [done|]. intros [= <-].
  assert (Hlookup : ∀ key ts,
    filter (λ kv : string * Z, ¬ 10000 < t - kv.2)
      (<[MaxBot.dedup_key user_id payload := t]> cache) !! key = Some ts
    ↔ (<[MaxBot.dedup_key user_id payload := t]> cache) !! key = Some ts
      ∧ t - ts ≤ 10000).
  { intros key ts. rewrite map_lookup_filter_Some. simpl. intuition lia. }
  split; [|exact Hlookup].
  apply Hlookup. rewrite lookup_insert_eq. split; [done|lia].
Qed.

Lemma deduplicate_None cache user_id payload t :
  MaxBot.deduplicate cache user_id payload t = None
  ↔ ∃ t0, cache !! MaxBot.dedup_key user_id payload = Some t0 ∧ t - t0 < 2000.
Proof.
  unfold MaxBot.deduplicate, MaxBot._deduplication_window_ms.
  destruct (cache !! MaxBot.dedup_key user_id payload) as [t0|].
  - destruct (Z.ltb_spec (t - t0) 2000).
    + split; [eauto|done].
    + split; [done|]. intros (? & [= <-] & ?). lia.
  - split; [done|]. by intros (? & ? & ?).
Qed.

(** [_process_callback] on an event that carries a user id and a payload. *)
Lemma process_callback_keyed self client cache update user user_id payload :
  cb_user_id update = Some user_id → user_id ≠ 0 →
  cb_payload update = Some payload → payload ≠ "" →
  let t := default 0 (cb_timestamp update) in
  let r := MaxBot._process_callback self client cache update user in
  match MaxBot.deduplicate cache user_id payload t with
  | None =>
      route r = Ok Duplicate ∧ cache_after r = cache
      ∧ calls_made r = [] ∧ db_after r = state user
  | Some cache' => route r ≠ Ok Duplicate ∧ cache_after r = cache'
  end.
Proof.
  intros Huid Hnz Hpayload Hne t r. subst r. unfold MaxBot._process_callback.
  rewrite Huid, Hpayload. simpl.
  assert ((user_id =? 0) = false) as -> by by apply Z.eqb_neq.
  assert ((payload =? "")%string = false) as -> by by apply String.eqb_neq.
  simpl. fold t.
  destruct (MaxBot.deduplicate cache user_id payload t) as [cache'|]; [|done].
  destruct (truthy_int (cb_chat_id update)); simpl; [|done].
  repeat case_match; simpl; done.
Qed.

(** [_process_callback] on an event without a user id or without a payload. *)
Lemma process_callback_unkeyed self client cache update user :
  truthy_int (cb_user_id update) = false ∨ truthy_str (cb_payload update) = false →
  let r := MaxBot._process_callback self client cache update user in
  route r ≠ Ok Duplicate ∧ cache_after r = cache.
Proof.
  intros Hfalsy. simpl. unfold MaxBot._process_callback.
  destruct (cb_payload update) as [payload|]; [|done].
  assert (truthy_int (cb_user_id update) && truthy_str (Some payload) = false)
    as ->.
  { destruct Hfalsy as [->| ->]; [done|by rewrite andb_false_r]. }
  destruct (truthy_str (Some payload)); simpl; [|done].
  destruct (truthy_int (cb_chat_id update)); simpl; [|done].
  repeat case_match; simpl; done.
Qed.

(** Between the two events, events under other keys leave the entry alone
    as long as they are no more than 10000 ms later than it. *)
Lemma entry_survives_other_event self client cache update user key t0 :
  cache !! key = Some t0 →
  (∀ user_id payload, cb_user_id update = Some user_id →
     cb_payload update = Some payload → MaxBot.dedup_key user_id payload ≠ key) →
  default 0 (cb_timestamp update) - t0 ≤ 10000 →
  cache_after (MaxBot._process_callback self client cache update user) !! key
  = Some t0.
Proof.
  intros Hentry Hother Hrecent.
  destruct (truthy_int (cb_user_id update) && truthy_str (cb_payload update))
    eqn:Hkeyed.
  - apply andb_true_iff in Hkeyed as [Huid Hpayload].
    destruct (cb_user_id update) as [user_id|] eqn:Hu; [|done].
    destruct (cb_payload update) as [payload|] eqn:Hp; [|done].
    simpl in Huid, Hpayload.
    apply negb_true_iff, Z.eqb_neq in Huid.
    apply negb_true_iff, String.eqb_neq in Hpayload.
    pose proof (process_callback_keyed self client cache update user user_id
                  payload Hu Huid Hp Hpayload) as Hrun.
    simpl in Hrun.
    destruct (MaxBot.deduplicate _ _ _ _) as [cache'|] eqn:Hd.
    + destruct Hrun as [_ ->]. apply deduplicate_Some in Hd as [_ Hd].
      apply Hd. rewrite lookup_insert_ne by by apply Hother. done.
    + by destruct Hrun as (_ & -> & _).
  - apply andb_false_iff in Hkeyed.
    by destruct (process_callback_unkeyed self client cache update user Hkeyed)
      as [_ ->].
Qed.

(** What decides about a keyed event is the timestamp the cache holds for
    its key. *)
Lemma process_callback_dropped self client cache update user user_id payload t :
  user_id ≠ 0 → payload ≠ "" →
  cb_user_id update = Some user_id → cb_payload update = Some payload →
  cb_timestamp update = Some t →
  let r := MaxBot._process_callback self client cache update user in
  (route r = Ok Duplicate
   ↔ ∃ t_last, cache !! MaxBot.dedup_key user_id payload = Some t_last
               ∧ t - t_last < 2000)
  ∧ (route r = Ok Duplicate →
       cache_after r = cache ∧ calls_made r = [] ∧ db_after r = state user)
  ∧ (route r ≠ Ok Duplicate →
       cache_after r !! MaxBot.dedup_key user_id payload = Some t).
Proof.
  intros Hnz Hne Hu Hp Ht r.
  pose proof (process_callback_keyed self client cache update user user_id
                payload Hu Hnz Hp Hne) as Hrun.
  simpl in Hrun. fold r in Hrun. rewrite Ht in Hrun. simpl in Hrun.
  pose proof (deduplicate_None cache user_id payload t) as Hnone.
  destruct (MaxBot.deduplicate cache user_id payload t) as [cache'|] eqn:Hd.
  - destruct Hrun as [Hroute Hcache]. split_and!.
    + split; [done|]. intros Hlast. apply Hnone in Hlast. done.
    + done.
    + intros _. rewrite Hcache. by apply deduplicate_Some in Hd as [? _].
  - destruct Hrun as (Hroute & Hcache & Hcalls & Hdb). split_and!.
    + split; [|done]. intros _. by apply Hnone.
    + done.
    + done.
Qed.

(** C7, as the code has it. The cache holds, for a user id and a payload,
    the timestamp of the last event under that key that was processed, not
    dropped. An event with timestamp [t] is dropped iff the cache holds a
    timestamp [t_last] for its key with [t - t_last < 2000]; a dropped event
    reaches no handler and changes neither the stored state nor the cache,
    so it opens no window of its own. Hence of two events with the same key
    and timestamps [t0] and [t1], the first of which was processed and the
    second of which meets the cache the first one left, the second is
    dropped iff [t1 - t0 < 2000]; and when it is dropped, a third event
    with timestamp [t2] is dropped iff [t2 - t0 < 2000], whatever [t2 - t1]
    is. A processed event records its own timestamp under its key, and
    after the insertion exactly the entries more than 10000 ms older than
    the event's timestamp are gone; an event under another key leaves an
    entry alone that is no more than 10000 ms older than it. An event
    without a user id or without a payload is never dropped as a duplicate
    and leaves the cache as it is. *)
Theorem callback_deduplication self client0 client1 cache e0 e1 user0 user1
    user_id payload t0 t1 :
  user_id ≠ 0 → payload ≠ "" →
  cb_user_id e0 = Some user_id → cb_payload e0 = Some payload →
  cb_timestamp e0 = Some t0 →
  cb_user_id e1 = Some user_id → cb_payload e1 = Some payload →
  cb_timestamp e1 = Some t1 →
  let key := MaxBot.dedup_key user_id payload in
  let r0 := MaxBot._process_callback self client0 cache e0 user0 in
  route r0 ≠ Ok Duplicate →
  let r1 := MaxBot._process_callback self client1 (cache_after r0) e1 user1 in
  (route r1 = Ok Duplicate ↔ t1 - t0 < 2000)
  ∧ (route r1 = Ok Duplicate →
       cache_after r1 = cache_after r0 ∧ calls_made r1 = []
       ∧ db_after r1 = state user1)
  ∧ cache_after r0 !! key = Some t0
  ∧ (route r1 ≠ Ok Duplicate →
       cache_after r1 !! key = Some t1
       ∧ ∀ k ts, cache_after r1 !! k = Some ts
           ↔ (<[key := t1]> (cache_after r0)) !! k = Some ts ∧ t1 - ts ≤ 10000)
  ∧ (∀ e user c client,
       truthy_int (cb_user_id e) = false ∨ truthy_str (cb_payload e) = false →
       let r := MaxBot._process_callback self client c e user in
       route r ≠ Ok Duplicate ∧ cache_after r = c)
  ∧ (∀ e user c client t,
       cb_user_id e = Some user_id → cb_payload e = Some payload →
       cb_timestamp e = Some t →
       let r := MaxBot._process_callback self client c e user in
       (route r = Ok Duplicate ↔ ∃ t_last, c !! key = Some t_last ∧ t - t_last < 2000)
       ∧ (route r = Ok Duplicate →
            cache_after r = c ∧ calls_made r = [] ∧ db_after r = state user)
       ∧ (route r ≠ Ok Duplicate → cache_after r !! key = Some t))
  ∧ (route r1 = Ok Duplicate →
     ∀ e2 user2 client2 t2,
       cb_user_id e2 = Some user_id → cb_payload e2 = Some payload →
       cb_timestamp e2 = Some t2 →
       route (MaxBot._process_callback self client2 (cache_after r1) e2 user2)
       = Ok Duplicate
       ↔ t2 - t0 < 2000)
  ∧ (∀ e user c client k ts,
       c !! k = Some ts →
       (∀ u p, cb_user_id e = Some u → cb_payload e = Some p →
          MaxBot.dedup_key u p ≠ k) →
       default 0 (cb_timestamp e) - ts ≤ 10000 →
       cache_after (MaxBot._process_callback self client c e user) !! k = Some ts).
Proof.
  intros Hnz Hne Hu0 Hp0 Ht0 Hu1 Hp1 Ht1 key r0 Hr0 r1.
  pose proof (process_callback_dropped self client0 cache e0 user0 user_id
                payload t0 Hnz Hne Hu0 Hp0 Ht0) as (_ & _ & Hown0).
  fold r0 key in Hown0. specialize (Hown0 Hr0).
  pose proof (process_callback_dropped self client1 (cache_after r0) e1 user1
                user_id payload t1 Hnz Hne Hu1 Hp1 Ht1) as (Hiff1 & Hdrop1 & Hown1).
  fold r1 key in Hiff1, Hdrop1, Hown1.
  assert (route r1 = Ok Duplicate ↔ t1 - t0 < 2000) as Hwindow.
  { rewrite Hiff1, Hown0. split; [by intros (? & [= <-] & ?)|eauto]. }
  split_and!.
  - exact Hwindow.
  - exact Hdrop1.
  - exact Hown0.
  - intros Hnot. split; [by apply Hown1|].
    pose proof (process_callback_keyed self client1 (cache_after r0) e1 user1
                  user_id payload Hu1 Hnz Hp1 Hne) as Hrun.
    simpl in Hrun. fold r1 in Hrun. rewrite Ht1 in Hrun. simpl in Hrun.
    destruct (MaxBot.deduplicate (cache_after r0) user_id payload t1)
      as [cache1|] eqn:Hd1; [|by destruct Hrun].
    destruct Hrun as [_ ->]. by apply deduplicate_Some in Hd1 as [_ ?].
  - intros e user c client Hf. by apply process_callback_unkeyed.
  - intros e user c client t Hu Hp Ht.
    by apply process_callback_dropped.
  - intros Hdup e2 user2 client2 t2 Hu2 Hp2 Ht2.
    pose proof (process_callback_dropped self client2 (cache_after r1) e2 user2
                  user_id payload t2 Hnz Hne Hu2 Hp2 Ht2) as (Hiff2 & _).
    fold key in Hiff2. rewrite Hiff2.
    destruct (Hdrop1 Hdup) as (-> & _). rewrite Hown0.
    split; [by intros (? & [= <-] & ?)|eauto].
  - intros e user c client k ts. apply entry_survives_other_event.
Qed.

Lemma callback_deduplication_witness :
  let r0 := MaxBot._process_callback example_bot example_client ∅
              (example_press 5000) (example_user in_search) in
  let r1 := MaxBot._process_callback example_bot example_client (cache_after r0)
              (example_press 6500) (example_user in_search) in
  route r0 ≠ Ok Duplicate
  ∧ (route r1 = Ok Duplicate ↔ 6500 - 5000 < 2000)
  ∧ cache_after r0 !! "1001:exit_callback" = Some 5000.
Proof.
  intros r0 r1.
  assert (Hfirst : route r0 ≠ Ok Duplicate) by (vm_compute; congruence).
  pose proof (callback_deduplication example_bot example_client example_client ∅
                (example_press 5000) (example_press 6500)
                (example_user in_search) (example_user in_search)
                1001 "exit_callback" 5000 6500
                ltac:(lia) ltac:(discriminate) eq_refl eq_refl eq_refl
                eq_refl eq_refl eq_refl Hfirst) as (Hiff & _ & Hown & _).
  split; [exact Hfirst|]. split; [exact Hiff|exact Hown].
Defined.

(** C7 as stated fails: three presses of the same button by the same user
    at 10000, 11500 and 13000 ms. The second is dropped and records nothing,
    so the third is compared with the first and processed, although it comes
    less than 2000 ms after the second. *)
Lemma dropped_event_opens_no_window :
  let user := example_user in_search in
  let r0 := MaxBot._process_callback example_bot example_client ∅
              (example_press 10000) user in
  let r1 := MaxBot._process_callback example_bot example_client (cache_after r0)
              (example_press 11500) user in
  let r2 := MaxBot._process_callback example_bot example_client (cache_after r1)
              (example_press 13000) user in
  cb_user_id (example_press 11500) = cb_user_id (example_press 13000)
  ∧ cb_payload (example_press 11500) = cb_payload (example_press 13000)
  ∧ route r0 ≠ Ok Duplicate
  ∧ route r1 = Ok Duplicate
  ∧ 13000 - 11500 < 2000
  ∧ route r2 ≠ Ok Duplicate.
Proof. vm_compute. repeat split; congruence. Qed.

(** ** C8: reference resolution *)

Lemma split_dot_free s : dot_free s = true → Py.split "."%char s = [s].
Proof.
  induction s as [|c s IH]; [done|]. simpl.
  intros [Hc Hs]%andb_true_iff. apply negb_true_iff in Hc. rewrite Hc.
  by rewrite IH.
Qed.

Lemma split_segment s rest :
  dot_free s = true →
  Py.split "."%char (s +:+ "." +:+ rest) = s :: Py.split "."%char rest.
Proof.
  induction s as [|c s IH]; [done|]. simpl.
  intros [Hc Hs]%andb_true_iff. apply negb_true_iff in Hc. rewrite Hc.
  by rewrite IH.
Qed.

Lemma split_join key subkeys :
  dot_free key = true → Forall (λ s, dot_free s = true) subkeys →
  Py.split "."%char (Py.join "." (key :: subkeys)) = key :: subkeys.
Proof.
  intros Hkey Hsub. revert key Hkey.
  induction Hsub as [|s subkeys Hs Hsub IH]; intros key Hkey.
  - by apply split_dot_free.
  - change (Py.join "." (key :: s :: subkeys))
      with (key +:+ "." +:+ Py.join "." (s :: subkeys)).
    rewrite split_segment by done. by rewrite IH.
Qed.

Lemma follow_subkeys_walk v subkeys :
  follow_subkeys v subkeys
  = match walk v subkeys with Some x => Ok x | None => Raise ValueError end.
Proof.
  revert v. induction subkeys as [|k rest IH]; intros v; [done|].
  simpl. destruct v; try done. destruct (dict_get k members); [apply IH|done].
Qed.

(** A reference is looked up in the [buttons] section, segment by segment. *)
Lemma resolve_reference_walk context buttons key subkeys :
  dict_get "buttons" context = Some (JDict buttons) →
  dot_free key = true → Forall (λ s, dot_free s = true) subkeys →
  resolve_references (JStr ("@" +:+ Py.join "." (key :: subkeys))) (JDict context)
  = match walk (JDict buttons) (key :: subkeys) with
    | Some v => Ok v
    | None => Raise ValueError
    end.
Proof.
  intros Hbuttons Hkey Hsub.
  change ("@" +:+ Py.join "." (key :: subkeys))
    with (String "@" (Py.join "." (key :: subkeys))).
  cbn [resolve_references]. unfold startswith. cbn [String.prefix].
  destruct (Ascii.ascii_dec "@" "@") as [_|]; [|done].
  replace (String.prefix "" (Py.join "." (key :: subkeys))) with true
    by by destruct (Py.join "." (key :: subkeys)).
  unfold resolve_reference.
  rewrite split_join by done. cbn [hd tl].
  unfold lookup_base. cbn [subscript_str]. rewrite Hbuttons. cbn [subscript_str walk].
  destruct (dict_get key buttons); [apply follow_subkeys_walk|done].
Qed.

(** An unresolvable reference anywhere in a document makes the resolver
    raise. *)
Lemma resolve_references_raises v doc context e :
  inside v doc → resolve_references v context = Raise e →
  ∃ e', resolve_references doc context = Raise e'.
Proof.
  intros Hin Hv. induction Hin as [|items x Hx Hin IH|members key x Hx Hin IH].
  - eauto.
  - destruct IH as [e' IH]. simpl.
    match goal with
    | |- context [?go items] =>
        assert (∃ e'', go items = Raise e'') as [e'' ->]; [|eauto]
    end.
    induction items as [|y items IHitems]; [by apply elem_of_nil in Hx|].
    apply elem_of_cons in Hx as [<-|Hx].
    + rewrite IH. eauto.
    + destruct (resolve_references y context); [|eauto].
      destruct (IHitems Hx) as [e'' ->]. eauto.
  - destruct IH as [e' IH]. simpl.
    match goal with
    | |- context [?go members] =>
        assert (∃ e'', go members = Raise e'') as [e'' ->]; [|eauto]
    end.
    induction members as [|[k y] members IHmembers]; [by apply elem_of_nil in Hx|].
    apply elem_of_cons in Hx as [[= <- <-]|Hx].
    + rewrite IH. eauto.
    + destruct (resolve_references y context); [|eauto].
      destruct (IHmembers Hx) as [e'' ->]. eauto.
Qed.

(** C8, as the code has it. A reference names an entry of the [buttons]
    section directly: ["@exit.content"] resolves to the [content] field of
    the [exit] entry under [buttons]; in general ["@key.sub1.sub2"] indexes
    [buttons] by [key] and then one level deeper for each further segment.
    A reference whose key or a dotted subkey is absent raises [ValueError],
    and a raise anywhere in the document makes the load raise. *)
Theorem reference_resolution context buttons :
  dict_get "buttons" context = Some (JDict buttons) →
  (∀ entry value,
     dict_get "exit" buttons = Some (JDict entry) →
     dict_get "content" entry = Some value →
     resolve_references (JStr "@exit.content") (JDict context) = Ok value)
  ∧ (∀ key subkeys,
       dot_free key = true → Forall (λ s, dot_free s = true) subkeys →
       resolve_references (JStr ("@" +:+ Py.join "." (key :: subkeys)))
         (JDict context)
       = match walk (JDict buttons) (key :: subkeys) with
         | Some value => Ok value
         | None => Raise ValueError
         end)
  ∧ (∀ reference e,
       inside (JStr reference) (JDict context) →
       resolve_references (JStr reference) (JDict context) = Raise e →
       ∃ e', load_json_with_references (JDict context) = Raise e').
Proof.
  intros Hbuttons. split; [|split].
  - intros entry value Hexit Hcontent.
    pose proof (resolve_reference_walk context buttons "exit" ["content"] Hbuttons
                  eq_refl ltac:(by repeat constructor)) as Hwalk.
    simpl in Hwalk. rewrite Hexit, Hcontent in Hwalk. exact Hwalk.
  - intros key subkeys. by apply resolve_reference_walk.
  - intros reference e Hin Hraise. unfold load_json_with_references.
    by eapply resolve_references_raises.
Qed.

Lemma reference_resolution_witness :
  resolve_references (JStr "@exit.content") example_config
  = Ok (JStr "Вы вернулись назад")
  ∧ load_json_with_references example_config
    = Ok (JDict
            [("buttons",
              JDict [("exit", JDict [("name", JStr "Назад");
                                     ("pattern", JStr "exit_callback");
                                     ("content", JStr "Вы вернулись назад")])]);
             ("callbacks",
              JDict [("exit", JDict [("content", JStr "Вы вернулись назад")])])]).
Proof.
  split; [|reflexivity].
  pose proof (reference_resolution
                [("buttons",
                  JDict [("exit", JDict [("name", JStr "Назад");
                                         ("pattern", JStr "exit_callback");
                                         ("content", JStr "Вы вернулись назад")])]);
                 ("callbacks",
                  JDict [("exit", JDict [("content", JStr "@exit.content")])])]
                _ eq_refl) as (Hexit & _).
  exact (Hexit _ _ eq_refl eq_refl).
Defined.

(** C8 as stated fails: the [buttons] section has an [exit] entry with a
    [content] field, and ["@buttons.exit.content"] does not resolve; the
    resolver looks for an entry named ["buttons"] inside the section. *)
Lemma section_prefixed_reference_fails :
  walk example_config ["buttons"; "exit"; "content"]
  = Some (JStr "Вы вернулись назад")
  ∧ resolve_references (JStr "@buttons.exit.content") example_config
    = Raise ValueError.
Proof. split; reflexivity. Qed.

(** ** C9: the first page of a paginated answer *)

Lemma string_app_assoc (s1 s2 s3 : string) :
  (s1 +:+ s2) +:+ s3 = s1 +:+ (s2 +:+ s3).
Proof.
  induction s1 as [|c s1 IH]; [done|].
  change (String c ((s1 +:+ s2) +:+ s3) = String c (s1 +:+ s2 +:+ s3)).
  by rewrite IH.
Qed.

Lemma join_first sep x rest : ∃ tail, Py.join sep (x :: rest) = x +:+ tail.
Proof.
  destruct rest as [|y rest].
  - exists "". simpl. induction x as [|c x IH]; [done|].
    change (String c x = String c (x +:+ "")). by rewrite <- IH.
  - by exists (sep +:+ Py.join sep (y :: rest)).
Qed.

(** The text of the first of three cards starts with its position. *)
Lemma card_header_first_of_three (card : Card) :
  occurs_in "Результат 1 из 3" (card_from_json card 0 2).
Proof.
  unfold card_from_json, occurs_in.
  match goal with
  | |- context [Py.join LF ([?header] ++ ?rest)] =>
      destruct (join_first LF header rest) as [tail Htail];
      change ([header] ++ rest) with (header :: rest);
      rewrite Htail
  end.
  exists "📄 ", (LF +:+ tail).
  change (Py.str_int (0 + 1)) with "1". change (Py.str_int (2 + 1)) with "3".
  change ("📄 Результат " +:+ "1" +:+ " из " +:+ "3" +:+ LF)
    with (("📄 " +:+ "Результат 1 из 3") +:+ LF).
  by rewrite !string_app_assoc.
Qed.

(** [_remove_callback_buttons] never raises and touches only
    [callback_message_id]. *)
Lemma remove_callback_buttons_run client cid h :
  ∃ extra,
    BaseResponse._remove_callback_buttons client cid h
    = (Ok tt,
       {| h_state :=
            if bool_decide (DBUserState.callback_message_id (h_state h)
                            = Some Sentinels.EMPTY_STR)
            then h_state h
            else DBUserState.set_callback_message_id None (h_state h);
          h_calls := h_calls h ++ extra |}).
Proof.
  unfold BaseResponse._remove_callback_buttons. exec.
  case_bool_decide.
  - exists []. rewrite app_nil_r. by destruct h.
  - rewrite bind_unfold. unfold try_except.
    destruct (DBUserState.callback_message_need_to_delete (h_state h));
      rewrite bind_unfold; unfold call;
      (destruct (client _); simpl; eexists [_]; reflexivity).
Qed.

Lemma bind_assoc_run {A B C} (m : M A) (f : A → M B) (g : B → M C) h :
  ((m ≫= f) ≫= g) h = (m ≫= λ x, f x ≫= g) h.
Proof. rewrite !bind_unfold. by destruct (m h) as [[?|?] ?]. Qed.

Lemma bind_raise {A B} e (k : A → M B) h : (raise e ≫= k) h = (Raise e, h).
Proof. done. Qed.

Ltac exec_in H :=
  repeat first
    [ rewrite bind_assoc_run in H
    | rewrite bind_get in H
    | rewrite bind_modify in H
    | rewrite bind_ret in H
    | rewrite bind_lift_ok in H
    | rewrite bind_lift_raise in H
    | rewrite bind_raise in H ];
  cbn [h_state h_calls] in H.

(** C9. A user inside a managed flow, with [use_pagination] set, sends
    free text and the AI service answers with three records under
    [product_cards] and no [cards]: the handler stores the three cards with
    [cards_total_length = 3] and [cards_current_page = 0], leaves the flow
    stack as it is, and the text rendered for the first card carries the
    header "Результат 1 из 3". That text is what goes to the chat, unless it
    contains the placeholder link, which the handler replaces. *)
Theorem chat_pagination_init self ai update msg client user top response c1 c2 c3 :
  message update = Some msg →
  current_top (state user) = Some top →
  top ∈ ChatHandler.managed_flows self →
  DBUserState.use_pagination (state user) = true →
  (∀ payload, ai payload = Some response) →
  field_get (cards response) = None →
  product_cards response = Present [c1; c2; c3] →
  let o := ChatHandler.__call__ self ai update client (Some user) in
  let st' := apply_operation (OpChat self ai) update client user in
  let rendered := card_from_json c1 0 2 in
  DBUserState.cards_total_length st' = 3
  ∧ DBUserState.cards_current_page st' = 0
  ∧ DBUserState.cards_json st' = Some [c1; c2; c3]
  ∧ DBUserState.flow_stack st' = DBUserState.flow_stack (state user)
  ∧ occurs_in "Результат 1 из 3" rendered
  ∧ (∀ cid, chat_id msg = Some cid → cid ≠ 0 →
       ∃ before,
         calls o
         = before ++
           [send_message cid
              (format_message_for_max
                 (if Py.contains "https://ya.ru" rendered
                  then "У меня нет информации по этому вопросу"
                  else rendered))
              (Some (ChatHandler.inline_markup_with_pagination self))]).
Proof.
  intros Hmsg Htop Hmanaged Hpag Hai Hcards Hproduct o st' rendered.
  subst st' o. rewrite apply_operation_stored. simpl.
  unfold ChatHandler.__call__, ChatHandler.validate_user,
    BaseCallback.validate_user, state_after.
  rewrite Hmsg. unfold run.
  match goal with
  | |- context [?body {| h_state := state user; h_calls := [] |}] =>
      destruct (body {| h_state := state user; h_calls := [] |})
        as [r h'] eqn:Hbody
  end.
  exec_in Hbody. unfold current_top in Htop. unfold last_item in Hbody.
  rewrite Htop in Hbody. exec_in Hbody.
  rewrite (bool_decide_eq_true_2 _ Hmanaged) in Hbody. simpl in Hbody.
  exec_in Hbody.
  match type of Hbody with
  | context [let '(a, b) := ?x in _] => destruct x as [search_type database_name]
  end.
  unfold post_request in Hbody. rewrite Hai in Hbody. exec_in Hbody.
  unfold ChatHandler.response_content in Hbody.
  rewrite Hcards, Hproduct in Hbody. simpl in Hbody.
  rewrite orb_true_r in Hbody. exec_in Hbody. rewrite Hpag in Hbody.
  exec_in Hbody. simpl in Hbody. fold rendered in Hbody.
  rewrite Hpag in Hbody. simpl in Hbody. cbn [user_after calls state].
  pose proof (card_header_first_of_three c1) as Hheader. fold rendered in Hheader.
  destruct (chat_id msg) as [cid|] eqn:Hchat.
  - exec_in Hbody.
    rewrite bind_unfold in Hbody.
    match type of Hbody with
    | context [BaseResponse._remove_callback_buttons ?c ?i ?h] =>
        destruct (remove_callback_buttons_run c i h) as [extra Hremove];
        rewrite Hremove in Hbody
    end.
    rewrite bind_unfold, send_message_run in Hbody.
    unfold BaseResponse.update_chat_id in Hbody. rewrite Hmsg, Hchat in Hbody.
    cbn [h_state h_calls] in Hbody.
    destruct (cid =? 0) eqn:Hcid.
    + simpl in Hbody. unfold ret in Hbody. injection Hbody as <- <-. simpl.
      split_and!; try done; try (destruct (bool_decide _); done).
      intros cid0 Heq Hnz. injection Heq as <-. apply Z.eqb_eq in Hcid. done.
    + cbv zeta in Hbody.
      assert (Hfinal :
        DBUserState.cards_total_length (h_state h') = 3
        ∧ DBUserState.cards_current_page (h_state h') = 0
        ∧ DBUserState.cards_json (h_state h') = Some [c1; c2; c3]
        ∧ DBUserState.flow_stack (h_state h')
          = DBUserState.flow_stack (state user)
        ∧ h_calls h'
          = extra ++
            [message_call cid
               (if contains "https://ya.ru" rendered
                then "У меня нет информации по этому вопросу" else rendered)
               None None (Some (ChatHandler.inline_markup_with_pagination self))]).
      { destruct (client _) as [[|message_id]|]; simpl in Hbody;
          exec_in Hbody; unfold ret, modify_state in Hbody;
          injection Hbody as <- <-; simpl;
          split_and!; try done; try (destruct (bool_decide _); done). }
      destruct Hfinal as (? & ? & ? & ? & Hcalls).
      split_and!; try done.
      intros cid0 Heq _. injection Heq as <-. exists extra. by rewrite Hcalls.
  - exec_in Hbody. injection Hbody as <- <-. simpl. split_and!; done.
Qed.

Lemma chat_pagination_init_witness :
  let user := example_user in_search in
  let st' := apply_operation (OpChat example_chat example_ai)
               (example_text "laptop") example_client user in
  current_top (state user) = Some "Search"
  ∧ DBUserState.use_pagination (state user) = true
  ∧ DBUserState.cards_total_length st' = 3
  ∧ DBUserState.cards_current_page st' = 0
  ∧ occurs_in "Результат 1 из 3" (card_from_json {[ "name" := "Ноутбук A" ]} 0 2).
Proof.
  assert (Hmanaged : "Search" ∈ ChatHandler.managed_flows example_chat).
  { simpl. set_solver. }
  pose proof (chat_pagination_init example_chat example_ai (example_text "laptop")
                _ example_client (example_user in_search) "Search"
                example_response _ _ _ eq_refl eq_refl Hmanaged eq_refl
                (λ _, eq_refl) eq_refl eq_refl)
    as (Htotal & Hpage & _ & _ & Hheader & _).
  split; [reflexivity|]. split; [reflexivity|].
  split; [exact Htotal|]. split; [exact Hpage|exact Hheader].
Defined.

(** What the user of the example sees. *)
Example chat_first_page_text :
  calls (ChatHandler.__call__ example_chat example_ai (example_text "laptop")
           example_client (Some (example_user in_search)))
  = [ edit_message_reply_markup 7 None None;
      send_message 7
        ("📄 Результат 1 из 3" +:+ LF +:+ LF +:+ "*Ноутбук A*" +:+ LF)
        (Some []) ].
Proof. vm_compute. reflexivity. Qed.

(** * Further properties of the code *)

(** ** [core/keyboard.py] *)

Lemma build_keyboard_filter buttons vip_status :
  build_keyboard buttons vip_status
  = map (λ button,
           [ {| btn_text := Button.name button; btn_type := Some "callback";
                btn_payload := Some (special_payload (Button.name button));
                btn_url := None |} ])
      (filter (λ button, shown_to vip_status button = true) buttons).
Proof.
  induction buttons as [|button rest IH]; [done|]. simpl.
  destruct (shown_to vip_status button) eqn:Hshown.
  - rewrite filter_cons_True by done. simpl. rewrite <- IH.
    unfold shown_to in Hshown.
    by destruct (Button.is_privileged button), vip_status.
  - rewrite filter_cons_False by (by rewrite Hshown). rewrite <- IH.
    unfold shown_to in Hshown.
    by destruct (Button.is_privileged button), vip_status.
Qed.

Lemma keyboard_texts (buttons : list Button.t) :
  map btn_text
    (concat
       (map (λ button,
               [ {| btn_text := Button.name button; btn_type := Some "callback";
                    btn_payload := Some (special_payload (Button.name button));
                    btn_url := None |} ]) buttons))
  = map Button.name buttons.
Proof. induction buttons as [|b l IH]; [done|]. simpl. by rewrite IH. Qed.

(** X1. The menu keyboard shows one callback button per row, in the order
    of the menu: every button to a VIP user, and to the others exactly the
    buttons whose [privileged] is 0; a button's payload is its name, except
    that the back button (["Назад"]) carries ["exit_callback"]; and the
    plain keyboard is the VIP keyboard with rows left out. *)
Theorem build_keyboard_rows buttons :
  map btn_text (concat (build_keyboard buttons true)) = map Button.name buttons
  ∧ map btn_text (concat (build_keyboard buttons false))
    = map Button.name (filter (λ button, Button.privileged button = 0) buttons)
  ∧ (∀ vip_status,
       Forall (λ row, ∃ button,
                 row = [button] ∧ btn_type button = Some "callback"
                 ∧ btn_payload button
                   = Some (if String.eqb (btn_text button) "Назад"
                           then "exit_callback" else btn_text button))
         (build_keyboard buttons vip_status))
  ∧ sublist (build_keyboard buttons false) (build_keyboard buttons true).
Proof.
  split_and!.
  - rewrite build_keyboard_filter, keyboard_texts. f_equal.
    induction buttons as [|b l IH]; [done|].
    rewrite filter_cons_True by done. by rewrite IH.
  - rewrite build_keyboard_filter, keyboard_texts. f_equal.
    apply list_filter_iff. intros b.
    unfold shown_to, Button.is_privileged. simpl.
    rewrite negb_involutive. apply Z.eqb_eq.
  - intros vip_status. rewrite build_keyboard_filter.
    apply Forall_map, Forall_forall. intros b _. by eexists.
  - induction buttons as [|b l IH]; [done|]. simpl.
    destruct (Button.is_privileged b); simpl.
    + by apply sublist_cons.
    + by apply sublist_skip.
Qed.

(** X2. An inline keyboard has no empty row and loses no button: read row
    by row, its buttons are those of the input in order; a button with a
    url is a link (whatever its pattern), one with only a pattern is a
    callback carrying that pattern, and one with neither has no type. *)
Theorem build_inline_keyboard_rows rows :
  Forall (λ row, row ≠ []) (build_inline_keyboard rows)
  ∧ concat (build_inline_keyboard rows) = map inline_btn_dict (concat rows)
  ∧ (∀ button,
       let d := inline_btn_dict button in
       btn_text d = InlineButton.name button
       ∧ (truthy_str (InlineButton.url button) = true →
            btn_type d = Some "link" ∧ btn_url d = InlineButton.url button
            ∧ btn_payload d = None)
       ∧ (truthy_str (InlineButton.url button) = false →
          truthy_str (InlineButton.pattern button) = true →
            btn_type d = Some "callback"
            ∧ btn_payload d = InlineButton.pattern button ∧ btn_url d = None)
       ∧ (truthy_str (InlineButton.url button) = false →
          truthy_str (InlineButton.pattern button) = false →
            btn_type d = None ∧ btn_payload d = None ∧ btn_url d = None)).
Proof.
  split_and!.
  - unfold build_inline_keyboard. apply Forall_forall.
    intros row Hrow. by apply list_elem_of_filter in Hrow as [? _].
  - unfold build_inline_keyboard.
    induction rows as [|row rows IH]; [done|]. simpl.
    rewrite map_app, <- IH. destruct row as [|b row].
    + by rewrite filter_cons_False by (intros ?; done).
    + by rewrite filter_cons_True by done.
  - intros button. unfold inline_btn_dict. simpl.
    destruct (truthy_str (InlineButton.url button));
      destruct (truthy_str (InlineButton.pattern button)); simpl;
      split_and!; done.
Qed.

(** ** [core/response_builder.py] *)

Lemma opt_line_insert_ne (card : Card) key other v fmt :
  other ≠ key → opt_line (<[other := v]> card) key fmt = opt_line card key fmt.
Proof. intros Hne. unfold opt_line. by rewrite lookup_insert_ne. Qed.

(** X3. The text of a card starts with the header built from the page
    numbers plus one; a card with none of the eight known fields is the
    header alone; a field under any other key changes nothing; and when the
    card has a [name], its [title] is not printed. *)
Theorem card_from_json_fields (card : Card) current_page total_pages :
  (∃ tail, card_from_json card current_page total_pages
           = card_header current_page total_pages +:+ tail)
  ∧ ((∀ key, key ∈ card_fields → card !! key = None) →
       card_from_json card current_page total_pages
       = card_header current_page total_pages)
  ∧ (∀ key v, key ∉ card_fields →
       card_from_json (<[key := v]> card) current_page total_pages
       = card_from_json card current_page total_pages)
  ∧ (∀ v, is_Some (card !! "name") →
       card_from_json (<["title" := v]> card) current_page total_pages
       = card_from_json card current_page total_pages).
Proof.
  split_and!.
  - unfold card_from_json. fold (card_header current_page total_pages).
    match goal with
    | |- context [Py.join LF ([?header] ++ ?rest)] =>
        destruct (join_first LF header rest) as [tail Htail];
        change ([header] ++ rest) with (header :: rest);
        rewrite Htail
    end.
    by exists tail.
  - intros Hnone. unfold card_from_json, opt_line.
    fold (card_header current_page total_pages).
    rewrite !Hnone by (unfold card_fields; set_solver). done.
  - intros key v Hkey. unfold card_from_json.
    assert (∀ k, k ∈ card_fields → key ≠ k) as Hne by (intros k Hk ->; done).
    rewrite !opt_line_insert_ne by (apply Hne; unfold card_fields; set_solver).
    rewrite lookup_insert_ne by (apply Hne; unfold card_fields; set_solver).
    done.
  - intros v [n Hname]. unfold card_from_json.
    rewrite lookup_insert_ne by done. rewrite Hname.
    by rewrite !opt_line_insert_ne by done.
Qed.

(** ** [core/commands.py] *)

(** X4. [/start] and [/reset] put the user back at the main menu: the stack
    is [["main"]], pagination and search type are cleared and the cards
    dropped; [/reset] also forgets the tracked callback message, [/start]
    keeps it. Both show the main menu (the VIP one to a VIP user) with the
    command's text. Without a user they return [None] and touch nothing. *)
Theorem commands_reset_navigation self update client user :
  let shown cid :=
    message_call cid (BaseResponse.content (BaseCommand.base self)) None None
      (Some (main_menu_for self user)) in
  apply_operation (OpStart self) update client user = reset_navigation (state user)
  ∧ apply_operation (OpReset self) update client user
    = DBUserState.set_callback_message_id None (reset_navigation (state user))
  ∧ sent_to_chat update shown
      (calls (StartCommand.__call__ self update client (Some user)))
  ∧ sent_to_chat update shown
      (calls (ResetCommand.__call__ self update client (Some user)))
  ∧ StartCommand.__call__ self update client None = return_none None
  ∧ ResetCommand.__call__ self update client None = return_none None.
Proof.
  simpl. rewrite !apply_operation_stored. simpl.
  unfold StartCommand.__call__, ResetCommand.__call__, state_after,
    reset_navigation, main_menu_for, sent_to_chat.
  rewrite !run_user_after, !run_calls. simpl.
  exec. rewrite !bind_unfold, !send_message_run.
  destruct (BaseResponse.update_chat_id update) as [cid|];
    [destruct (cid =? 0)|]; simpl; split_and!; done.
Qed.

(** ** The gate in front of the flow handlers *)

Lemma validate_user_refused self user :
  BaseHandler.privileged self = true → is_vip user = false →
  BaseHandler.validate_user self (Some user) = Ok None
  ∨ BaseHandler.validate_user self (Some user) = Raise KeyError.
Proof.
  intros Hpriv Hvip. unfold BaseHandler.validate_user, errors_get.
  rewrite Hpriv, Hvip. simpl.
  destruct (BaseResponse.errors (BaseHandler.base self) !! "user_not_allowed");
    [by left|by right].
Qed.

(** X5. A privileged flow turns away a user who is not VIP: whichever of
    the three flow handlers serves it, the user object and the stored state
    are as they were and no call reaches the client (for a root
    extended-static flow too: the stack is not reset). *)
Theorem privileged_flow_refuses base update client user :
  BaseHandler.privileged base = true →
  is_vip user = false →
  (∀ self, StaticHandler.base self = base →
     let o := StaticHandler.__call__ self update client (Some user) in
     user_after o = Some user ∧ calls o = []
     ∧ apply_operation (OpStatic self) update client user = state user)
  ∧ (∀ self, ExtendedStaticHandler.base self = base →
       let o := ExtendedStaticHandler.__call__ self update client (Some user) in
       user_after o = Some user ∧ calls o = []
       ∧ apply_operation (OpExtendedStatic self) update client user = state user)
  ∧ (∀ self, ManagedHandler.base self = base →
       let o := ManagedHandler.__call__ self update client (Some user) in
       user_after o = Some user ∧ calls o = []
       ∧ apply_operation (OpManaged self) update client user = state user).
Proof.
  intros Hpriv Hvip.
  pose proof (validate_user_refused base user Hpriv Hvip) as Hrefused.
  split_and!; intros self <-; simpl; rewrite apply_operation_stored; simpl;
    unfold StaticHandler.__call__, ExtendedStaticHandler.__call__,
      ManagedHandler.__call__, state_after;
    (destruct (message update); [|done]);
    destruct Hrefused as [Hr|Hr]; rewrite Hr; done.
Qed.

Lemma privileged_flow_refuses_witness :
  let o := StaticHandler.__call__ example_vip_page example_update example_client
             (Some (example_user in_search)) in
  BaseHandler.privileged (StaticHandler.base example_vip_page) = true
  ∧ is_vip (example_user in_search) = false
  ∧ user_after o = Some (example_user in_search) ∧ calls o = [].
Proof.
  pose proof (privileged_flow_refuses (StaticHandler.base example_vip_page)
                example_update example_client (example_user in_search)
                eq_refl eq_refl) as (Hstatic & _).
  destruct (Hstatic example_vip_page eq_refl) as (Huser & Hcalls & _).
  split; [reflexivity|]. split; [reflexivity|]. split; [exact Huser|exact Hcalls].
Defined.


(** ** [core/callbacks.py]: the hide button *)

(** X7. The hide callback leaves the user's state alone; its one call
    deletes the message that carried the button, and it makes no call when
    the update names no message. *)
Theorem hide_deletes_its_message self update cq client user :
  callback_query update = Some cq →
  let o := HideMessageCallback.__call__ self update client (Some user) in
  user_after o = Some user
  ∧ match cq_message cq with
    | Some message =>
        ∀ c, chat_id message = Some c →
          calls o = [delete_message c (Some (message_id message))]
    | None => calls o = []
    end.
Proof.
  intros Hcq. simpl. unfold HideMessageCallback.__call__. rewrite Hcq. simpl.
  rewrite run_user_after, run_calls.
  destruct (cq_message cq) as [message|]; simpl.
  - unfold chat_id_of. destruct (chat_id message) as [c|]; simpl.
    + exec. rewrite bind_unfold. unfold call.
      destruct (client _); simpl; rewrite with_state_same;
        (split; [done|]); by intros ? [= <-].
    + exec. simpl. rewrite with_state_same. done.
  - by rewrite with_state_same.
Qed.

Lemma hide_deletes_its_message_witness :
  let o := HideMessageCallback.__call__ example_base
             (example_callback "hide_callback") example_client
             (Some (example_user in_search)) in
  user_after o = Some (example_user in_search)
  ∧ calls o = [delete_message 7 (Some "mid.2")].
Proof.
  pose proof (hide_deletes_its_message example_base
                (example_callback "hide_callback") _ example_client
                (example_user in_search) eq_refl) as [Huser Hcalls].
  split; [exact Huser|]. exact (Hcalls 7 eq_refl).
Defined.

(** ** [core/callbacks.py]: what the pagination callbacks send *)

Lemma calls_only_ret {A} ok (a : A) : calls_only ok (ret a).
Proof. by apply hoare_ret. Qed.

Lemma calls_only_lift {A} ok (r : result A) : calls_only ok (lift r).
Proof. by apply hoare_lift. Qed.

Lemma calls_only_raise {A} ok e : calls_only ok (raise e : M A).
Proof. by apply hoare_raise. Qed.

Lemma calls_only_get ok : calls_only ok get_state.
Proof. by apply hoare_get_state. Qed.

Lemma calls_only_modify ok f : calls_only ok (modify_state f).
Proof. by apply hoare_modify_state. Qed.

Lemma calls_only_bind {A B} ok (m : M A) (f : A → M B) :
  calls_only ok m → (∀ a, calls_only ok (f a)) → calls_only ok (m ≫= f).
Proof. intros Hm Hf. eapply hoare_bind; [exact Hm|]. intros a. apply Hf. Qed.

Lemma calls_only_call ok client c : ok c → calls_only ok (call client c).
Proof.
  intros Hc. apply hoare_call; simpl; intros; apply Forall_app; auto.
Qed.

Ltac calls_step :=
  lazymatch goal with
  | |- calls_only _ (ret _) => apply calls_only_ret
  | |- calls_only _ (mret _) => apply calls_only_ret
  | |- calls_only _ get_state => apply calls_only_get
  | |- calls_only _ (raise _) => apply calls_only_raise
  | |- calls_only _ (lift _) => apply calls_only_lift
  | |- calls_only _ (modify_state _) => apply calls_only_modify
  | |- calls_only _ (call _ _) => apply calls_only_call; simpl; try done
  | |- calls_only _ (chat_id_of _) => unfold chat_id_of
  | |- calls_only _ (_ ≫= _) => apply calls_only_bind; [|intros]
  | |- calls_only _ (match ?x with _ => _ end) => destruct x eqn:?
  end.

(** X8. A pagination callback never sends or deletes a message: whatever
    the state, the update and the client do, its calls are edits of a
    reply markup and answers to the callback query. The text of the card it
    computes goes nowhere. *)
Theorem pagination_only_edits_markup self update client user :
  Forall edits_or_answers
    (calls (PaginationCallback.__call__ self update client user)).
Proof.
  unfold PaginationCallback.__call__, BaseCallback.validate_user, errors_get.
  destruct (callback_query update) as [cq|]; [|done].
  destruct user as [user|]; [|by destruct (_ !! _)].
  rewrite run_calls.
  match goal with
  | |- Forall _ (h_calls (?body ?h).2) =>
      assert (calls_only edits_or_answers body) as Hbody
  end.
  { unfold PaginationCallback.turn_page. repeat calls_step. }
  match goal with
  | |- Forall _ (h_calls (?body ?h).2) =>
      specialize (Hbody h (Forall_nil_2 _)); by destruct (body h) as [[?|?] ?]
  end.
Qed.

Lemma py_index_in_range {A} (l : list A) i :
  0 ≤ i < Z.of_nat (length l) → ∃ x, py_index l i = Ok x.
Proof.
  intros Hi. unfold py_index.
  destruct (Z.ltb_spec i 0); [lia|].
  destruct (Z.ltb_spec i 0); [lia|].
  destruct (Z.leb_spec (Z.of_nat (length l)) i); [lia|]. simpl.
  destruct (l !! Z.to_nat i) as [x|] eqn:Hx; [eauto|].
  apply lookup_ge_None in Hx. lia.
Qed.

(** X9. After [previous], [next] or [accept] the callback edits the
    keyboard of the message that carried the button: the first row shows
    the previous button when the new page is past the first and the next
    button when it is before the last, the placeholder button otherwise,
    with the accept button between them; the second row is the exit
    button. *)
Theorem pagination_keyboard self update cq client user callback_data cards
    message c previous_button next_button inactive_button accept_button
    exit_button :
  callback_query update = Some cq →
  data cq = Some callback_data →
  callback_data ∈ ["previous_callback"; "next_callback"; "accept_callback"] →
  callback_id cq = None →
  cq_message cq = Some message → chat_id message = Some c →
  DBUserState.cards_json (state user) = Some cards →
  let page := page_after callback_data (state user) in
  let total := DBUserState.cards_total_length (state user) in
  0 ≤ page < Z.of_nat (length cards) →
  inline_button_of (BaseResponse.buttons self) "previous" = Ok previous_button →
  inline_button_of (BaseResponse.buttons self) "next" = Ok next_button →
  inline_button_of (BaseResponse.buttons self) "inactive" = Ok inactive_button →
  inline_button_of (BaseResponse.buttons self) "accept" = Ok accept_button →
  inline_button_of (BaseResponse.buttons self) "exit" = Ok exit_button →
  calls (PaginationCallback.__call__ self update client (Some user))
  = [ edit_message_reply_markup c (Some (message_id message))
        (Some (build_inline_keyboard
                 [ navigation_row previous_button next_button inactive_button
                     accept_button page total;
                   [exit_button] ])) ].
Proof.
  intros Hcq Hdata Hin Hid Hmessage Hchat Hcards page total Hpage
    Hprevious Hnext Hinactive Haccept Hexit.
  unfold PaginationCallback.__call__. rewrite Hcq. simpl. rewrite run_calls.
  match goal with
  | |- h_calls (?body ?h).2 = _ => destruct (body h) as [r h'] eqn:Hbody
  end.
  exec_in Hbody. rewrite Hcards, Hdata in Hbody. simpl in Hbody.
  assert (cards ≠ []) as Hne by (intros ->; simpl in Hpage; lia).
  assert (callback_data ≠ "") as Hd.
  { intros ->. apply list_elem_of_In in Hin. simpl in Hin.
    by destruct Hin as [|[|[|]]]. }
  apply String.eqb_neq in Hd. rewrite Hd in Hbody.
  rewrite (bool_decide_eq_false_2 _ Hne) in Hbody. simpl in Hbody.
  assert (Hturn : PaginationCallback.turn_page client cq callback_data
                    {| h_state := state user; h_calls := [] |}
                  = (Ok true,
                     {| h_state := DBUserState.set_cards_current_page page
                                     (state user);
                        h_calls := [] |})).
  { unfold PaginationCallback.turn_page, page, page_after. exec.
    apply elem_of_cons in Hin as [->|Hin]; simpl.
    { destruct (0 <? _); exec; [done|]. by rewrite set_cards_current_page_same. }
    apply elem_of_cons in Hin as [->|Hin]; simpl.
    { destruct (_ <? _); exec; [done|]. by rewrite set_cards_current_page_same. }
    apply list_elem_of_singleton in Hin as ->. simpl.
    by rewrite set_cards_current_page_same. }
  rewrite bind_unfold, Hturn in Hbody. simpl in Hbody. exec_in Hbody.
  simpl in Hbody. rewrite Hcards in Hbody. simpl in Hbody.
  destruct (py_index_in_range cards page Hpage) as [card Hcard].
  rewrite Hcard, Hprevious, Hnext, Hinactive, Haccept, Hexit in Hbody.
  exec_in Hbody. rewrite Hmessage, Hid in Hbody. simpl in Hbody.
  unfold chat_id_of in Hbody. rewrite Hchat in Hbody. exec_in Hbody.
  rewrite !bind_unfold in Hbody. unfold call in Hbody. simpl in Hbody.
  unfold navigation_row. fold total.
  destruct (client _); simpl in Hbody; injection Hbody as <- <-; done.
Qed.

Lemma pagination_keyboard_witness :
  calls (PaginationCallback.__call__ example_pager
           (example_callback "next_callback") example_client
           (Some (example_user (on_page 1))))
  = [ edit_message_reply_markup 7 (Some "mid.2")
        (Some [ [ {| btn_text := "◀"; btn_type := Some "callback";
                     btn_payload := Some "previous_callback"; btn_url := None |};
                  {| btn_text := "✓"; btn_type := Some "callback";
                     btn_payload := Some "accept_callback"; btn_url := None |};
                  {| btn_text := "·"; btn_type := Some "callback";
                     btn_payload := Some "inactive_callback"; btn_url := None |} ];
                [ {| btn_text := "Назад"; btn_type := Some "callback";
                     btn_payload := Some "exit_callback"; btn_url := None |} ] ]) ].
Proof.
  exact (pagination_keyboard example_pager (example_callback "next_callback") _
           example_client (example_user (on_page 1)) "next_callback"
           example_cards _ 7 _ _ _ _ _ eq_refl eq_refl
           ltac:(apply list_elem_of_In; simpl; tauto) eq_refl eq_refl eq_refl eq_refl
           ltac:(vm_compute; split; congruence)
           eq_refl eq_refl eq_refl eq_refl eq_refl).
Defined.

(** ** [core/handlers.py]: the chat handler *)

(** The handler in two steps: the marker flow is entered where it has to
    be and the AI service is asked; the reply follows. *)
Lemma chat_call_run self ai update msg client user top :
  message update = Some msg →
  current_top (state user) = Some top →
  let st1 := free_text_entry self top (state user) in
  ChatHandler.__call__ self ai update client (Some user)
  = run (with_state user st1)
      (post_request ai (chat_request st1 (default "" (text msg)))
       ≫= chat_reply self update msg client).
Proof.
  intros Hmsg Htop st1. unfold current_top in Htop.
  unfold ChatHandler.__call__, ChatHandler.validate_user,
    BaseCallback.validate_user. rewrite Hmsg. unfold run. simpl.
  exec. unfold last_item. rewrite Htop. exec.
  assert (Hentry :
    ∀ B (k : unit → M B),
      ((if negb (bool_decide (top ∈ ChatHandler.managed_flows self))
           && negb (top =? Sentinels.EMPTY_STR)%string
        then
          modify_state (DBUserState.set_use_pagination false);;
          modify_state (DBUserState.set_search_type "questions");;
          modify_state (push_flow Sentinels.EMPTY_STR)
        else ret tt) ≫= k) {| h_state := state user; h_calls := [] |}
      = k tt {| h_state := st1; h_calls := [] |}).
  { intros B k. subst st1. unfold free_text_entry.
    destruct (_ && _); [|done]. by rewrite !bind_assoc_run, !bind_modify. }
  rewrite Hentry. exec.
  unfold chat_request.
  destruct (DBUserState.search_type st1 =? "companies")%string;
    [|destruct (DBUserState.search_type st1 =? "products")%string];
    reflexivity.
Qed.

Lemma remove_callback_buttons_calls client cid h :
  BaseResponse._remove_callback_buttons client cid h
  = (Ok tt,
     {| h_state := untracked (h_state h);
        h_calls := h_calls h ++ removal_calls cid (h_state h) |}).
Proof.
  unfold BaseResponse._remove_callback_buttons, untracked, removal_calls. exec.
  case_bool_decide.
  - rewrite app_nil_r. by destruct h.
  - rewrite bind_unfold. unfold try_except.
    destruct (DBUserState.callback_message_need_to_delete (h_state h));
      rewrite bind_unfold; unfold call; by destruct (client _).
Qed.

(** The reply once the text is known: the old keyboard goes, the text is
    sent, and the message the client reports is tracked. *)
Lemma chat_reply_run self update msg client response h content h1 cid :
  message update = Some msg →
  chat_id msg = Some cid → cid ≠ 0 →
  ChatHandler.response_content self response h = (Ok (Some content), h1) →
  let c := send_message cid (format_message_for_max (outgoing_text content))
             (Some (reply_markup_for self (h_state h1))) in
  chat_reply self update msg client response h
  = (Ok tt,
     {| h_state := tracked (client c) (untracked (h_state h1));
        h_calls := h_calls h1 ++ removal_calls cid (h_state h1) ++ [c] |}).
Proof.
  intros Hmsg Hchat Hcid Hcontent c.
  unfold chat_reply. rewrite bind_unfold, Hcontent. exec. rewrite Hchat. exec.
  rewrite bind_unfold, remove_callback_buttons_calls.
  rewrite bind_unfold, send_message_run.
  unfold BaseResponse.update_chat_id. rewrite Hmsg, Hchat.
  apply Z.eqb_neq in Hcid. rewrite Hcid. cbv zeta. cbn [h_state h_calls].
  unfold message_call. simpl truthy_str. cbv iota.
  subst c. unfold outgoing_text, reply_markup_for, tracked.
  rewrite <- app_assoc.
  match goal with
  | |- _ = (_, {| h_state := match client ?x with _ => _ end; h_calls := _ |}) =>
      match goal with
      | |- context [client ?y] => change (client y) with (client x)
      end;
      destruct (client x) as [[|message_id]|]
  end; reflexivity.
Qed.

Lemma keeps_chat_reply I self update msg client response :
  (∀ v s, I s → I (DBUserState.set_cards_json v s)) →
  (∀ v s, I s → I (DBUserState.set_cards_current_page v s)) →
  (∀ v s, I s → I (DBUserState.set_cards_total_length v s)) →
  (∀ v s, I s → I (DBUserState.set_callback_message_id v s)) →
  (∀ v s, I s → I (DBUserState.set_callback_message_inline_markup v s)) →
  (∀ v s, I s → I (DBUserState.set_callback_message_need_to_delete v s)) →
  keeps I (chat_reply self update msg client response).
Proof.
  intros H1 H2 H3 H4 H5 H6.
  unfold chat_reply, ChatHandler.response_content.
  repeat first [apply keeps_remove_callback_buttons; by auto | keeps_step];
    auto.
Qed.

Lemma free_text_entry_top self top st :
  current_top st = Some top →
  ∃ top', current_top (free_text_entry self top st) = Some top'
          ∧ free_text_entry self top' (free_text_entry self top st)
            = free_text_entry self top st.
Proof.
  intros Htop. unfold free_text_entry at 1 3.
  destruct (negb (bool_decide (top ∈ ChatHandler.managed_flows self))
            && negb (top =? Sentinels.EMPTY_STR)%string) eqn:Hout.
  - exists "". split.
    + unfold current_top, push_flow. simpl. by rewrite last_snoc.
    + unfold free_text_entry.
      replace (negb ("" =? Sentinels.EMPTY_STR)%string) with false by done.
      rewrite andb_false_r. by rewrite Hout.
  - exists top. split; [done|]. unfold free_text_entry. by rewrite Hout.
Qed.

(** X10. Free text from a user who stands outside the managed flows (and
    not yet on the marker) enters the marker flow [""] with
    [search_type = "questions"] and [use_pagination = False]; from a managed
    flow or from the marker nothing of the navigation changes. This is the
    navigation the handler leaves on every exit, so a second free text never
    pushes a second marker. The handler asks the AI service once, with
    [gpt]/[faq] unless the search type is [companies] ([semfuz]/[cmp]) or
    [products] ([semfuz]/[prdcts]), and [top_k] 10 with pagination, 1
    without. *)
Theorem chat_enters_free_text self ai update msg client user top :
  message update = Some msg →
  current_top (state user) = Some top →
  let st1 := free_text_entry self top (state user) in
  let st' := apply_operation (OpChat self ai) update client user in
  same_navigation st' st1
  ∧ (∃ top', current_top st' = Some top' ∧ same_navigation (free_text_entry self top' st') st')
  ∧ (∀ ai', ai' (chat_request st1 (default "" (text msg)))
            = ai (chat_request st1 (default "" (text msg))) →
       ChatHandler.__call__ self ai' update client (Some user)
       = ChatHandler.__call__ self ai update client (Some user)).
Proof.
  intros Hmsg Htop st1 st'.
  assert (Hnav : same_navigation st' st1).
  { subst st'. rewrite apply_operation_stored. simpl.
    rewrite (chat_call_run _ _ _ msg _ _ top) by done. fold st1.
    unfold state_after. rewrite run_user_after. simpl.
    assert (keeps (λ s, same_navigation s st1)
              (post_request ai (chat_request st1 (default "" (text msg)))
               ≫= chat_reply self update msg client)) as Hkeeps.
    { apply keeps_bind; [apply keeps_post_request|]. intros response.
      apply keeps_chat_reply; by intros v s (? & ? & ?). }
    specialize (Hkeeps {| h_state := st1; h_calls := [] |}).
    unfold on_state in Hkeeps. simpl in Hkeeps.
    match type of Hkeeps with
    | _ → match ?m with _ => _ end => destruct m as [[?|?] h']
    end; by apply Hkeeps. }
  split; [exact Hnav|]. split.
  - destruct (free_text_entry_top self top (state user) Htop)
      as (top' & Htop' & Hidem). fold st1 in Htop', Hidem.
    destruct Hnav as (Hstack & Hsearch & Hpag).
    exists top'. split.
    + unfold current_top in *. by rewrite Hstack.
    + clearbody st1 st'. unfold free_text_entry in Hidem |- *.
      destruct (_ && _); [|done]. exfalso.
      apply (f_equal DBUserState.flow_stack) in Hidem. simpl in Hidem.
      apply (f_equal length) in Hidem. rewrite length_app in Hidem.
      simpl in Hidem. lia.
  - intros ai' Hsame.
    rewrite !(chat_call_run _ _ _ msg _ _ top) by done. fold st1.
    unfold run. rewrite !bind_unfold. unfold post_request. by rewrite Hsame.
Qed.

Lemma chat_enters_free_text_witness :
  let st' := apply_operation (OpChat example_chat example_ai)
               (example_text "привет") example_client
               (example_user DBUserState.default) in
  current_top DBUserState.default = Some "main"
  ∧ DBUserState.flow_stack st' = ["main"; ""]
  ∧ DBUserState.search_type st' = "questions"
  ∧ DBUserState.use_pagination st' = false.
Proof.
  pose proof (chat_enters_free_text example_chat example_ai
                (example_text "привет") _ example_client
                (example_user DBUserState.default) "main" eq_refl eq_refl)
    as [(Hstack & Hsearch & Hpag) _].
  split; [reflexivity|]. split; [exact Hstack|]. split; [exact Hsearch|exact Hpag].
Defined.

(** X11. When the AI service fails, the handler raises and sends nothing,
    and what reaches the store is the navigation step already taken: a user
    outside the managed flows is left on the marker flow. *)
Theorem chat_ai_failure self ai update msg client user top :
  message update = Some msg →
  current_top (state user) = Some top →
  let st1 := free_text_entry self top (state user) in
  ai (chat_request st1 (default "" (text msg))) = None →
  let o := ChatHandler.__call__ self ai update client (Some user) in
  returned o = Raise ClientError
  ∧ calls o = []
  ∧ apply_operation (OpChat self ai) update client user = st1.
Proof.
  intros Hmsg Htop st1 Hdown o. subst o.
  rewrite apply_operation_stored. simpl.
  rewrite !(chat_call_run _ _ _ msg _ _ top) by done. fold st1.
  unfold state_after, run. rewrite bind_unfold. unfold post_request.
  simpl. rewrite Hdown. done.
Qed.

Lemma chat_ai_failure_witness :
  let user := example_user DBUserState.default in
  let o := ChatHandler.__call__ example_chat example_ai_down
             (example_text "привет") example_client (Some user) in
  returned o = Raise ClientError
  ∧ calls o = []
  ∧ DBUserState.flow_stack
      (apply_operation (OpChat example_chat example_ai_down)
         (example_text "привет") example_client user)
    = ["main"; ""].
Proof.
  pose proof (chat_ai_failure example_chat example_ai_down
                (example_text "привет") _ example_client
                (example_user DBUserState.default) "main" eq_refl eq_refl eq_refl)
    as (Hret & Hcalls & Hstate).
  split; [exact Hret|]. split; [exact Hcalls|]. by rewrite Hstate.
Defined.

(** The handler on a response whose text is known, and on one whose text
    cannot be made. *)
Lemma chat_sends self ai update msg client user top cid response content st2 :
  message update = Some msg →
  chat_id msg = Some cid → cid ≠ 0 →
  current_top (state user) = Some top →
  let st1 := free_text_entry self top (state user) in
  ai (chat_request st1 (default "" (text msg))) = Some response →
  ChatHandler.response_content self response {| h_state := st1; h_calls := [] |}
  = (Ok (Some content), {| h_state := st2; h_calls := [] |}) →
  let c := send_message cid (format_message_for_max (outgoing_text content))
             (Some (reply_markup_for self st2)) in
  let user' := Some (with_state user (tracked (client c) (untracked st2))) in
  ChatHandler.__call__ self ai update client (Some user)
  = {| returned := Ok user'; user_after := user';
       calls := removal_calls cid st2 ++ [c] |}.
Proof.
  intros Hmsg Hchat Hcid Htop st1 Hai Hcontent c user'.
  pose proof (chat_reply_run self update msg client response _ _ _ cid
                Hmsg Hchat Hcid Hcontent) as Hreply.
  rewrite (chat_call_run _ _ _ msg _ _ top) by done. fold st1.
  unfold run. rewrite bind_unfold. unfold post_request. rewrite Hai.
  simpl. rewrite Hreply. reflexivity.
Qed.

Lemma chat_raises self ai update msg client user top response e st2 :
  message update = Some msg →
  current_top (state user) = Some top →
  let st1 := free_text_entry self top (state user) in
  ai (chat_request st1 (default "" (text msg))) = Some response →
  ChatHandler.response_content self response {| h_state := st1; h_calls := [] |}
  = (Raise e, {| h_state := st2; h_calls := [] |}) →
  ChatHandler.__call__ self ai update client (Some user)
  = {| returned := Raise e; user_after := Some (with_state user st2);
       calls := [] |}.
Proof.
  intros Hmsg Htop st1 Hai Hcontent.
  rewrite (chat_call_run _ _ _ msg _ _ top) by done. fold st1.
  unfold run. rewrite bind_unfold. unfold post_request. rewrite Hai.
  simpl. unfold chat_reply. rewrite bind_unfold, Hcontent. reflexivity.
Qed.

(** X12. Outside pagination the handler makes these calls and no other:
    first the one that takes the keyboard of the tracked message away
    ([delete_message] when the message is marked for deletion, else
    [edit_message_reply_markup] with the stored markup; no call only when
    [callback_message_id] is the empty string), then [send_message] with
    the answer of the AI service, un-escaped by [format_message_for_max]
    (and replaced by a fixed text when it contains the placeholder link),
    under the keyboard with the exit button alone. The message sent becomes
    the tracked one, and the cards in the state are not touched. *)
Theorem chat_plain_answer self ai update msg client user top cid response a dflt :
  message update = Some msg →
  chat_id msg = Some cid → cid ≠ 0 →
  current_top (state user) = Some top →
  let st1 := free_text_entry self top (state user) in
  DBUserState.use_pagination st1 = false →
  ai (chat_request st1 (default "" (text msg))) = Some response →
  answer response = Present a → a ≠ "" →
  BaseResponse.errors (ChatHandler.base self) !! "query_not_found" = Some dflt →
  let c := send_message cid (format_message_for_max (outgoing_text a))
             (Some (ChatHandler.inline_markup_no_pagination self)) in
  let o := ChatHandler.__call__ self ai update client (Some user) in
  returned o = Ok (Some (with_state user (tracked (client c) (untracked st1))))
  ∧ calls o = removal_calls cid st1 ++ [c]
  ∧ DBUserState.cards_json (apply_operation (OpChat self ai) update client user)
    = DBUserState.cards_json (state user).
Proof.
  intros Hmsg Hchat Hcid Htop st1 Hpag Hai Hanswer Ha Hdflt c o.
  assert (ChatHandler.response_content self response
            {| h_state := st1; h_calls := [] |}
          = (Ok (Some a), {| h_state := st1; h_calls := [] |})) as Hcontent.
  { unfold ChatHandler.response_content. rewrite Hanswer. simpl.
    apply String.eqb_neq in Ha. rewrite Ha. simpl. exec. rewrite Hpag.
    unfold errors_get. rewrite Hdflt. by exec. }
  pose proof (chat_sends self ai update msg client user top cid response a st1
                Hmsg Hchat Hcid Htop Hai Hcontent) as Hcall.
  assert (reply_markup_for self st1 = ChatHandler.inline_markup_no_pagination self)
    as Hmarkup by (unfold reply_markup_for; by rewrite Hpag).
  rewrite Hmarkup in Hcall. fold c in Hcall.
  split_and!.
  - subst o. by rewrite Hcall.
  - subst o. by rewrite Hcall.
  - rewrite apply_operation_stored. simpl. rewrite Hcall.
    unfold state_after. simpl. unfold tracked, untracked.
    assert (DBUserState.cards_json st1 = DBUserState.cards_json (state user))
      as <-.
    { subst st1. unfold free_text_entry. by destruct (_ && _). }
    destruct (client c) as [[|?]|]; by case_bool_decide.
Qed.

Lemma chat_plain_answer_witness :
  let user := example_user DBUserState.default in
  let o := ChatHandler.__call__ example_chat (example_ai_answer "Да")
             (example_text "привет") example_client (Some user) in
  (∃ st', returned o = Ok (Some (with_state user st'))
          ∧ DBUserState.callback_message_id st' = Some "mid.2"
          ∧ DBUserState.cards_json st' = None)
  ∧ calls o
    = [edit_message_reply_markup 7 None None;
       send_message 7 "Да"
         (Some (ChatHandler.inline_markup_no_pagination example_chat))].
Proof.
  pose proof (chat_plain_answer example_chat (example_ai_answer "Да")
                (example_text "привет") _ example_client
                (example_user DBUserState.default) "main" 7 _ "Да"
                "Ничего не найдено" eq_refl eq_refl ltac:(done) eq_refl
                eq_refl eq_refl eq_refl ltac:(done) eq_refl)
    as (Hret & Hcalls & _).
  split; [|exact Hcalls].
  eexists. split; [exact Hret|]. split; reflexivity.
Defined.

(** X13. The text for "nothing found" is looked up before the answer is
    taken from the response: outside pagination a configuration without
    [errors["query_not_found"]] makes the handler raise [KeyError] on every
    response, also on one that carries an answer, and nothing is sent. *)
Theorem chat_answer_needs_not_found_text self ai update msg client user top response :
  message update = Some msg →
  current_top (state user) = Some top →
  let st1 := free_text_entry self top (state user) in
  DBUserState.use_pagination st1 = false →
  ai (chat_request st1 (default "" (text msg))) = Some response →
  BaseResponse.errors (ChatHandler.base self) !! "query_not_found" = None →
  let o := ChatHandler.__call__ self ai update client (Some user) in
  returned o = Raise KeyError ∧ calls o = [].
Proof.
  intros Hmsg Htop st1 Hpag Hai Hnone o.
  assert (∃ st2, ChatHandler.response_content self response
                   {| h_state := st1; h_calls := [] |}
                 = (Raise KeyError, {| h_state := st2; h_calls := [] |}))
    as [st2 Hcontent].
  { unfold ChatHandler.response_content, errors_get. rewrite Hnone.
    destruct (_ || _).
    - exists st1. exec. rewrite Hpag. by exec.
    - eexists. by exec. }
  subst o.
  by rewrite (chat_raises self ai update msg client user top response
                KeyError st2).
Qed.

Lemma chat_answer_needs_not_found_text_witness :
  let o := ChatHandler.__call__ example_chat_no_texts (example_ai_answer "Да")
             (example_text "привет") example_client
             (Some (example_user DBUserState.default)) in
  returned o = Raise KeyError ∧ calls o = [].
Proof.
  exact (chat_answer_needs_not_found_text example_chat_no_texts
           (example_ai_answer "Да") (example_text "привет") _ example_client
           (example_user DBUserState.default) "main" _
           eq_refl eq_refl eq_refl eq_refl eq_refl).
Defined.

(** X14. A response with no answer and no cards (each of the three keys
    missing, [null] or empty) clears the stored cards and sends the text of
    [errors["query_not_found"]] under the keyboard with the exit button
    alone, with or without pagination. *)
Theorem chat_nothing_found self ai update msg client user top cid response dflt :
  message update = Some msg →
  chat_id msg = Some cid → cid ≠ 0 →
  current_top (state user) = Some top →
  let st1 := free_text_entry self top (state user) in
  ai (chat_request st1 (default "" (text msg))) = Some response →
  default "" (field_get (answer response)) = "" →
  default [] (field_get (cards response)) = [] →
  default [] (field_get (product_cards response)) = [] →
  BaseResponse.errors (ChatHandler.base self) !! "query_not_found" = Some dflt →
  let c := send_message cid (format_message_for_max (outgoing_text dflt))
             (Some (ChatHandler.inline_markup_no_pagination self)) in
  let o := ChatHandler.__call__ self ai update client (Some user) in
  (∃ user', returned o = Ok (Some user'))
  ∧ (∃ extra, calls o = extra ++ [c])
  ∧ DBUserState.cards_json (apply_operation (OpChat self ai) update client user)
    = None.
Proof.
  intros Hmsg Hchat Hcid Htop st1 Hai Hanswer Hcards Hproducts Hdflt c o.
  assert (ChatHandler.response_content self response
            {| h_state := st1; h_calls := [] |}
          = (Ok (Some dflt),
             {| h_state := DBUserState.set_cards_json None st1; h_calls := [] |}))
    as Hcontent.
  { unfold ChatHandler.response_content. rewrite Hcards, Hproducts.
    assert (truthy_str (field_get (answer response)) = false) as ->.
    { destruct (field_get (answer response)); [|done].
      simpl in Hanswer. by subst. }
    rewrite !bool_decide_eq_false_2 by (by intros []). simpl.
    unfold errors_get. rewrite Hdflt. by exec. }
  pose proof (chat_sends self ai update msg client user top cid response dflt _
                Hmsg Hchat Hcid Htop Hai Hcontent) as Hcall.
  assert (reply_markup_for self (DBUserState.set_cards_json None st1)
          = ChatHandler.inline_markup_no_pagination self) as Hmarkup.
  { unfold reply_markup_for. simpl. by rewrite andb_false_r. }
  rewrite Hmarkup in Hcall. fold c in Hcall.
  split_and!.
  - subst o. rewrite Hcall. by eexists.
  - eexists. subst o. by rewrite Hcall.
  - rewrite apply_operation_stored. simpl. rewrite Hcall.
    unfold state_after. simpl. unfold tracked, untracked.
    destruct (client c) as [[|?]|]; by case_bool_decide.
Qed.

Lemma chat_nothing_found_witness :
  let o := ChatHandler.__call__ example_chat example_ai_nothing
             (example_text "привет") example_client
             (Some (example_user (on_page 1))) in
  (∃ user', returned o = Ok (Some user'))
  ∧ DBUserState.cards_json
      (apply_operation (OpChat example_chat example_ai_nothing)
         (example_text "привет") example_client (example_user (on_page 1)))
    = None.
Proof.
  pose proof (chat_nothing_found example_chat example_ai_nothing
                (example_text "привет") _ example_client
                (example_user (on_page 1)) "Search" 7 _ "Ничего не найдено"
                eq_refl eq_refl ltac:(done) eq_refl eq_refl eq_refl eq_refl
                eq_refl eq_refl)
    as (Hret & _ & Hcards).
  split; [exact Hret|exact Hcards].
Defined.

(** X15. Under pagination a response that carries an answer together with an
    empty list of cards makes the handler raise [IndexError]: nothing is
    sent, and the state that reaches the store holds the empty list with
    page [0] of [0]. *)
Theorem chat_empty_card_list self ai update msg client user top response a :
  message update = Some msg →
  current_top (state user) = Some top →
  let st1 := free_text_entry self top (state user) in
  DBUserState.use_pagination st1 = true →
  ai (chat_request st1 (default "" (text msg))) = Some response →
  answer response = Present a → a ≠ "" →
  cards response = Present []
  ∨ (field_get (cards response) = None ∧ product_cards response = Present []) →
  let o := ChatHandler.__call__ self ai update client (Some user) in
  let st' := apply_operation (OpChat self ai) update client user in
  returned o = Raise IndexError
  ∧ calls o = []
  ∧ DBUserState.cards_json st' = Some []
  ∧ DBUserState.cards_current_page st' = 0
  ∧ DBUserState.cards_total_length st' = 0.
Proof.
  intros Hmsg Htop st1 Hpag Hai Hanswer Ha Hcards o st'.
  assert (ChatHandler.response_content self response
            {| h_state := st1; h_calls := [] |}
          = (Raise IndexError,
             {| h_state :=
                  DBUserState.set_cards_total_length 0
                    (DBUserState.set_cards_current_page 0
                       (DBUserState.set_cards_json (Some []) st1));
                h_calls := [] |})) as Hcontent.
  { unfold ChatHandler.response_content. rewrite Hanswer. simpl.
    apply String.eqb_neq in Ha. rewrite Ha. simpl. exec. rewrite Hpag.
    destruct Hcards as [->|[-> ->]]; simpl; by exec. }
  pose proof (chat_raises self ai update msg client user top response
                IndexError _ Hmsg Htop Hai Hcontent) as Hcall.
  subst o st'. rewrite apply_operation_stored. simpl. by rewrite Hcall.
Qed.

Lemma chat_empty_card_list_witness :
  let o := ChatHandler.__call__ example_chat (example_ai_no_cards "Да")
             (example_text "привет") example_client
             (Some (example_user in_search)) in
  returned o = Raise IndexError ∧ calls o = [].
Proof.
  pose proof (chat_empty_card_list example_chat (example_ai_no_cards "Да")
                (example_text "привет") _ example_client
                (example_user in_search) "Search" _ "Да"
                eq_refl eq_refl eq_refl eq_refl eq_refl ltac:(done)
                (or_introl eq_refl))
    as (Hret & Hcalls & _).
  split; [exact Hret|exact Hcalls].
Defined.

(** ** [core/bot.py]: the deduplication key *)

Lemma pretty_N_go_colon_free x s :
  colon_free s = true → colon_free (pretty_N_go x s) = true.
Proof.
  revert s. induction (N.lt_wf_0 x) as [x _ IH]; intros s Hs.
  assert (x = 0 ∨ 0 < x)%N as [->|?] by lia.
  - by rewrite pretty_N_go_0.
  - rewrite pretty_N_go_step by done. apply IH; [by apply N.div_lt|].
    simpl. rewrite Hs, andb_true_r.
    unfold pretty_N_char. by repeat case_match.
Qed.

Lemma str_int_colon_free n : colon_free (str_int n) = true.
Proof.
  assert (∀ p : positive, colon_free (pretty p) = true) as Hpos.
  { intros p. unfold pretty, pretty_positive, pretty, pretty_N.
    case_decide; [done|]. by apply pretty_N_go_colon_free. }
  unfold str_int, pretty, pretty_Z. destruct n as [|p|p]; [done|apply Hpos|].
  change ("-" +:+ pretty p) with (String "-" (pretty p)). simpl. apply Hpos.
Qed.

Lemma string_app_nil (s : string) : "" +:+ s = s.
Proof. done. Qed.

Lemma string_app_cons c (s t : string) : String c s +:+ t = String c (s +:+ t).
Proof. done. Qed.

Lemma colon_splits s1 s2 p1 p2 :
  colon_free s1 = true → colon_free s2 = true →
  s1 +:+ ":" +:+ p1 = s2 +:+ ":" +:+ p2 → s1 = s2 ∧ p1 = p2.
Proof.
  revert s2. induction s1 as [|c1 s1 IH]; intros [|c2 s2] H1 H2;
    rewrite ?string_app_cons, ?string_app_nil; simpl in H1, H2.
  - by intros [= ->].
  - intros [= <- _]. done.
  - intros [= -> _]. done.
  - intros [= -> Heq].
    apply andb_true_iff in H1 as [_ H1]. apply andb_true_iff in H2 as [_ H2].
    destruct (IH s2 H1 H2 Heq) as [-> ->]. done.
Qed.

Lemma dedup_key_inj u1 p1 u2 p2 :
  MaxBot.dedup_key u1 p1 = MaxBot.dedup_key u2 p2 → u1 = u2 ∧ p1 = p2.
Proof.
  unfold MaxBot.dedup_key. intros Heq.
  apply colon_splits in Heq as [Hu ->]; auto using str_int_colon_free.
  split; [|done]. by apply (inj pretty).
Qed.

(** X16. The deduplication key tells events apart: two keys are equal only
    for the same user id and the same payload (the decimal text of the id
    has no colon). So on a bot that has seen one callback event, an event
    of another user or with another payload is never dropped as a
    duplicate, however close in time. *)
Theorem dedup_tells_events_apart self client0 client1 e0 e1 user0 user1 :
  (∀ u1 p1 u2 p2,
     MaxBot.dedup_key u1 p1 = MaxBot.dedup_key u2 p2 → u1 = u2 ∧ p1 = p2)
  ∧ ((cb_user_id e0, cb_payload e0) ≠ (cb_user_id e1, cb_payload e1) →
     let r0 := MaxBot._process_callback self client0 ∅ e0 user0 in
     let r1 := MaxBot._process_callback self client1 (cache_after r0) e1 user1 in
     route r1 ≠ Ok Duplicate).
Proof.
  split; [apply dedup_key_inj|]. intros Hother r0 r1.
  destruct (truthy_int (cb_user_id e1) && truthy_str (cb_payload e1)) eqn:Hkeyed;
    [|apply andb_false_iff in Hkeyed;
      by apply (process_callback_unkeyed self client1 _ e1 user1)].
  apply andb_true_iff in Hkeyed as [Huid Hpayload].
  destruct (cb_user_id e1) as [u1|] eqn:Hu1; [|done].
  destruct (cb_payload e1) as [p1|] eqn:Hp1; [|done].
  simpl in Huid, Hpayload.
  apply negb_true_iff, Z.eqb_neq in Huid.
  apply negb_true_iff, String.eqb_neq in Hpayload.
  assert (cache_after r0 !! MaxBot.dedup_key u1 p1 = None) as Hfresh.
  { subst r0.
    destruct (truthy_int (cb_user_id e0) && truthy_str (cb_payload e0))
      eqn:Hkeyed0.
    - apply andb_true_iff in Hkeyed0 as [Huid0 Hpayload0].
      destruct (cb_user_id e0) as [u0|] eqn:Hu0; [|done].
      destruct (cb_payload e0) as [p0|] eqn:Hp0; [|done].
      simpl in Huid0, Hpayload0.
      apply negb_true_iff, Z.eqb_neq in Huid0.
      apply negb_true_iff, String.eqb_neq in Hpayload0.
      pose proof (process_callback_keyed self client0 ∅ e0 user0 u0 p0
                    Hu0 Huid0 Hp0 Hpayload0) as Hrun.
      simpl in Hrun.
      destruct (MaxBot.deduplicate _ _ _ _) as [cache'|] eqn:Hd.
      + destruct Hrun as [_ ->]. apply deduplicate_Some in Hd as [_ Hd].
        destruct (cache' !! MaxBot.dedup_key u1 p1) as [ts|] eqn:Hts; [|done].
        apply Hd in Hts as [Hts _].
        rewrite lookup_insert_ne in Hts; [done|].
        intros [-> ->]%dedup_key_inj. done.
      + by destruct Hrun as (_ & -> & _).
    - apply andb_false_iff in Hkeyed0.
      by destruct (process_callback_unkeyed self client0 ∅ e0 user0 Hkeyed0)
        as [_ ->]. }
  pose proof (process_callback_keyed self client1 (cache_after r0) e1 user1
                u1 p1 Hu1 Huid Hp1 Hpayload) as Hrun.
  simpl in Hrun.
  destruct (MaxBot.deduplicate _ _ _ _) as [cache'|] eqn:Hd;
    [by destruct Hrun|].
  apply deduplicate_None in Hd as (t0 & Ht0 & _). by rewrite Hfresh in Ht0.
Qed.

Lemma dedup_tells_events_apart_witness :
  let r0 := MaxBot._process_callback example_bot example_client ∅
              (example_press_by 1001 "Search" 5000)
              (example_user DBUserState.default) in
  route (MaxBot._process_callback example_bot example_client (cache_after r0)
           (example_press_by 1002 "Search" 5001)
           (example_user DBUserState.default))
  ≠ Ok Duplicate.
Proof.
  exact (proj2 (dedup_tells_events_apart example_bot example_client
                  example_client (example_press_by 1001 "Search" 5000)
                  (example_press_by 1002 "Search" 5001)
                  (example_user DBUserState.default)
                  (example_user DBUserState.default))
           ltac:(done)).
Defined.

(** ** [core/bot.py]: what the bot stores *)

Lemma handler_stores_reachable h update client user :
  reachable (state user) →
  reachable (handle (call_handler h) update client user).2.
Proof.
  intros Hreach.
  destruct h as [self|self|self|self|self]; simpl.
  - by apply (reachable_step (state user) (OpStart self) update client user).
  - by apply (reachable_step (state user) (OpReset self) update client user).
  - by apply (reachable_step (state user) (OpStatic self) update client user).
  - by apply (reachable_step (state user) (OpExtendedStatic self) update client user).
  - by apply (reachable_step (state user) (OpManaged self) update client user).
Qed.

Lemma hide_coherent self update client user :
  coherent user (HideMessageCallback.__call__ self update client (Some user)).
Proof.
  unfold HideMessageCallback.__call__, BaseCallback.validate_user.
  repeat case_match; simplify_eq;
    auto using run_coherent, return_coherent, return_none_coherent,
      raised_coherent.
Qed.

Lemma hide_state_after self update client user :
  state_after user (HideMessageCallback.__call__ self update client (Some user))
  = state user.
Proof.
  unfold HideMessageCallback.__call__, BaseCallback.validate_user.
  destruct (callback_query update) as [cq|]; [|done]. simpl.
  rewrite run_state_after.
  apply (keeps_state_eq _ {| h_state := state user; h_calls := [] |}).
  intros I. destruct (cq_message cq); repeat keeps_step.
Qed.

Lemma callback_handler_stores_reachable h update client user :
  reachable (state user) →
  reachable (handle (call_callback_handler h) update client user).2.
Proof.
  intros Hreach.
  destruct h as [self|self|self]; simpl.
  - by apply (reachable_step (state user) (OpExit self) update client user).
  - rewrite handle_middleware_stored by apply hide_coherent.
    by rewrite hide_state_after.
  - by apply (reachable_step (state user) (OpPagination self) update client user).
Qed.

Lemma reachable_stack_anchored st : reachable st → stack_anchored st.
Proof.
  induction 1 as [|st op update client user Hreach IH Hst].
  - by exists [].
  - rewrite apply_operation_stored. apply operation_keeps_anchor.
    by rewrite Hst.
Qed.

(** X17. Whatever update arrives, what the bot writes to the store is a
    reachable state: a message (command, menu button or free text) and a
    callback (fresh, duplicate, ill-formed or unknown) both lead from a
    reachable state to a reachable one. So the stored flow stack always
    starts with ["main"], and the stored page is inside its bounds whenever
    cards are stored. *)
Theorem bot_stores_reachable_states self ai client cache message_update
    callback_update user :
  reachable (state user) →
  let after_message := (_process_message self ai client message_update user).2 in
  let after_callback :=
    db_after (MaxBot._process_callback self client cache callback_update user) in
  reachable after_message ∧ reachable after_callback
  ∧ stack_anchored after_message ∧ stack_anchored after_callback
  ∧ cards_bounded after_message ∧ cards_bounded after_callback.
Proof.
  intros Hreach after_message after_callback.
  assert (reachable after_message) as Hmessage.
  { subst after_message. unfold _process_message.
    destruct (negb (truthy_int (mu_chat_id message_update))); [done|].
    set (normalized_update := {| message := _; callback_query := _ |}).
    assert (∀ handler,
      reachable (handle handler normalized_update client user).2 →
      reachable (let '(updated_user, calls, db) :=
                   handle handler normalized_update client user in
                 (Handled updated_user, calls, db)).2) as Hrun.
    { intros handler. by destruct (handle _ _ _ _) as [[? ?] ?]. }
    destruct (startswith _ _);
      destruct (MaxBot.handlers self !! _) as [h|]; try done;
      apply Hrun; try apply handler_stores_reachable; try done.
    by apply (reachable_step (state user)
                (OpChat (MaxBot.chat_handler self) ai) normalized_update
                client user). }
  assert (reachable after_callback) as Hcallback.
  { subst after_callback. unfold MaxBot._process_callback.
    destruct (cb_payload callback_update) as [payload|]; [|done].
    destruct (if _ && _ then _ else _) as [cache'|]; [|done].
    destruct (negb (truthy_str (Some payload))); [done|].
    destruct (negb (truthy_int (cb_chat_id callback_update))); [done|].
    set (normalized_update := MaxBot.normalize_callback _ _ _).
    destruct (MaxBot.callback_handlers self !! payload) as [h|].
    - pose proof (callback_handler_stores_reachable h normalized_update
                    client user Hreach) as Hh.
      by destruct (handle _ _ _ _) as [[? ?] ?].
    - destruct (MaxBot.handlers self !! payload) as [h|]; [|done]. simpl.
      pose proof (handler_stores_reachable h normalized_update client user
                    Hreach) as Hh.
      by destruct (handle _ _ _ _) as [[? ?] ?]. }
  split_and!; auto using reachable_cards_bounded, reachable_stack_anchored.
Qed.

Lemma bot_stores_reachable_states_witness :
  reachable DBUserState.default
  ∧ stack_anchored
      (_process_message example_bot example_ai example_client
         {| mu_text := Some "Search"; mu_mid := Some "mid.3";
            mu_chat_id := Some 7 |}
         (example_user DBUserState.default)).2.
Proof.
  split; [apply reachable_default|].
  exact (proj1 (proj2 (proj2
           (bot_stores_reachable_states example_bot example_ai example_client ∅
              {| mu_text := Some "Search"; mu_mid := Some "mid.3";
                 mu_chat_id := Some 7 |}
              (example_press_by 1001 "Search" 5000)
              (example_user DBUserState.default) reachable_default)))).
Defined.

(** ** [core/utils.py]: what the resolver leaves alone *)

(** Induction on a document, with the hypothesis for every item of a list
    and every value of an object. *)
Lemma json_nested_ind (P : json → Prop) :
  P JNull → (∀ b, P (JBool b)) → (∀ n, P (JNum n)) → (∀ s, P (JStr s)) →
  (∀ items, Forall P items → P (JList items)) →
  (∀ members, Forall (λ m, P m.2) members → P (JDict members)) →
  ∀ v, P v.
Proof.
  intros Hnull Hbool Hnum Hstr Hlist Hdict. fix IH 1.
  intros [|b|n|s|items|members];
    [exact Hnull|apply Hbool|apply Hnum|apply Hstr|apply Hlist|apply Hdict].
  - induction items as [|x items IHitems]; constructor;
      [apply IH|exact IHitems].
  - induction members as [|[k x] members IHmembers]; constructor;
      [apply IH|exact IHmembers].
Qed.

(** X18. The resolver changes only strings that start with [@]: a document
    without such a string comes back as it is, whatever the context. An
    object keeps its keys, in order and unresolved, also a key that starts
    with [@]; a list keeps its length; and their values and items are the
    resolved values and items. *)
Theorem resolve_references_shape context :
  (∀ data,
     (∀ s, inside (JStr s) data → startswith "@" s = false) →
     resolve_references data context = Ok data)
  ∧ (∀ members v,
       resolve_references (JDict members) context = Ok v →
       ∃ members', v = JDict members'
         ∧ members'.*1 = members.*1
         ∧ Forall2 (λ m m', resolve_references m.2 context = Ok m'.2)
             members members')
  ∧ (∀ items v,
       resolve_references (JList items) context = Ok v →
       ∃ items', v = JList items'
         ∧ Forall2 (λ x x', resolve_references x context = Ok x') items items').
Proof.
  split_and!.
  - intros data. pattern data. apply json_nested_ind; clear data;
      [|intros b|intros n|intros s|intros items IH|intros members IH];
      intros Hplain; try done.
    + simpl. rewrite Hplain; [done|constructor].
    + simpl.
      match goal with
      | |- context [?go items] => assert (go items = Ok items) as ->; [|done]
      end.
      induction IH as [|x items Hx _ IHitems]; [done|].
      rewrite Hx, IHitems; [done| |].
      * intros s Hs. apply Hplain. inversion Hs as [|items' y Hy Hin|]; subst.
        apply (inside_list _ _ y); [by right|done].
      * intros s Hs. apply Hplain.
        apply (inside_list _ _ x); [by left|done].
    + simpl.
      match goal with
      | |- context [?go members] =>
          assert (go members = Ok members) as ->; [|done]
      end.
      induction IH as [|[k x] members Hx _ IHmembers]; [done|].
      simpl in Hx. rewrite Hx, IHmembers; [done| |].
      * intros s Hs. apply Hplain.
        inversion Hs as [| |members' key y Hy Hin]; subst.
        apply (inside_dict _ _ key y); [by right|done].
      * intros s Hs. apply Hplain.
        apply (inside_dict _ _ k x); [by left|done].
  - intros members v. simpl.
    match goal with
    | |- context [?go members] => generalize (eq_refl (go members));
        generalize (go members) at 2 3
    end.
    intros [members'|e] Hgo; [|done]. intros [= <-].
    exists members'. split; [done|].
    revert members' Hgo.
    induction members as [|[k x] members IH]; intros members'.
    + intros [= <-]. by split.
    + destruct (resolve_references x context) as [x'|] eqn:Hx; [|done].
      match goal with
      | |- context [?go members] => destruct (go members) as [rest|] eqn:Hrest
      end; [|done].
      intros [= <-]. destruct (IH rest eq_refl) as [Hkeys Hvalues].
      split; [by rewrite !fmap_cons, Hkeys|]. by constructor.
  - intros items v. simpl.
    match goal with
    | |- context [?go items] => generalize (eq_refl (go items));
        generalize (go items) at 2 3
    end.
    intros [items'|e] Hgo; [|done]. intros [= <-].
    exists items'. split; [done|].
    revert items' Hgo.
    induction items as [|x items IH]; intros items'.
    + intros [= <-]. constructor.
    + destruct (resolve_references x context) as [x'|] eqn:Hx; [|done].
      match goal with
      | |- context [?go items] => destruct (go items) as [rest|] eqn:Hrest
      end; [|done].
      intros [= <-]. constructor; [done|]. by apply IH.
Qed.

Lemma resolve_references_shape_witness :
  resolve_references (JDict [("@exit", JList [JStr "exit"; JNum 1])])
    example_config
  = Ok (JDict [("@exit", JList [JStr "exit"; JNum 1])]).
Proof.
  apply (proj1 (resolve_references_shape example_config)).
  intros s Hs.
  inversion Hs as [| |members key x Hx Hin]; subst.
  apply list_elem_of_singleton in Hx as [= -> ->].
  inversion Hin as [|items y Hy Hitem|]; subst.
  apply elem_of_cons in Hy as [->|Hy].
  - by inversion Hitem.
  - apply list_elem_of_singleton in Hy as ->. inversion Hitem.
Defined.

(** ** [core/callbacks.py]: where the back button leads *)

(** What the back callback sends: the menu of the flow it returns to, when
    there is one. *)
Lemma exit_calls self update cq m c client user :
  callback_query update = Some cq →
  cq_message cq = Some m → chat_id m = Some c → c ≠ 0 →
  let o := ExitCallback.__call__ self update client (Some user) in
  calls o
  = match ExitCallback.keyboard_markup self
            !! default "main" (current_top (state_after user o)) with
    | Some (vip, all) =>
        [send_message c (BaseResponse.content (ExitCallback.base self))
           (Some (if is_vip user then vip else all))]
    | None => []
    end.
Proof.
  intros Hcq Hm Hc Hnz o. subst o.
  rewrite (exit_state_after _ _ cq) by done.
  unfold ExitCallback.__call__. rewrite Hcq. simpl.
  rewrite run_calls. exec.
  apply Z.eqb_neq in Hnz.
  destruct (1 <? Z.of_nat (length (DBUserState.flow_stack (state user))));
    exec; rewrite Hm; unfold chat_id_of; rewrite Hc; exec; unfold current_top;
    simpl; rewrite bind_assoc_run, !bind_ret;
    (destruct (ExitCallback.keyboard_markup self !! _) as [[vip all]|];
     [|done]); rewrite Hnz; rewrite bind_unfold; unfold call; simpl;
    by destruct (client _).
Qed.

(** X19. Entering a managed flow and pressing back is a round trip on the
    flow stack: the stack is the one the user had, the search settings are
    the cleared ones ([use_pagination = False], [search_type = ""],
    [cards_json = None]), and everything else in the state is as before
    the entry. What the back callback sends is the menu of the flow the
    user came from, built from the menus as they are (no back button is
    added); when that flow has no menu, nothing is sent. *)
Theorem enter_then_back self base update msg back cq m c client client' user
    current :
  message update = Some msg →
  privilege_ok (ManagedHandler.base self) user →
  current_top (state user) = Some current →
  flow_allowed (ManagedHandler.base self) current = true →
  callback_query back = Some cq →
  cq_message cq = Some m → chat_id m = Some c → c ≠ 0 →
  let user' :=
    with_state user (apply_operation (OpManaged self) update client user) in
  let exit := ExitCallback.init base in
  apply_operation (OpExit exit) back client' user'
  = DBUserState.set_cards_json None
      (DBUserState.set_search_type ""
         (DBUserState.set_use_pagination false (state user)))
  ∧ calls (ExitCallback.__call__ exit back client' (Some user'))
    = match BaseResponse.menus base !! current with
      | Some buttons =>
          [send_message c (BaseResponse.content base)
             (Some (build_keyboard buttons (is_vip user)))]
      | None => []
      end.
Proof.
  intros Hmsg Hpriv Htop Hallowed Hcq Hm Hc Hnz user' exit.
  pose proof (managed_run self update msg client user current Hmsg
                (validate_user_ok _ _ Hpriv) Htop) as Hentry.
  simpl in Hentry. rewrite Hallowed in Hentry. destruct Hentry as [Hentry _].
  assert (state user'
          = DBUserState.set_use_pagination (ManagedHandler.use_pagination self)
              (push_flow (BaseHandler.current_flow (ManagedHandler.base self))
                 (DBUserState.set_search_type (ManagedHandler.search_type self)
                    (state user)))) as Hstate.
  { subst user'. simpl. by rewrite apply_operation_stored. }
  assert (apply_operation (OpExit exit) back client' user'
          = DBUserState.set_cards_json None
              (DBUserState.set_search_type ""
                 (DBUserState.set_use_pagination false (state user)))) as Hback.
  { rewrite apply_operation_stored. simpl.
    rewrite (exit_state_after _ _ cq) by done. rewrite Hstate.
    unfold push_flow, pop_flow. simpl. rewrite length_app. simpl.
    assert ((1 <? Z.of_nat (length (DBUserState.flow_stack (state user)) + 1))
            = true) as ->.
    { apply Z.ltb_lt. unfold current_top in Htop.
      destruct (DBUserState.flow_stack (state user)); [done|]. simpl. lia. }
    simpl. rewrite removelast_last. by destruct (state user). }
  split; [exact Hback|].
  rewrite (exit_calls _ _ cq m c) by done.
  change (state_after user' (ExitCallback.__call__ exit back client' (Some user')))
    with (state_after user' (operation_call (OpExit exit) back client' (Some user'))).
  rewrite <- apply_operation_stored, Hback.
  unfold current_top. simpl. fold (current_top (state user)). rewrite Htop.
  simpl. subst exit. unfold ExitCallback.init. simpl. rewrite lookup_fmap.
  destruct (BaseResponse.menus base !! current) as [buttons|]; [|done].
  simpl. by destruct (is_vip user).
Qed.

Lemma enter_then_back_witness :
  let user := example_user DBUserState.default in
  let user' :=
    with_state user
      (apply_operation (OpManaged example_search) example_update example_client
         user) in
  DBUserState.flow_stack (state user') = ["main"; "Search"]
  ∧ DBUserState.flow_stack
      (apply_operation (OpExit example_exit) (example_callback "exit_callback")
         example_client user')
    = ["main"].
Proof.
  pose proof (enter_then_back example_search example_base example_update _
                (example_callback "exit_callback") _ _ 7 example_client
                example_client (example_user DBUserState.default) "main"
                eq_refl ltac:(done) eq_refl eq_refl eq_refl eq_refl eq_refl
                ltac:(done)) as [Hback _].
  split; [reflexivity|]. simpl in Hback.
  exact (f_equal DBUserState.flow_stack Hback).
Defined.
